(** * HRIS REST API: session store and attendance cycle

    A shallow embedding of
    - [controllers/session_manager.py] (class [SessionManager]),
    - [controllers/attendance.py] (the toggle, check-in and check-out
      handlers, [_is_within_radius], [_format_time_local]),
    - [hris_attendance_gps/models/hr_attendance.py] ([HrAttendance.write]).

    Conventions of the embedding.
    - A [datetime] is an integer number of microseconds since
      1970-01-01 00:00:00 (Python's resolution); a [timedelta] is a number of
      microseconds; a [date] is a number of days since 1970-01-01.
    - A handler reads the clock once: every [datetime.now()] of one call is
      the same instant, passed as the argument [now] (UTC).
    - Python floats are the kernel's binary64 floats; the float of
      [timedelta.total_seconds()] is carried as the rational it denotes, with
      the roundings written out (module [Binary64]).
    - [pytz.timezone('Asia/Jakarta')] is UTC+7 without daylight saving, as
      it has been since 1 January 1964; instants before that date, when the
      zone had other offsets, are outside the embedding.
    - The record store is a plain table: [create] appends a row with a fresh
      id, [search] filters rows.  Constraints that the base [hr.attendance]
      model adds on its own are outside this repository.
    - Requests run one after the other; a handler is a function from the
      store before the request to the response and the store after it. *)

From Stdlib Require Import ZArith String Ascii List Floats Lia Bool.
From Stdlib Require Import DecimalString Sorted.
From stdpp Require Import base option list gmap strings fin_maps.

Set Warnings "-register-all,-inexact-float".

Open Scope Z_scope.

(** ** Time *)

Module Clock.

Definition us_per_second : Z := 1000000.
Definition us_per_day : Z := 86400 * us_per_second.

(** [timedelta(hours=h)] *)
Definition hours (h : Z) : Z := h * 3600 * us_per_second.

(** [datetime.date()] of a naive datetime, and the datetime that the string
    [date.strftime('%Y-%m-%d 00:00:00')] denotes. *)
Definition date_of (naive : Z) : Z := naive / us_per_day.
Definition midnight (day : Z) : Z := day * us_per_day.

(** Days since 1970-01-01 of a proleptic Gregorian date, to write instants
    the way the source and the specification write them. *)
Definition days_from_civil (y m d : Z) : Z :=
  let y' := if m <=? 2 then y - 1 else y in
  let era := y' / 400 in
  let yoe := y' - era * 400 in
  let mp := (m + 9) mod 12 in
  let doy := (153 * mp + 2) / 5 + d - 1 in
  let doe := yoe * 365 + yoe / 4 - yoe / 100 + doy in
  era * 146097 + doe - 719468.

(** [datetime(y, m, d, hh, mm, ss, us)] *)
Definition datetime (y m d hh mm ss us : Z) : Z :=
  midnight (days_from_civil y m d) + ((hh * 60 + mm) * 60 + ss) * us_per_second + us.

(** An aware datetime: the wall clock reading and the zone's offset. *)
Record aware := { wall : Z; utcoffset : Z }.

(** [pytz.timezone('Asia/Jakarta')]: WIB, UTC+7 without daylight saving.
    This is the zone's offset from 1964-01-01 00:00 on; before, it was
    UTC+7:30 and other offsets, which are not modelled. *)
Definition indonesia_tz : Z := hours 7.

(** [datetime.now(tz)] at the instant [now]. *)
Definition now_in (tz : Z) (now : Z) : aware :=
  {| wall := now + tz; utcoffset := tz |}.

(** [pytz.utc.localize(dt)] for a naive [dt] *)
Definition utc_localize (dt : Z) : aware := {| wall := dt; utcoffset := 0 |}.

(** [dt.astimezone(tz)]: the same instant on another zone's wall clock. *)
Definition astimezone (tz : Z) (dt : aware) : aware :=
  {| wall := wall dt - utcoffset dt + tz; utcoffset := tz |}.

(** [dt.astimezone(pytz.UTC).replace(tzinfo=None)] *)
Definition astimezone_utc_naive (dt : aware) : Z := wall (astimezone 0 dt).

End Clock.

(** ** Text formatting *)

Definition decimal (n : Z) : string := NilZero.string_of_uint (N.to_uint (Z.to_N n)).

(** The format spec [:02d]: sign first, then zero padding up to two columns. *)
Definition fmt_02d (n : Z) : string :=
  if n <? 0 then String "-" (decimal (- n))
  else if n <? 10 then String "0" (decimal n)
  else decimal n.

(** ** The float of a duration

    [timedelta.total_seconds()] is a binary64 float, and [//] and [%] on it
    are float operations.  The kernel's floats have no [fmod] and no
    [floor], so this float is carried as the rational number it denotes, and
    every rounding of the float operations is written out. *)

Module Binary64.

(** A finite binary64 value, as the rational [num / den] with [0 < den]. *)
Record ratio := { num : Z; den : Z }.

Definition of_Z (n : Z) : ratio := {| num := n; den := 1 |}.

(** The exact sum, difference and quotient by a positive integer. *)
Definition add (x y : ratio) : ratio :=
  {| num := num x * den y + num y * den x; den := den x * den y |}.
Definition sub (x y : ratio) : ratio :=
  {| num := num x * den y - num y * den x; den := den x * den y |}.
Definition div_by (x : ratio) (w : Z) : ratio := {| num := num x; den := den x * w |}.

(** C's [floor] and the truncation of [int(x)]. *)
Definition floor (x : ratio) : Z := num x / den x.
Definition trunc (x : ratio) : Z := Z.quot (num x) (den x).

(** The integer nearest to [n / d], the even one in case of a tie. *)
Definition nearest_even (n d : Z) : Z :=
  let q := n / d in
  let r := n mod d in
  if 2 * r <? d then q
  else if d <? 2 * r then q + 1
  else if Z.even q then q else q + 1.

(** The [k] with [2^k <= a / d < 2^(k+1)], for positive [a] and [d]. *)
Definition binade (a d : Z) : Z :=
  let k := Z.log2 a - Z.log2 d in
  if (if 0 <=? k then d * 2 ^ k <=? a else d <=? a * 2 ^ (- k)) then k else k - 1.

(** Rounding to the nearest binary64, ties to even: 53 significant bits.
    The values that occur are zero or between a microsecond and the span of
    [datetime], so there is neither overflow nor a subnormal result. *)
Definition round (x : ratio) : ratio :=
  if num x =? 0 then of_Z 0
  else
    let a := Z.abs (num x) in
    let e := binade a (den x) - 52 in
    if 0 <=? e
    then of_Z (Z.sgn (num x) * nearest_even a (den x * 2 ^ e) * 2 ^ e)
    else {| num := Z.sgn (num x) * nearest_even (a * 2 ^ (- e)) (den x);
            den := 2 ^ (- e) |}.

(** C's [fmod(x, w)] for a positive integer [w]: exact, with the sign of
    [x]. *)
Definition fmod (x : ratio) (w : Z) : ratio :=
  {| num := num x - w * den x * Z.quot (num x) (w * den x); den := den x |}.

(** [vx // w] on floats, for a positive integer literal [w] (CPython's
    [float_floor_div]):
<<
    mod = fmod(vx, wx);
    div = (vx - mod) / wx;
    if (mod) { if ((wx < 0) != (mod < 0)) { mod += wx; div -= 1.0; } }
    if (div) { floordiv = floor(div);
               if (div - floordiv > 0.5) floordiv += 1.0; }
    else floordiv = copysign(0.0, vx / wx);
>>
    The result is a float with an integer value, returned as that integer. *)
Definition floordiv (vx : ratio) (w : Z) : Z :=
  let remainder := fmod vx w in
  let quotient := round (div_by (round (sub vx remainder)) w) in
  let quotient :=
    if negb (num remainder =? 0) && (num remainder <? 0)
    then round (sub quotient (of_Z 1)) else quotient in
  if num quotient =? 0 then 0
  else
    let floordiv := floor quotient in
    let rest := round (sub quotient (of_Z floordiv)) in
    if den rest <? 2 * num rest then floordiv + 1 else floordiv.

(** [vx % w] on floats, for a positive integer literal [w] (CPython's
    [float_rem]):
<<
    mod = fmod(vx, wx);
    if (mod) { if ((wx < 0) != (mod < 0)) mod += wx; }
    else mod = copysign(0.0, wx);
>> *)
Definition rem (vx : ratio) (w : Z) : ratio :=
  let remainder := fmod vx w in
  if num remainder =? 0 then of_Z 0
  else if num remainder <? 0 then round (add remainder (of_Z w)) else remainder.

(** [timedelta.total_seconds()]: the microseconds divided by [10**6], an
    [int / int] division, which Python rounds correctly. *)
Definition total_seconds (duration : Z) : ratio :=
  round {| num := duration; den := Clock.us_per_second |}.

End Binary64.

(** The duration arithmetic shared by the toggle, the check-out handler, the
    dashboard and [HrAttendance.write]:
<<
    hours = int(duration.total_seconds() // 3600)
    minutes = int((duration.total_seconds() % 3600) // 60)
    seconds = int(duration.total_seconds() % 60)
    working_hours = f"{hours:02d}:{minutes:02d}:{seconds:02d}"
>> *)
Definition duration_hours (duration : Z) : Z :=
  Binary64.floordiv (Binary64.total_seconds duration) 3600.
Definition duration_minutes (duration : Z) : Z :=
  Binary64.floordiv (Binary64.rem (Binary64.total_seconds duration) 3600) 60.
Definition duration_seconds (duration : Z) : Z :=
  Binary64.trunc (Binary64.rem (Binary64.total_seconds duration) 60).

Definition format_working_hours (duration : Z) : string :=
  (fmt_02d (duration_hours duration) +:+ ":" +:+
   fmt_02d (duration_minutes duration) +:+ ":" +:+
   fmt_02d (duration_seconds duration))%string.

(** ** Session store ([session_manager.py]) *)

Module SessionManager.

(** One entry of [self._sessions]. *)
Record session_data := {
  user_id : Z;
  created_at : Z;
  last_used : Z
}.

(** [self._cleanup_interval = timedelta(hours=24)] *)
Definition _cleanup_interval : Z := Clock.hours 24.

(** Collects the tokens with [now - data['created_at'] > self._cleanup_interval]
    and deletes them. *)
Definition _cleanup_expired_sessions (now : Z) (sessions : gmap string session_data)
  : gmap string session_data :=
  filter (fun entry => ¬ (_cleanup_interval < now - created_at entry.2)) sessions.

Definition store_session (now : Z) (session_token : string) (uid : Z)
    (sessions : gmap string session_data) : gmap string session_data :=
  _cleanup_expired_sessions now
    (<[session_token := {| user_id := uid; created_at := now; last_used := now |}]> sessions).

Definition touch (now : Z) (d : session_data) : session_data :=
  {| user_id := user_id d; created_at := created_at d; last_used := now |}.

Definition get_user_id (now : Z) (session_token : string)
    (sessions : gmap string session_data) : option Z * gmap string session_data :=
  match sessions !! session_token with
  | Some d =>
      if bool_decide (now - created_at d < _cleanup_interval)
      then (Some (user_id d), <[session_token := touch now d]> sessions)
      else (None, delete session_token sessions)
  | None => (None, sessions)
  end.

Definition get_session (now : Z) (session_token : string)
    (sessions : gmap string session_data)
  : option session_data * gmap string session_data :=
  match sessions !! session_token with
  | Some d =>
      if bool_decide (now - created_at d < _cleanup_interval)
      then (Some (touch now d), <[session_token := touch now d]> sessions)
      else (None, delete session_token sessions)
  | None => (None, sessions)
  end.

Definition remove_session (session_token : string)
    (sessions : gmap string session_data) : gmap string session_data :=
  delete session_token sessions.

Definition get_session_count (sessions : gmap string session_data) : nat :=
  size sessions.

End SessionManager.

(** ** Decoded JSON and Python's reading of it *)

Inductive json :=
| JNull
| JBool (b : bool)
| JInt (z : Z)
| JFloat (f : float)
| JStr (s : string)
| JArr (items : list json)
| JObj (members : list (string * json)).

(** Truth value of a decoded value ([not v] is its negation): [None],
    [False], zero, the empty string and empty containers are false. *)
Definition truthy (v : json) : bool :=
  match v with
  | JNull => false
  | JBool b => b
  | JInt z => negb (z =? 0)
  | JFloat f => negb (PrimFloat.eqb f 0)
  | JStr s => negb (String.eqb s "")
  | JArr items => match items with [] => false | _ => true end
  | JObj members => match members with [] => false | _ => true end
  end.

(** [json.loads] keeps the last of repeated member names. *)
Fixpoint dict_lookup (members : list (string * json)) (key : string) : option json :=
  match members with
  | [] => None
  | (k, v) :: rest =>
      match dict_lookup rest key with
      | Some v' => Some v'
      | None => if String.eqb k key then Some v else None
      end
  end.

(** [data.get(key)] and [data.get(key, default)] *)
Definition dict_get (members : list (string * json)) (key : string) : json :=
  default JNull (dict_lookup members key).
Definition dict_get_default (members : list (string * json)) (key : string) (d : json) : json :=
  default d (dict_lookup members key).

(** The body of a request as [request.httprequest.data] presents it. *)
Inductive Body :=
| EmptyBody
| NotUtf8
| NotJson
| JsonBody (v : json).

(** [float(n)] for an [int]: the nearest binary64 value, [OverflowError]
    when there is none. *)
Definition float_of_int (z : Z) : option float :=
  let f := SF2Prim (binary_normalize prec emax z 0 false) in
  if PrimFloat.is_infinity f then None else Some f.

(** What the handlers take from outside the repository: the builtin
    [float] on a string ([None] for [ValueError]), geopy's
    [geodesic(p, q).meters] ([None] when it raises, as for a latitude out of
    range), and the offset from UTC of the server process's time zone, which
    naive [datetime.now()] and [date.today()] read. *)
Class Runtime := {
  float_of_str : string -> option float;
  geodesic_meters : float * float -> float * float -> option float;
  server_utc_offset : Z
}.

(** The builtin [float]; [None] stands for [TypeError] or [ValueError]. *)
Definition py_float `{Runtime} (v : json) : option float :=
  match v with
  | JNull => None
  | JBool b => Some (if b then 1%float else 0%float)
  | JInt z => float_of_int z
  | JFloat f => Some f
  | JStr s => float_of_str s
  | JArr _ => None
  | JObj _ => None
  end.

(** [x or d] for a float [x] and a non-zero [d] *)
Definition float_or (x d : float) : float := if PrimFloat.eqb x 0 then d else x.

(** ** Records of the store *)

Record User := {
  uid : Z;
  user_name : string;
  user_email : string
}.

Record Company := {
  company_id : Z;
  company_latitude : float;
  company_longitude : float
}.

Record Employee := {
  employee_id : Z;
  employee_name : string;
  work_email : string;
  employee_user_id : option Z;
  employee_company_id : option Z
}.

(** A row of [hr_attendance] with the columns of [hris_attendance_gps]. *)
Record Attendance := {
  att_id : Z;
  att_employee_id : Z;
  att_check_in : Z;
  att_check_out : option Z;
  att_working_hours : string;
  att_selfie_photo : json;
  att_latitude : json;
  att_longitude : json
}.

Record Db := {
  env_company : Company;
  companies : list Company;
  employees : list Employee;
  attendances : list Attendance
}.

Definition with_employees (db : Db) (es : list Employee) : Db :=
  {| env_company := env_company db; companies := companies db;
     employees := es; attendances := attendances db |}.

Definition with_attendances (db : Db) (rows : list Attendance) : Db :=
  {| env_company := env_company db; companies := companies db;
     employees := employees db; attendances := rows |}.

(** The next value of a table's id sequence. *)
Definition fresh_id (ids : list Z) : Z := 1 + fold_right Z.max 0 ids.

Definition is_open (a : Attendance) : bool :=
  match att_check_out a with None => true | Some _ => false end.

(** [order='check_in desc'], which is also the default order of
    [hr.attendance]. *)
Fixpoint insert_check_in_desc (a : Attendance) (rows : list Attendance) : list Attendance :=
  match rows with
  | [] => [a]
  | b :: rest =>
      if att_check_in b <? att_check_in a then a :: rows
      else b :: insert_check_in_desc a rest
  end.

Definition order_check_in_desc (rows : list Attendance) : list Attendance :=
  fold_right insert_check_in_desc [] rows.

(** [search(domain, limit=1)] on [hr.attendance] *)
Definition search_first (domain : Attendance -> bool) (rows : list Attendance)
  : option Attendance :=
  head (List.filter domain (order_check_in_desc rows)).

(** [UPDATE hr_attendance SET ... WHERE ...]: the rows after the statement
    and [cr.rowcount]. *)
Definition sql_update (where_ : Attendance -> bool) (set : Attendance -> Attendance)
    (rows : list Attendance) : list Attendance * nat :=
  (map (fun r => if where_ r then set r else r) rows,
   length (List.filter where_ rows)).

Definition set_check_out (check_out_utc : Z) (working_hours : string) (a : Attendance)
  : Attendance :=
  {| att_id := att_id a; att_employee_id := att_employee_id a;
     att_check_in := att_check_in a; att_check_out := Some check_out_utc;
     att_working_hours := working_hours; att_selfie_photo := att_selfie_photo a;
     att_latitude := att_latitude a; att_longitude := att_longitude a |}.

(** [HrAttendance.write]: the values [vals] may carry for the columns the
    override reads or writes. *)
Record write_vals := {
  w_check_in : option Z;
  w_check_out : option (option Z);
  w_working_hours : option string
}.

(** [super().write(vals)] on one record *)
Definition orm_write (vals : write_vals) (a : Attendance) : Attendance :=
  {| att_id := att_id a; att_employee_id := att_employee_id a;
     att_check_in := default (att_check_in a) (w_check_in vals);
     att_check_out := default (att_check_out a) (w_check_out vals);
     att_working_hours := default (att_working_hours a) (w_working_hours vals);
     att_selfie_photo := att_selfie_photo a;
     att_latitude := att_latitude a; att_longitude := att_longitude a |}.

Definition HrAttendance_write (vals : write_vals) (record : Attendance) : Attendance :=
  let record := orm_write vals record in
  match w_check_out vals with
  | Some _ =>
      match att_check_out record with
      | Some check_out =>
          let duration := check_out - att_check_in record in
          orm_write {| w_check_in := None; w_check_out := None;
                       w_working_hours := Some (format_working_hours duration) |} record
      | None => record
      end
  | None => record
  end.

(** ** Responses *)

(** The message of a response.  [MsgOutsideOffice distance] is
    [f"Anda di luar area kantor. Jarak: {distance/1000:.2f} km dari kantor (max: 2.0 km)"]
    with [distance] in metres; [MsgError prefix] is [f"{prefix}: {str(e)}"]. *)
Inductive Message :=
| Msg (text : string)
| MsgOutsideOffice (distance : float)
| MsgError (prefix : string).

(** The [data] of the toggle's answer.  [time_local] is [check_in_time] or
    [check_out_time]; [distance_from_office] is in metres (the handler prints
    it in kilometres). *)
Record toggle_data := {
  action : string;
  time_local : string;
  td_working_hours : option string;
  is_checked_in : bool;
  td_location : json;
  distance_from_office : float
}.

Inductive response_data :=
| ToggleData (d : toggle_data)
| CheckInData (attendance : Attendance) (location notes : json)
    (distance : float) (within_radius : bool)
| CheckOutData (attendance : Attendance) (check_out : Z) (location notes : json).

(** The envelope of [_json_response], without its [timestamp]. *)
Record Response := {
  status : Z;
  success : bool;
  message : Message;
  data : option response_data
}.

Definition _json_response (d : option response_data) (m : Message) : Response :=
  {| status := 200; success := true; message := m; data := d |}.

Definition _error_response (m : Message) (st : Z) : Response :=
  {| status := st; success := false; message := m; data := None |}.

(** ** [attendance.py] *)

Definition _get_current_datetime_local (now : Z) : Clock.aware :=
  Clock.now_in Clock.indonesia_tz now.

(** [strftime('%I:%M %p')] of a wall clock reading *)
Definition strftime_I_M_p (wall : Z) : string :=
  let second_of_day := (wall mod Clock.us_per_day) / Clock.us_per_second in
  let h := second_of_day / 3600 in
  let m := (second_of_day mod 3600) / 60 in
  let h12 := if h mod 12 =? 0 then 12 else h mod 12 in
  (fmt_02d h12 +:+ ":" +:+ fmt_02d m +:+ " " +:+ (if (h <? 12)%Z then "AM" else "PM"))%string.

(** A naive datetime is taken as UTC and shown in WIB. *)
Definition _format_time_local (dt : Z) : string :=
  let utc_dt := Clock.utc_localize dt in
  let local_dt := Clock.astimezone Clock.indonesia_tz utc_dt in
  strftime_I_M_p (Clock.wall local_dt).

Definition _is_within_radius `{Runtime}
    (user_lat user_lon office_lat office_lon : json) (radius_m : float) : bool :=
  match py_float user_lat, py_float user_lon, py_float office_lat, py_float office_lon with
  | Some ulat, Some ulon, Some olat, Some olon =>
      match geodesic_meters (ulat, ulon) (olat, olon) with
      | Some distance => PrimFloat.leb distance radius_m
      | None => false
      end
  | _, _, _, _ => false
  end.

(** [request.env['hr.employee'].sudo().create({...})] for a user *)
Definition new_employee (user : User) (db : Db) : Employee :=
  {| employee_id := fresh_id (map employee_id (employees db));
     employee_name := user_name user;
     work_email := user_email user;
     employee_user_id := Some (uid user);
     employee_company_id := Some (company_id (env_company db)) |}.

Definition employee_of_user (user : User) (e : Employee) : bool :=
  match employee_user_id e with
  | Some u => u =? uid user
  | None => false
  end.

(** [employee.company_id or request.env.company] *)
Definition company_of (employee : Employee) (db : Db) : Company :=
  match employee_company_id employee with
  | Some cid =>
      default (env_company db) (List.find (fun c => company_id c =? cid) (companies db))
  | None => env_company db
  end.

(** [datetime.now().date()] and [date.today()]: the date on the server
    process's clock. *)
Definition server_today `{Runtime} (now : Z) : Z :=
  Clock.date_of (now + server_utc_offset).

(** The domain of the toggle's search: the employee's rows whose [check_in]
    lies from today's [00:00:00] up to, not including, tomorrow's, where
    today is [datetime.now().date()]. *)
Definition today_domain `{Runtime} (now : Z) (employee : Employee) (a : Attendance) : bool :=
  let today := server_today now in
  (att_employee_id a =? employee_id employee)
  && (Clock.midnight today <=? att_check_in a)
  && (att_check_in a <? Clock.midnight (today + 1)).

(** Lines 406-524: one check-in/check-out cycle per day. *)
Definition toggle_cycle `{Runtime} (now : Z) (employee : Employee)
    (latitude longitude camera_image location : json) (distance : float)
    (db : Db) : Response * Db :=
  match search_first (today_domain now employee) (attendances db) with
  | Some today_attendance =>
      match att_check_out today_attendance with
      | None =>
          let check_out_time := _get_current_datetime_local now in
          let check_out_utc := Clock.astimezone_utc_naive check_out_time in
          let check_in_utc := att_check_in today_attendance in
          let duration := check_out_utc - check_in_utc in
          let working_hours := format_working_hours duration in
          let updated :=
            sql_update
              (fun r => (att_id r =? att_id today_attendance) && is_open r)
              (set_check_out check_out_utc working_hours)
              (attendances db) in
          if (updated.2 =? 0)%nat
          then (_error_response (Msg "Failed to update checkout") 500, db)
          else
            (_json_response
               (Some (ToggleData
                  {| action := "check_out";
                     time_local := _format_time_local check_out_utc;
                     td_working_hours := Some working_hours;
                     is_checked_in := false;
                     td_location := location;
                     distance_from_office := distance |}))
               (Msg "Check out successful"),
             with_attendances db updated.1)
      | Some _ =>
          (_error_response
             (Msg "Anda sudah melakukan check-in dan check-out hari ini. Tunggu sampai besok untuk attendance berikutnya.")
             400, db)
      end
  | None =>
      let check_in_time := _get_current_datetime_local now in
      let check_in_utc := Clock.astimezone_utc_naive check_in_time in
      let attendance :=
        {| att_id := fresh_id (map att_id (attendances db));
           att_employee_id := employee_id employee;
           att_check_in := check_in_utc;
           att_check_out := None;
           att_working_hours := "00:00:00";
           att_selfie_photo := camera_image;
           att_latitude := latitude;
           att_longitude := longitude |} in
      (_json_response
         (Some (ToggleData
            {| action := "check_in";
               time_local := _format_time_local check_in_utc;
               td_working_hours := None;
               is_checked_in := true;
               td_location := location;
               distance_from_office := distance |}))
         (Msg "Check in successful"),
       with_attendances db (attendances db ++ [attendance]))
  end.

(** [json.loads(request.httprequest.data.decode('utf-8')) if request.httprequest.data else {}]
    inside [try ... except json.JSONDecodeError: data = {}]; [None] when the
    bytes are not UTF-8, which that [except] does not catch. *)
Definition toggle_request_data (body : Body) : option json :=
  match body with
  | EmptyBody => Some (JObj [])
  | NotUtf8 => None
  | NotJson => Some (JObj [])
  | JsonBody v => Some v
  end.

(** The employee of the user, created when there is none. *)
Definition toggle_employee (user : User) (db : Db) : Employee * Db :=
  match List.find (employee_of_user user) (employees db) with
  | Some employee => (employee, db)
  | None =>
      let employee := new_employee user db in
      (employee, with_employees db (employees db ++ [employee]))
  end.

(** [office_lat = getattr(company, 'latitude', None) or -6.969182] and the
    same for the longitude.  Both are non-zero, so the branch of the source
    that writes default coordinates to the company cannot run. *)
Definition toggle_office (company : Company) : float * float :=
  (float_or (company_latitude company) (-6.969182)%float,
   float_or (company_longitude company) 107.629251%float).

(** [POST /api/attendance/toggle].  [user] is what [_get_user_from_session]
    returned.  A response returned without [rollback] leaves what the request
    wrote so far in the store; the outermost [except] rolls back. *)
Definition toggle_checkin_checkout `{Runtime} (now : Z) (user : option User)
    (body : Body) (db : Db) : Response * Db :=
  match user with
  | None => (_error_response (Msg "Authentication required") 401, db)
  | Some user =>
      match toggle_request_data body with
      | Some (JObj data) =>
          let latitude := dict_get data "latitude" in
          let longitude := dict_get data "longitude" in
          let location := dict_get_default data "location" (JStr "Unknown Location") in
          let camera_image := dict_get data "camera_image" in
          if negb (truthy latitude) || negb (truthy longitude) then
            (_error_response (Msg "GPS coordinates are required for attendance") 400, db)
          else if negb (truthy camera_image) then
            (_error_response (Msg "Camera photo is required for attendance") 400, db)
          else
            let found := toggle_employee user db in
            let employee := found.1 in
            let db := found.2 in
            let company := company_of employee db in
            let office_lat := (toggle_office company).1 in
            let office_lon := (toggle_office company).2 in
            match py_float latitude, py_float longitude with
            | Some user_lat_f, Some user_lon_f =>
                match geodesic_meters (user_lat_f, user_lon_f) (office_lat, office_lon) with
                | Some distance =>
                    let within_radius :=
                      _is_within_radius latitude longitude
                        (JFloat office_lat) (JFloat office_lon) 100000%float in
                    if negb within_radius
                    then (_error_response (MsgOutsideOffice distance) 400, db)
                    else toggle_cycle now employee latitude longitude
                           camera_image location distance db
                | None => (_error_response (Msg "Error validating location") 500, db)
                end
            | _, _ => (_error_response (Msg "Error validating location") 500, db)
            end
      | _ => (_error_response (MsgError "Error during check-in/out") 500, db)
      end
  end.

(** [for emp in employees[1:]: emp.sudo().write({'user_id': False})] *)
Fixpoint detach_after_first (user : User) (seen : bool) (es : list Employee) : list Employee :=
  match es with
  | [] => []
  | e :: rest =>
      if employee_of_user user e then
        (if seen
         then {| employee_id := employee_id e; employee_name := employee_name e;
                 work_email := work_email e; employee_user_id := None;
                 employee_company_id := employee_company_id e |}
         else e) :: detach_after_first user true rest
      else e :: detach_after_first user seen rest
  end.

Definition check_in_employee (user : User) (db : Db) : Employee * Db :=
  match List.filter (employee_of_user user) (employees db) with
  | [] =>
      let employee := new_employee user db in
      (employee, with_employees db (employees db ++ [employee]))
  | [employee] => (employee, db)
  | employee :: _ => (employee, with_employees db (detach_after_first user false (employees db)))
  end.

(** The domain of the check-in handler's search: the employee's open rows
    with [check_in] from today's [00:00:00] to today's [23:59:59], both
    included, where today is [date.today()]. *)
Definition existing_domain `{Runtime} (now : Z) (employee : Employee) (a : Attendance) : bool :=
  let today := server_today now in
  (att_employee_id a =? employee_id employee)
  && is_open a
  && (Clock.midnight today <=? att_check_in a)
  && (att_check_in a <=? Clock.midnight today + 86399 * Clock.us_per_second).

(** The [try] block around the distance: what [distance] and
    [within_radius] hold after it.  On any exception both keep their initial
    values [0.0] and [True]. *)
Definition check_in_distance `{Runtime} (latitude longitude : json)
    (office_lat office_lon : float) : float * bool :=
  match py_float latitude, py_float longitude with
  | Some user_lat_f, Some user_lon_f =>
      match geodesic_meters (user_lat_f, user_lon_f) (office_lat, office_lon) with
      | Some distance =>
          (distance,
           _is_within_radius latitude longitude
             (JFloat office_lat) (JFloat office_lon) 100000%float)
      | None => (0%float, true)
      end
  | _, _ => (0%float, true)
  end.

(** [office_lat = company.latitude or -6.986682] and
    [office_lon = company.longitude or 107.637303] *)
Definition check_in_office (company : Company) : float * float :=
  (float_or (company_latitude company) (-6.986682)%float,
   float_or (company_longitude company) 107.637303%float).

(** [POST /api/attendance/checkin] *)
Definition check_in `{Runtime} (now : Z) (user : option User)
    (body : Body) (db : Db) : Response * Db :=
  match user with
  | None => (_error_response (Msg "Authentication required") 401, db)
  | Some user =>
      match body with
      | EmptyBody | NotJson => (_error_response (MsgError "Invalid JSON data") 400, db)
      | JsonBody (JObj data) =>
          let location := dict_get data "location" in
          let notes := dict_get_default data "notes" (JStr "") in
          let latitude := dict_get data "latitude" in
          let longitude := dict_get data "longitude" in
          let found := check_in_employee user db in
          let employee := found.1 in
          let db := found.2 in
          let company := company_of employee db in
          let office_lat := (check_in_office company).1 in
          let office_lon := (check_in_office company).2 in
          let measured := check_in_distance latitude longitude office_lat office_lon in
          let distance := measured.1 in
          let within_radius := measured.2 in
          if negb within_radius then
            (_error_response (MsgOutsideOffice distance) 400, db)
          else
            match search_first (existing_domain now employee) (attendances db) with
            | Some _ =>
                (_error_response (Msg "Employee is already checked in today") 400, db)
            | None =>
                let now_local := Clock.now_in Clock.indonesia_tz now in
                let now_utc := Clock.astimezone_utc_naive now_local in
                let attendance :=
                  {| att_id := fresh_id (map att_id (attendances db));
                     att_employee_id := employee_id employee;
                     att_check_in := now_utc;
                     att_check_out := None;
                     att_working_hours := "00:00:00";
                     att_selfie_photo := dict_get data "selfie_photo";
                     att_latitude := latitude;
                     att_longitude := longitude |} in
                (_json_response
                   (Some (CheckInData attendance location notes distance within_radius))
                   (Msg "Check-in successful"),
                 with_attendances db (attendances db ++ [attendance]))
            end
      | _ => (_error_response (MsgError "Check-in failed") 500, db)
      end
  end.

(** The employee the check-out handler acts for: the one [employee_id]
    names when it exists, else the user's.  An [employee_id] that is truthy
    and not an integer is not a record id; the lookup is taken to raise
    ([inl tt]). *)
Definition check_out_employee (user : User) (employee_id_field : json) (db : Db)
  : unit + option Employee :=
  let of_user := List.find (employee_of_user user) (employees db) in
  if truthy employee_id_field then
    match employee_id_field with
    | JInt z =>
        match List.find (fun e => employee_id e =? z) (employees db) with
        | Some e => inr (Some e)
        | None => inr of_user
        end
    | _ => inl tt
    end
  else inr of_user.

(** [POST /api/attendance/checkout] *)
Definition check_out `{Runtime} (now : Z) (user : option User)
    (body : Body) (db : Db) : Response * Db :=
  match user with
  | None => (_error_response (Msg "Authentication required") 401, db)
  | Some user =>
      match body with
      | EmptyBody | NotJson => (_error_response (Msg "Invalid JSON data") 400, db)
      | JsonBody (JObj data) =>
          let location := dict_get data "location" in
          let notes := dict_get_default data "notes" (JStr "") in
          match check_out_employee user (dict_get data "employee_id") db with
          | inl _ => (_error_response (Msg "Check-out failed") 500, db)
          | inr None => (_error_response (Msg "Employee not found") 404, db)
          | inr (Some employee) =>
              match search_first
                      (fun a => (att_employee_id a =? employee_id employee) && is_open a)
                      (attendances db) with
              | None =>
                  (_error_response (Msg "No active check-in found for today") 400, db)
              | Some attendance =>
                  let checkout_time_local := Clock.now_in Clock.indonesia_tz now in
                  let checkout_time_utc := Clock.astimezone_utc_naive checkout_time_local in
                  let check_in_utc := att_check_in attendance in
                  let duration := checkout_time_utc - check_in_utc in
                  let working_hours := format_working_hours duration in
                  let updated :=
                    sql_update (fun r => att_id r =? att_id attendance)
                      (set_check_out checkout_time_utc working_hours)
                      (attendances db) in
                  (_json_response
                     (Some (CheckOutData attendance checkout_time_utc location notes))
                     (Msg "Check-out successful"),
                   with_attendances db updated.1)
              end
          end
      | _ => (_error_response (Msg "Check-out failed") 500, db)
      end
  end.

(** The limit that the handlers state.  The refusal message of the toggle
    and of the check-in handler ends in ["(max: 2.0 km)"], and the check-in
    handler logs ["RADIUS: 2000 meter"]; the radius both pass to
    [_is_within_radius] is [100000]. *)
Definition stated_radius_m : float := 2000.

(** ** The specification's wording, for comparison with the code *)

Definition digit_char (d : Z) : ascii := ascii_of_nat (48 + Z.to_nat d).

(** Two decimal digits, the tens first. *)
Definition two_digits (n : Z) : string :=
  String (digit_char (n / 10)) (String (digit_char (n mod 10)) EmptyString).

(** The specification's [working_hours]: the elapsed time
    [check_out - check_in] cut down to whole seconds, written [HH:MM:SS]
    with two digits each. *)
Definition spec_working_hours (check_in check_out : Z) : string :=
  let total := Z.quot (check_out - check_in) Clock.us_per_second in
  (two_digits (total / 3600) +:+ ":" +:+
   two_digits ((total / 60) mod 60) +:+ ":" +:+
   two_digits (total mod 60))%string.

(** The specification's day boundary: the calendar date of an instant in
    UTC+7, and whether a stored (UTC) [check_in] falls on the same UTC+7 date
    as the request. *)
Definition spec_local_date (instant : Z) : Z :=
  Clock.date_of (instant + Clock.hours 7).

Definition spec_today_domain (now : Z) (employee : Employee) (a : Attendance) : bool :=
  (att_employee_id a =? employee_id employee)
  && (spec_local_date (att_check_in a) =? spec_local_date now).


(** The specification's invariant on the store: an employee has at most one
    open row (no [check_out]) per calendar day, the day of a row being the
    date of its [check_in] as [day_of] reads it. *)
Definition open_on (day_of : Z -> Z) (employee day : Z) (a : Attendance) : bool :=
  (att_employee_id a =? employee) && is_open a && (day_of (att_check_in a) =? day).

Definition at_most_one_open (day_of : Z -> Z) (rows : list Attendance) : Prop :=
  forall employee day,
    (length (List.filter (open_on day_of employee day) rows) <= 1)%nat.

(** ** A concrete runtime, to run the handlers on concrete requests *)

Definition digit_value (c : ascii) : option Z :=
  let n := Z.of_nat (nat_of_ascii c) in
  if (48 <=? n) && (n <=? 57) then Some (n - 48) else None.

(** Reads digits with at most one point: the digits as an integer and the
    power of ten that the digits after the point call for. *)
Fixpoint read_decimal (s : string) (acc scale : Z) (seen_point any_digit : bool)
  : option (Z * Z) :=
  match s with
  | EmptyString => if any_digit then Some (acc, scale) else None
  | String c rest =>
      if Ascii.eqb c "." then
        (if seen_point then None else read_decimal rest acc scale true any_digit)
      else
        match digit_value c with
        | Some d =>
            read_decimal rest (acc * 10 + d)
              (if seen_point then scale * 10 else scale) seen_point true
        | None => None
        end
  end.

(** The plain decimal fragment of [float(str)]: an optional sign, digits, at
    most one point.  Anything else is refused. *)
Definition decimal_float_of_str (s : string) : option float :=
  let signed :=
    match s with
    | String "-" rest => (true, rest)
    | String "+" rest => (false, rest)
    | _ => (false, s)
    end in
  match read_decimal signed.2 0 1 false false with
  | Some (m, scale) =>
      match float_of_int m, float_of_int scale with
      | Some fm, Some fs =>
          Some (if signed.1 : bool then (- (fm / fs))%float else (fm / fs)%float)
      | _, _ => None
      end
  | None => None
  end.

(** A flat-map distance in metres (one degree is 111320 m in both
    directions), refusing latitudes beyond the poles.  It stands in for geopy
    where a handler has to be run. *)
Definition planar_meters (p q : float * float) : option float :=
  if (PrimFloat.leb (PrimFloat.abs p.1) 90 && PrimFloat.leb (PrimFloat.abs q.1) 90)%bool
  then
    let dlat := (p.1 - q.1)%float in
    let dlon := (p.2 - q.2)%float in
    Some (111320 * PrimFloat.sqrt (dlat * dlat + dlon * dlon))%float
  else None.

(** A server whose process runs in UTC, as Odoo sets it. *)
Definition utc_runtime : Runtime :=
  {| float_of_str := decimal_float_of_str;
     geodesic_meters := planar_meters;
     server_utc_offset := 0 |}.

(** A server whose process runs in WIB. *)
Definition wib_runtime : Runtime :=
  {| float_of_str := decimal_float_of_str;
     geodesic_meters := planar_meters;
     server_utc_offset := Clock.indonesia_tz |}.

Definition demo_company : Company :=
  {| company_id := 1; company_latitude := 0; company_longitude := 0 |}.

Definition demo_user : User :=
  {| uid := 7; user_name := "Sari"; user_email := "sari@example.com" |}.

Definition demo_employee : Employee :=
  {| employee_id := 1; employee_name := "Sari"; work_email := "sari@example.com";
     employee_user_id := Some 7; employee_company_id := Some 1 |}.

Definition demo_db (rows : list Attendance) : Db :=
  {| env_company := demo_company; companies := [demo_company];
     employees := [demo_employee]; attendances := rows |}.

(** A toggle request sent from the default office coordinate. *)
Definition demo_request (latitude longitude camera_image : json) : Body :=
  JsonBody (JObj [("latitude", latitude); ("longitude", longitude);
                  ("location", JStr "Office"); ("camera_image", camera_image)]).

Definition at_office : Body :=
  demo_request (JStr "-6.969182") (JStr "107.629251") (JStr "aW1hZ2U=").

(** A check-in request sent from the toggle's default office coordinate. *)
Definition checkin_at_office : Body :=
  JsonBody (JObj [("latitude", JStr "-6.969182"); ("longitude", JStr "107.629251");
                  ("selfie_photo", JStr "aW1hZ2U=")]).

Definition demo_row (id check_in : Z) (check_out : option Z) : Attendance :=
  {| att_id := id; att_employee_id := 1; att_check_in := check_in;
     att_check_out := check_out; att_working_hours := "00:00:00";
     att_selfie_photo := JStr "aW1hZ2U="; att_latitude := JStr "-6.969182";
     att_longitude := JStr "107.629251" |}.

(** The order of [check_in desc]: [a] may stand before [b]. *)
Definition later_first (a b : Attendance) : Prop := att_check_in b <= att_check_in a.

(** ** Bearer tokens ([attendance.py], [auth.py]) *)

(** [s.startswith(pat)] *)
Fixpoint startswith (s pat : string) {struct pat} : bool :=
  match pat with
  | EmptyString => true
  | String a pat' =>
      match s with
      | EmptyString => false
      | String b s' => Ascii.eqb a b && startswith s' pat'
      end
  end.

(** [s.replace(pat, '')] for a non-empty [pat]: scanning from the left,
    every occurrence of [pat] is dropped and the scan goes on after it.
    [skip] counts the characters of the current occurrence still to drop. *)
Fixpoint remove_all_from (pat : string) (skip : nat) (s : string) : string :=
  match s with
  | EmptyString => EmptyString
  | String c rest =>
      match skip with
      | S k => remove_all_from pat k rest
      | O =>
          if startswith s pat
          then remove_all_from pat (String.length pat - 1) rest
          else String c (remove_all_from pat 0 rest)
      end
  end.

Definition str_remove (pat s : string) : string := remove_all_from pat 0 s.

(** [pat in s] *)
Fixpoint occurs (pat s : string) : bool :=
  match s with
  | EmptyString => startswith s pat
  | String _ rest => startswith s pat || occurs pat rest
  end.

(** [_get_user_from_session] of [attendance.py] (the one of [employee.py]
    returns the same).  [auth_header] is
    [request.httprequest.headers.get('Authorization', '')]; [users] is the
    table [res.users], on which [browse(uid).exists()] looks the id up.
    Returns the user and the session store after the lookup. *)
Definition _get_user_from_session (now : Z) (auth_header : string)
    (sessions : gmap string SessionManager.session_data) (users : list User)
  : option User * gmap string SessionManager.session_data :=
  if startswith auth_header "Bearer " then
    let session_token := str_remove "Bearer " auth_header in
    let looked_up := SessionManager.get_user_id now session_token sessions in
    match looked_up.1 with
    | Some u =>
        if u =? 0 then (None, looked_up.2)
        else (List.find (fun user => uid user =? u) users, looked_up.2)
    | None => (None, looked_up.2)
    end
  else (None, sessions).

(** [POST /api/auth/logout]: the answer and the session store after it.
    (The handler also ends Odoo's own session, which is not part of the
    store.) *)
Definition logout (auth_header : string)
    (sessions : gmap string SessionManager.session_data)
  : Response * gmap string SessionManager.session_data :=
  (_json_response None (Msg "Logout successful"),
   if startswith auth_header "Bearer "
   then SessionManager.remove_session (str_remove "Bearer " auth_header) sessions
   else sessions).

(** A handler as the route runs it: it first asks [_get_user_from_session]
    for the user. *)
Definition with_session {A : Type} (handler : option User -> A) (now : Z)
    (auth_header : string) (users : list User)
    (sessions : gmap string SessionManager.session_data)
  : A * gmap string SessionManager.session_data :=
  let found := _get_user_from_session now auth_header sessions users in
  (handler found.1, found.2).

(** ** The dashboard's current status and the status endpoint *)

(** The difference of two aware datetimes: the time between the instants. *)
Definition aware_sub (a b : Clock.aware) : Z :=
  (Clock.wall a - Clock.utcoffset a) - (Clock.wall b - Clock.utcoffset b).

Record current_status := {
  cs_is_checked_in : bool;
  cs_check_in_time : string;
  cs_check_out_time : string;
  cs_working_hours : string
}.

(** Lines 166-230 of [get_dashboard_data]: [current_status] for the
    employee the handler resolved. *)
Definition dashboard_current_status `{Runtime} (now : Z) (employee : Employee)
    (rows : list Attendance) : current_status :=
  match search_first (today_domain now employee) rows with
  | Some today_attendance =>
      {| cs_is_checked_in := is_open today_attendance;
         cs_check_in_time := _format_time_local (att_check_in today_attendance);
         cs_check_out_time :=
           match att_check_out today_attendance with
           | Some check_out => _format_time_local check_out
           | None => ""
           end;
         cs_working_hours :=
           match att_check_out today_attendance with
           | Some check_out =>
               let check_in_utc := Clock.utc_localize (att_check_in today_attendance) in
               let check_out_utc := Clock.utc_localize check_out in
               format_working_hours (aware_sub check_out_utc check_in_utc)
           | None =>
               let check_in_utc := Clock.utc_localize (att_check_in today_attendance) in
               let now_local := _get_current_datetime_local now in
               let check_in_local := Clock.astimezone Clock.indonesia_tz check_in_utc in
               format_working_hours (aware_sub now_local check_in_local)
           end |}
  | None =>
      {| cs_is_checked_in := false; cs_check_in_time := "";
         cs_check_out_time := ""; cs_working_hours := "00:00:00" |}
  end.

(** The [data] of [get_attendance_status], without [worked_hours_today]
    (a field the base model computes); datetimes are kept as instants. *)
Record status_data := {
  sd_employee_id : Z;
  sd_employee_name : string;
  sd_is_checked_in : bool;
  sd_last_attendance_id : option Z;
  sd_check_in : option Z;
  sd_check_out : option Z;
  sd_status : string
}.

Record status_response := {
  sr_status : Z;
  sr_success : bool;
  sr_message : Message;
  sr_data : option status_data
}.

(** The domain of the status endpoint's search: the employee's rows with
    [check_in] from today's [00:00:00] to today's [23:59:59], both
    included. *)
Definition status_domain `{Runtime} (now : Z) (employee_id_ : Z) (a : Attendance) : bool :=
  let today := server_today now in
  (att_employee_id a =? employee_id_)
  && (Clock.midnight today <=? att_check_in a)
  && (att_check_in a <=? Clock.midnight today + 86399 * Clock.us_per_second).

(** [GET /api/attendance/status/<int:employee_id>] *)
Definition get_attendance_status `{Runtime} (now : Z) (user : option User)
    (employee_id_ : Z) (db : Db) : status_response :=
  match user with
  | None =>
      {| sr_status := 401; sr_success := false;
         sr_message := Msg "Authentication required"; sr_data := None |}
  | Some _ =>
      match List.find (fun e => employee_id e =? employee_id_) (employees db) with
      | None =>
          {| sr_status := 404; sr_success := false;
             sr_message := Msg "Employee not found"; sr_data := None |}
      | Some employee =>
          let status_data :=
            match search_first (status_domain now employee_id_) (attendances db) with
            | Some attendance =>
                {| sd_employee_id := employee_id_;
                   sd_employee_name := employee_name employee;
                   sd_is_checked_in := is_open attendance;
                   sd_last_attendance_id := Some (att_id attendance);
                   sd_check_in := Some (att_check_in attendance);
                   sd_check_out := att_check_out attendance;
                   sd_status := if is_open attendance then "checked_in" else "checked_out" |}
            | None =>
                {| sd_employee_id := employee_id_;
                   sd_employee_name := employee_name employee;
                   sd_is_checked_in := false;
                   sd_last_attendance_id := None;
                   sd_check_in := None;
                   sd_check_out := None;
                   sd_status := "not_checked_in" |}
            end in
          {| sr_status := 200; sr_success := true;
             sr_message := Msg "Attendance status retrieved successfully";
             sr_data := Some status_data |}
      end
  end.

(** A row is consistent when its [working_hours] is what its own
    [check_in] and [check_out] give. *)
Definition working_hours_consistent (a : Attendance) : Prop :=
  match att_check_out a with
  | Some check_out =>
      att_working_hours a = format_working_hours (check_out - att_check_in a)
  | None => True
  end.

Definition demo_users : list User := [demo_user].

(** ** Requests served one after the other *)

(** The three routes that write attendance rows, each with the instant at
    which it is served, the user [_get_user_from_session] returned and the
    request body. *)
Inductive Request :=
| Toggle (now : Z) (user : option User) (body : Body)
| CheckIn (now : Z) (user : option User) (body : Body)
| CheckOut (now : Z) (user : option User) (body : Body).

Definition request_time (r : Request) : Z :=
  match r with
  | Toggle now _ _ | CheckIn now _ _ | CheckOut now _ _ => now
  end.

Definition serve `{Runtime} (r : Request) (db : Db) : Response * Db :=
  match r with
  | Toggle now user body => toggle_checkin_checkout now user body db
  | CheckIn now user body => check_in now user body db
  | CheckOut now user body => check_out now user body db
  end.

(** The store after a sequence of requests. *)
Definition serve_all `{Runtime} (requests : list Request) (db : Db) : Db :=
  fold_left (fun db r => (serve r db).2) requests db.

(** What one request can do to the attendance table: nothing, append an
    open row with a fresh id and [check_in] at the instant of the request,
    or close rows that have the id of an open row [found], with
    [working_hours] counted from [found]'s [check_in]. *)
Definition closes (now : Z) (rows rows' : list Attendance) : Prop :=
  exists (found : Attendance) (q : Attendance -> bool),
    In found rows
    /\ is_open found = true
    /\ (forall x, q x = true -> att_id x = att_id found)
    /\ rows' = map (fun x =>
                      if q x
                      then set_check_out now
                             (format_working_hours (now - att_check_in found)) x
                      else x) rows.

Definition appends (now : Z) (rows rows' : list Attendance) : Prop :=
  exists record,
    rows' = rows ++ [record]
    /\ att_check_in record = now
    /\ att_check_out record = None
    /\ att_id record = fresh_id (map att_id rows).

(** * Properties *)

(** ** Session store *)

Section SessionStore.
Import SessionManager.

Lemma lookup_store_session (now : Z) (token : string) (uid : Z)
    (sessions : gmap string session_data) :
  store_session now token uid sessions !! token
  = Some {| user_id := uid; created_at := now; last_used := now |}.
Proof.
  unfold store_session, _cleanup_expired_sessions.
  apply map_lookup_filter_Some. split.
  - apply lookup_insert_eq.
  - simpl. unfold _cleanup_interval, Clock.hours, Clock.us_per_second. lia.
Qed.

Lemma get_user_id_fresh (now : Z) (token : string) (d : session_data)
    (sessions : gmap string session_data) :
  sessions !! token = Some d ->
  now - created_at d < _cleanup_interval ->
  get_user_id now token sessions
  = (Some (user_id d), <[token := touch now d]> sessions).
Proof.
  intros Hd Hlt. unfold get_user_id. rewrite Hd.
  rewrite bool_decide_eq_true_2 by exact Hlt. reflexivity.
Qed.

Lemma get_user_id_stale (now : Z) (token : string) (d : session_data)
    (sessions : gmap string session_data) :
  sessions !! token = Some d ->
  _cleanup_interval <= now - created_at d ->
  get_user_id now token sessions = (None, delete token sessions).
Proof.
  intros Hd Hge. unfold get_user_id. rewrite Hd.
  rewrite bool_decide_eq_false_2 by lia. reflexivity.
Qed.

(** C8. A lookup made less than the time to live after [store_session]
    returns the stored user id, and storing the same token again replaces the
    earlier binding: the lookup then returns the later user id. *)
Theorem store_session_then_get_user_id
    (sessions : gmap string session_data) (token : string)
    (uid earlier_uid : Z) (t0 t1 t2 : Z) :
  t2 - t1 < _cleanup_interval ->
  (get_user_id t2 token (store_session t1 token uid sessions)).1 = Some uid
  /\ (get_user_id t2 token
        (store_session t1 token uid
           (store_session t0 token earlier_uid sessions))).1 = Some uid.
Proof.
  intros Hlt. split.
  - rewrite (get_user_id_fresh _ _ _ _ (lookup_store_session t1 token uid sessions));
      [reflexivity | exact Hlt].
  - rewrite (get_user_id_fresh _ _ _ _
               (lookup_store_session t1 token uid
                  (store_session t0 token earlier_uid sessions)));
      [reflexivity | exact Hlt].
Qed.

Lemma store_session_then_get_user_id_witness :
  Clock.datetime 2025 1 2 8 59 59 0 - Clock.datetime 2025 1 1 9 0 0 0 < _cleanup_interval
  /\ (get_user_id (Clock.datetime 2025 1 2 8 59 59 0) "tok"
        (store_session (Clock.datetime 2025 1 1 9 0 0 0) "tok" 7 ∅)).1 = Some 7
  /\ (get_user_id (Clock.datetime 2025 1 2 8 59 59 0) "tok"
        (store_session (Clock.datetime 2025 1 1 9 0 0 0) "tok" 7
           (store_session (Clock.datetime 2025 1 1 8 0 0 0) "tok" 3 ∅))).1 = Some 7.
Proof.
  split; [vm_compute; reflexivity |].
  apply (store_session_then_get_user_id ∅ "tok" 7 3
           (Clock.datetime 2025 1 1 8 0 0 0)
           (Clock.datetime 2025 1 1 9 0 0 0)
           (Clock.datetime 2025 1 2 8 59 59 0)).
  vm_compute; reflexivity.
Defined.

(** C9. For a stored session, a lookup made when the time to live (24 hours)
    or more has passed since [created_at] returns nothing and deletes the
    entry, so the session count goes down by one; a lookup returns a user id
    exactly when [now - created_at < TTL]; and such a lookup sets
    [last_used] to [now], leaving [user_id] and [created_at] as they were. *)
Theorem get_user_id_expiry
    (sessions : gmap string session_data) (token : string)
    (d : session_data) (now : Z) :
  sessions !! token = Some d ->
  (Clock.hours 24 <= now - created_at d ->
     get_user_id now token sessions = (None, delete token sessions)
     /\ (get_user_id now token sessions).2 !! token = None
     /\ S (get_session_count (get_user_id now token sessions).2)
        = get_session_count sessions)
  /\ (is_Some (get_user_id now token sessions).1
      <-> now - created_at d < Clock.hours 24)
  /\ (now - created_at d < Clock.hours 24 ->
      (get_user_id now token sessions).1 = Some (user_id d)
      /\ (get_user_id now token sessions).2 !! token
         = Some {| user_id := user_id d; created_at := created_at d; last_used := now |}
      /\ get_session_count (get_user_id now token sessions).2
         = get_session_count sessions).
Proof.
  intros Hd. change (Clock.hours 24) with _cleanup_interval. repeat split.
  - apply (get_user_id_stale _ _ d); assumption.
  - rewrite (get_user_id_stale _ _ _ _ Hd) by assumption. apply lookup_delete_eq.
  - rewrite (get_user_id_stale _ _ _ _ Hd) by assumption. simpl.
    unfold get_session_count.
    rewrite <- (insert_delete_id sessions token d Hd) at 2.
    rewrite map_size_insert_None by apply lookup_delete_eq. reflexivity.
  - intros [u Hu].
    destruct (Z_lt_ge_dec (now - created_at d) _cleanup_interval) as [Hlt | Hge];
      [exact Hlt |].
    rewrite (get_user_id_stale _ _ _ _ Hd) in Hu by lia. discriminate.
  - intros Hlt. rewrite (get_user_id_fresh _ _ _ _ Hd Hlt). simpl. eauto.
  - rewrite (get_user_id_fresh _ _ _ _ Hd H). reflexivity.
  - rewrite (get_user_id_fresh _ _ _ _ Hd H). simpl. apply lookup_insert_eq.
  - rewrite (get_user_id_fresh _ _ _ _ Hd H). simpl.
    unfold get_session_count. apply map_size_insert_Some. eauto.
Qed.

Lemma get_user_id_expiry_witness :
  let stored := Clock.datetime 2025 1 1 9 0 0 0 in
  let sessions :=
    store_session stored "tok" 7 (store_session stored "other" 8 ∅) in
  let lookup := get_user_id (Clock.datetime 2025 1 2 9 0 0 0) "tok" sessions in
  sessions !! "tok" = Some {| user_id := 7; created_at := stored; last_used := stored |}
  /\ lookup.1 = None
  /\ lookup.2 !! "tok" = None
  /\ S (get_session_count lookup.2) = get_session_count sessions.
Proof.
  cbv zeta.
  assert (Hd : store_session (Clock.datetime 2025 1 1 9 0 0 0) "tok" 7
                 (store_session (Clock.datetime 2025 1 1 9 0 0 0) "other" 8 ∅)
               !! "tok"
               = Some {| user_id := 7;
                         created_at := Clock.datetime 2025 1 1 9 0 0 0;
                         last_used := Clock.datetime 2025 1 1 9 0 0 0 |})
    by (vm_compute; reflexivity).
  split; [exact Hd |].
  destruct (get_user_id_expiry _ "tok" _ (Clock.datetime 2025 1 2 9 0 0 0) Hd)
    as (Hstale & _).
  destruct Hstale as (Hnone & Hgone & Hcount);
    [vm_compute; discriminate |].
  split; [rewrite Hnone; reflexivity |]. split; assumption.
Defined.

End SessionStore.

(** ** Working hours *)

Section Binary64Facts.
Import Binary64.

Lemma nearest_even_bounds (n d : Z) :
  0 < d -> 2 * n - d <= 2 * d * nearest_even n d <= 2 * n + d.
Proof.
  intros Hd. unfold nearest_even.
  pose proof (Z.div_mod n d ltac:(lia)) as Hdm.
  pose proof (Z.mod_pos_bound n d Hd) as Hb.
  set (q := n / d) in *. set (r := n mod d) in *.
  destruct (Z.ltb_spec (2 * r) d); [nia |].
  destruct (Z.ltb_spec d (2 * r)); [nia |].
  destruct (Z.even q); nia.
Qed.

Lemma nearest_even_exact (v d : Z) : 0 < d -> nearest_even (v * d) d = v.
Proof.
  intros Hd. unfold nearest_even.
  rewrite Z.div_mul, Z.mod_mul by lia.
  destruct (Z.ltb_spec (2 * 0) d); [reflexivity | lia].
Qed.

Lemma binade_le (a d K : Z) :
  0 < a -> 0 < d -> 0 <= K -> a < d * 2 ^ (K + 1) -> binade a d <= K.
Proof.
  intros Ha Hd HK Hlt. unfold binade.
  pose proof (Z.log2_spec a Ha) as [Ha1 Ha2].
  pose proof (Z.log2_spec d Hd) as [Hd1 Hd2].
  pose proof (Z.log2_nonneg a) as Hla. pose proof (Z.log2_nonneg d) as Hld.
  set (la := Z.log2 a) in *. set (ld := Z.log2 d) in *.
  assert (Hk : la - ld <= K + 1).
  { destruct (Z_le_gt_dec (la - ld) (K + 1)) as [Hle | Hgt]; [exact Hle | exfalso].
    assert (Hpow : 2 ^ (ld + 1) * 2 ^ (K + 1) <= 2 ^ la).
    { rewrite <- Z.pow_add_r by lia. apply Z.pow_le_mono_r; lia. }
    pose proof (Z.pow_pos_nonneg 2 (K + 1) ltac:(lia) ltac:(lia)) as Hp.
    nia. }
  destruct (Z.leb_spec 0 (la - ld)) as [Hnn | Hneg].
  - destruct (Z.leb_spec (d * 2 ^ (la - ld)) a) as [Hfit | _]; [| lia].
    destruct (Z.eq_dec (la - ld) (K + 1)) as [Heq | Hne]; [| lia].
    rewrite Heq in Hfit. lia.
  - destruct (d <=? a * 2 ^ (- (la - ld))); lia.
Qed.

Lemma round_integer (x : ratio) (v : Z) :
  0 < den x -> num x = v * den x -> Z.abs v < 2 ^ 53 ->
  0 < den (round x) /\ num (round x) = v * den (round x).
Proof.
  intros Hden Hnum Hv. unfold round.
  destruct (Z.eqb_spec (num x) 0) as [Hz | Hnz].
  - cbn [of_Z num den]. split; [lia |]. nia.
  - assert (Hv0 : v <> 0) by (intros ->; lia).
    assert (Habs : Z.abs (num x) = Z.abs v * den x).
    { rewrite Hnum, Z.abs_mul, (Z.abs_eq (den x)) by lia. reflexivity. }
    assert (Hsgn : Z.sgn (num x) = Z.sgn v).
    { rewrite Hnum, Z.sgn_mul, (Z.sgn_pos (den x)) by lia. lia. }
    assert (He : binade (Z.abs (num x)) (den x) - 52 <= 0).
    { enough (binade (Z.abs (num x)) (den x) <= 52) by lia.
      apply binade_le; [lia | lia | lia |].
      rewrite Habs. change (52 + 1) with 53. nia. }
    set (e := binade (Z.abs (num x)) (den x) - 52) in *.
    destruct (Z.leb_spec 0 e) as [Hnn | Hneg].
    + assert (e = 0) as -> by lia.
      cbn [of_Z num den]. split; [lia |].
      rewrite Z.pow_0_r, !Z.mul_1_r, Habs, nearest_even_exact, Hsgn by lia.
      lia.
    + cbn [num den].
      pose proof (Z.pow_pos_nonneg 2 (- e) ltac:(lia) ltac:(lia)) as Hp.
      split; [exact Hp |].
      replace (Z.abs (num x) * 2 ^ (- e)) with (Z.abs v * 2 ^ (- e) * den x)
        by (rewrite Habs; ring).
      rewrite nearest_even_exact, Hsgn by lia.
      rewrite Z.mul_assoc. f_equal. lia.
Qed.


Lemma floor_between (x : ratio) (s : Z) :
  0 < den x -> s * den x <= num x < (s + 1) * den x -> floor x = s.
Proof.
  intros Hden Hb. unfold floor. symmetry.
  apply (Z.div_unique (num x) (den x) s (num x - s * den x)); lia.
Qed.

(** Below [2^34] seconds the quotient by [10^6] is rounded by less than a
    microsecond: the float lies in the same whole second. *)
Lemma total_seconds_floor (duration : Z) :
  0 <= duration < 2 ^ 34 * 1000000 ->
  0 < den (total_seconds duration)
  /\ 0 <= num (total_seconds duration)
  /\ floor (total_seconds duration) = duration / 1000000.
Proof.
  intros [Hlo Hhi]. unfold total_seconds, round.
  change Clock.us_per_second with 1000000. cbn [num den].
  destruct (Z.eqb_spec duration 0) as [-> | Hnz].
  - cbn. repeat split; lia.
  - rewrite Z.abs_eq, Z.sgn_pos by lia.
    assert (He : binade duration 1000000 - 52 <= -19).
    { enough (binade duration 1000000 <= 33) by lia.
      apply binade_le; lia. }
    set (e := binade duration 1000000 - 52) in *.
    destruct (Z.leb_spec 0 e) as [Hnn | _]; [lia |].
    cbn [num den].
    assert (Hp : 2 ^ 19 <= 2 ^ (- e)) by (apply Z.pow_le_mono_r; lia).
    change (2 ^ 19) with 524288 in Hp.
    set (P := 2 ^ (- e)) in *.
    pose proof (nearest_even_bounds (duration * P) 1000000 ltac:(lia)) as Hm.
    pose proof (Z.div_mod duration 1000000 ltac:(lia)) as Hdm.
    pose proof (Z.mod_pos_bound duration 1000000 ltac:(lia)) as Hf.
    set (s := duration / 1000000) in *. set (f := duration mod 1000000) in *.
    rewrite Z.mul_1_l.
    assert (Hs : 0 <= s) by (apply Z.div_pos; lia).
    assert (Hbetween : s * P <= nearest_even (duration * P) 1000000 < (s + 1) * P).
    { destruct (Z.eq_dec f 0) as [Hf0 | Hf1].
      - replace (duration * P) with (s * P * 1000000) by lia.
        rewrite nearest_even_exact by lia. nia.
      - set (m := nearest_even (duration * P) 1000000) in *.
        assert (Hx : duration * P = 1000000 * (s * P) + f * P) by lia.
        assert (HfP : P <= f * P <= 999999 * P) by nia.
        lia. }
    split; [lia |]. split; [nia |].
    apply floor_between; cbn [num den]; lia.
Qed.

(** On a non-negative float below [2^53], [//] by a positive integer is the
    exact floor division and [%] the exact remainder: every intermediate
    value is representable. *)
Lemma floordiv_nonneg (x : ratio) (w : Z) :
  0 < den x -> 0 <= num x -> 0 < w -> floor x < 2 ^ 53 ->
  floordiv x w = floor x / w.
Proof.
  intros Hden Hnum Hw Hsmall. unfold floordiv.
  assert (Hwd : 0 < w * den x) by nia.
  set (q := num x / (w * den x)).
  assert (Hq : q = floor x / w).
  { unfold q, floor. rewrite (Z.mul_comm w), Z.div_div by lia. reflexivity. }
  assert (Hq0 : 0 <= q) by (apply Z.div_pos; lia).
  assert (Hfloor : 0 <= floor x) by (apply Z.div_pos; lia).
  assert (Hwq : w * q <= floor x).
  { rewrite Hq. apply Z.mul_div_le. lia. }
  pose proof (Z.div_mod (num x) (w * den x) ltac:(lia)) as Hdm.
  pose proof (Z.mod_pos_bound (num x) (w * den x) Hwd) as Hmod.
  fold q in Hdm.
  assert (Hrem : num (fmod x w) = num x mod (w * den x)).
  { unfold fmod. cbn [num]. rewrite Z.quot_div_nonneg by lia. fold q. lia. }
  destruct (round_integer (sub x (fmod x w)) (w * q)) as [Hd1 Hn1].
  { unfold sub, fmod. cbn [num den]. nia. }
  { unfold sub. cbn [num den]. change (den (fmod x w)) with (den x).
    rewrite Hrem. nia. }
  { rewrite Z.abs_eq by nia. lia. }
  set (r1 := round (sub x (fmod x w))) in *.
  destruct (round_integer (div_by r1 w) q) as [Hd2 Hn2].
  { unfold div_by. cbn [den]. nia. }
  { unfold div_by. cbn [num den]. rewrite Hn1. ring. }
  { rewrite Z.abs_eq by lia.
    assert (q <= w * q) by nia. lia. }
  set (div := round (div_by r1 w)) in *.
  replace (negb (num (fmod x w) =? 0) && (num (fmod x w) <? 0)) with false.
  2:{ rewrite Hrem. destruct (Z.ltb_spec (num x mod (w * den x)) 0); [lia |].
      rewrite andb_false_r. reflexivity. }
  destruct (Z.eqb_spec (num div) 0) as [Hz | Hnz].
  - rewrite <- Hq. nia.
  - assert (Hfd : floor div = q).
    { unfold floor. rewrite Hn2. apply Z.div_mul. lia. }
    rewrite Hfd.
    assert (Hrest : round (sub div (of_Z q)) = of_Z 0).
    { unfold round, sub. cbn [num den of_Z].
      replace (num div * 1 - q * den div) with 0 by lia. reflexivity. }
    rewrite Hrest. cbn [num den of_Z]. rewrite <- Hq. reflexivity.
Qed.

Lemma rem_nonneg (x : ratio) (w : Z) :
  0 < den x -> 0 <= num x -> 0 < w ->
  0 < den (rem x w) /\ 0 <= num (rem x w) /\ floor (rem x w) = floor x mod w.
Proof.
  intros Hden Hnum Hw. unfold rem.
  assert (Hwd : 0 < w * den x) by nia.
  assert (Hrem : num (fmod x w) = num x mod (w * den x)).
  { unfold fmod. cbn [num]. rewrite Z.quot_div_nonneg by lia.
    pose proof (Z.div_mod (num x) (w * den x) ltac:(lia)). lia. }
  pose proof (Z.mod_pos_bound (num x) (w * den x) Hwd) as Hmod.
  assert (Hsplit : (num x mod (w * den x)) / den x = floor x mod w).
  { unfold floor. rewrite (Z.mul_comm w), Z.rem_mul_r by lia.
    rewrite (Z.mul_comm (den x)), Z.div_add by lia.
    rewrite (Z.div_small (num x mod den x)) by (apply Z.mod_pos_bound; lia).
    reflexivity. }
  destruct (Z.eqb_spec (num (fmod x w)) 0) as [Hz | Hnz].
  - cbn [of_Z num den floor]. rewrite <- Hsplit, <- Hrem, Hz.
    repeat split; first [lia | reflexivity].
  - destruct (Z.ltb_spec (num (fmod x w)) 0) as [Hneg | _]; [lia |].
    unfold floor at 1. rewrite Hrem. change (den (fmod x w)) with (den x).
    repeat split; first [lia | exact Hsplit].
Qed.

End Binary64Facts.

Section WorkingHours.

Lemma us_per_second_eq : Clock.us_per_second = 1000000.
Proof. reflexivity. Qed.

(** For a duration that is not negative and below [2^34] seconds (some 544
    years), the three fields are read off the whole seconds of the
    duration. *)
Lemma duration_fields (duration : Z) :
  0 <= duration < 2 ^ 34 * Clock.us_per_second ->
  let total := duration / Clock.us_per_second in
  duration_hours duration = total / 3600
  /\ duration_minutes duration = (total / 60) mod 60
  /\ duration_seconds duration = total mod 60.
Proof.
  rewrite us_per_second_eq. intros Hd total.
  destruct (total_seconds_floor duration Hd) as (Hden & Hnum & Hfloor).
  fold total in Hfloor.
  assert (Htotal : 0 <= total < 2 ^ 34).
  { unfold total. split; [apply Z.div_pos; lia |].
    apply Z.div_lt_upper_bound; lia. }
  unfold duration_hours, duration_minutes, duration_seconds.
  set (T := Binary64.total_seconds duration) in *.
  split; [| split].
  - rewrite floordiv_nonneg, Hfloor by (rewrite ?Hfloor; lia). reflexivity.
  - destruct (rem_nonneg T 3600 Hden Hnum ltac:(lia)) as (Hd' & Hn' & Hf').
    rewrite floordiv_nonneg, Hf', Hfloor; try lia.
    + change 3600 with (60 * 60). rewrite Z.rem_mul_r by lia.
      rewrite (Z.mul_comm 60 ((total / 60) mod 60)), Z.div_add by lia.
      rewrite (Z.div_small (total mod 60)) by (apply Z.mod_pos_bound; lia).
      reflexivity.
    + rewrite Hf', Hfloor.
      pose proof (Z.mod_pos_bound total 3600 ltac:(lia)). lia.
  - destruct (rem_nonneg T 60 Hden Hnum ltac:(lia)) as (Hd' & Hn' & Hf').
    unfold Binary64.trunc. rewrite Z.quot_div_nonneg by lia.
    fold (Binary64.floor (Binary64.rem T 60)). rewrite Hf', Hfloor. reflexivity.
Qed.

Lemma fmt_02d_table :
  forallb (fun n => String.eqb (fmt_02d (Z.of_nat n)) (two_digits (Z.of_nat n)))
    (seq 0 100) = true.
Proof. vm_compute. reflexivity. Qed.

Lemma fmt_02d_two_digits (n : Z) : 0 <= n < 100 -> fmt_02d n = two_digits n.
Proof.
  intros Hn. pose proof fmt_02d_table as Ht.
  rewrite forallb_forall in Ht.
  specialize (Ht (Z.to_nat n)).
  rewrite Z2Nat.id in Ht by lia.
  apply String.eqb_eq, Ht, in_seq. lia.
Qed.

(** C3. For a check-out that is not before its check-in and less than
    [2^34] seconds (some 544 years) after it, [working_hours] is the elapsed
    time [check_out - check_in] cut down to whole seconds (no rounding),
    printed as hours, minutes and seconds with [:], each zero-padded to two
    digits: below one hundred hours it is the specification's [HH:MM:SS]
    string, eight characters long (from one hundred hours on the hours take
    the digits they need).  [HrAttendance.write] stores the same string when
    it is given a [check_out].  From 2025-01-01T09:00:00Z to
    2025-01-01T17:30:15Z the value is ["08:30:15"]. *)
Theorem working_hours_elapsed (check_in check_out : Z) :
  check_in <= check_out ->
  check_out - check_in < 2 ^ 34 * Clock.us_per_second ->
  let total := Z.quot (check_out - check_in) Clock.us_per_second in
  (0 <= total
   /\ total * Clock.us_per_second <= check_out - check_in
      < (total + 1) * Clock.us_per_second)
  /\ format_working_hours (check_out - check_in)
     = (fmt_02d (total / 3600) +:+ ":" +:+
        two_digits ((total / 60) mod 60) +:+ ":" +:+
        two_digits (total mod 60))%string
  /\ (check_out - check_in < Clock.hours 100 ->
      format_working_hours (check_out - check_in)
      = spec_working_hours check_in check_out
      /\ String.length (format_working_hours (check_out - check_in)) = 8%nat)
  /\ (forall record : Attendance,
       att_working_hours
         (HrAttendance_write
            {| w_check_in := None; w_check_out := Some (Some check_out);
               w_working_hours := None |} record)
       = format_working_hours (check_out - att_check_in record))
  /\ format_working_hours
       (Clock.datetime 2025 1 1 17 30 15 0 - Clock.datetime 2025 1 1 9 0 0 0)
     = "08:30:15"%string.
Proof.
  intros Hle Hspan total.
  assert (Hq : total = (check_out - check_in) / Clock.us_per_second).
  { unfold total. apply Z.quot_div_nonneg; rewrite ?us_per_second_eq; lia. }
  assert (Hpos : 0 <= total).
  { rewrite Hq. apply Z.div_pos; rewrite ?us_per_second_eq; lia. }
  assert (Hfmt : format_working_hours (check_out - check_in)
                 = (fmt_02d (total / 3600) +:+ ":" +:+
                    two_digits ((total / 60) mod 60) +:+ ":" +:+
                    two_digits (total mod 60))%string).
  { unfold format_working_hours.
    destruct (duration_fields (check_out - check_in) ltac:(lia)) as (Hh & Hm & Hs).
    rewrite Hh, Hm, Hs, <- Hq.
    rewrite (fmt_02d_two_digits ((total / 60) mod 60))
      by (pose proof (Z.mod_pos_bound (total / 60) 60 ltac:(lia)); lia).
    rewrite (fmt_02d_two_digits (total mod 60))
      by (pose proof (Z.mod_pos_bound total 60 ltac:(lia)); lia).
    reflexivity. }
  split; [| split; [exact Hfmt | split; [| split]]].
  - split; [exact Hpos |]. rewrite Hq, us_per_second_eq.
    pose proof (Z.mod_pos_bound (check_out - check_in) 1000000 ltac:(lia)) as Hb.
    pose proof (Z.div_mod (check_out - check_in) 1000000 ltac:(lia)) as Hd.
    lia.
  - intros Hlt.
    assert (Hh : 0 <= total / 3600 < 100).
    { split; [apply Z.div_pos; lia |].
      apply Z.div_lt_upper_bound; [lia |].
      rewrite Hq. apply Z.div_lt_upper_bound; rewrite ?us_per_second_eq; [lia |].
      unfold Clock.hours in Hlt. rewrite us_per_second_eq in Hlt. lia. }
    assert (Heq : format_working_hours (check_out - check_in)
                  = spec_working_hours check_in check_out).
    { rewrite Hfmt. unfold spec_working_hours. fold total.
      rewrite (fmt_02d_two_digits _ Hh). reflexivity. }
    split; [exact Heq |]. rewrite Heq. reflexivity.
  - intros record. reflexivity.
  - vm_compute. reflexivity.
Qed.

Lemma working_hours_elapsed_witness :
  Clock.datetime 2025 1 1 9 0 0 0 <= Clock.datetime 2025 1 1 17 30 15 0
  /\ format_working_hours
       (Clock.datetime 2025 1 1 17 30 15 0 - Clock.datetime 2025 1 1 9 0 0 0)
     = spec_working_hours (Clock.datetime 2025 1 1 9 0 0 0)
         (Clock.datetime 2025 1 1 17 30 15 0).
Proof.
  assert (H : Clock.datetime 2025 1 1 9 0 0 0 <= Clock.datetime 2025 1 1 17 30 15 0)
    by (vm_compute; discriminate).
  assert (Hspan : Clock.datetime 2025 1 1 17 30 15 0 - Clock.datetime 2025 1 1 9 0 0 0
                  < 2 ^ 34 * Clock.us_per_second)
    by (vm_compute; reflexivity).
  split; [exact H |].
  destruct (working_hours_elapsed _ _ H Hspan) as (_ & _ & Hspec & _).
  apply Hspec. vm_compute. reflexivity.
Defined.

(** The bound is needed.  From [2^34] seconds on, the float of
    [total_seconds()] no longer separates microseconds, and the code prints
    a rounded second: from 1400-01-01 00:00:00 to 2025-01-01 00:00:59.999999
    it prints one minute and no second, where the elapsed time has 59 whole
    seconds. *)
Example working_hours_rounds_beyond_bound :
  let check_in := Clock.datetime 1400 1 1 0 0 0 0 in
  let check_out := Clock.datetime 2025 1 1 0 0 59 999999 in
  2 ^ 34 * Clock.us_per_second <= check_out - check_in
  /\ Z.quot (check_out - check_in) Clock.us_per_second mod 60 = 59
  /\ format_working_hours (check_out - check_in) = "5478648:01:00"%string.
Proof. vm_compute. repeat split; try reflexivity. discriminate. Qed.

End WorkingHours.

(** ** The toggle up to the attendance cycle *)

Section ToggleChecks.
Context `{Runtime}.

Lemma float_or_nonzero (x d : float) :
  PrimFloat.eqb d 0 = false -> PrimFloat.eqb (float_or x d) 0 = false.
Proof.
  intros Hd. unfold float_or.
  destruct (PrimFloat.eqb x 0) eqn:Hx; [exact Hd | exact Hx].
Qed.

(** The office coordinates of the toggle are never zero (never "falsy"). *)
Lemma toggle_office_truthy (company : Company) :
  truthy (JFloat (toggle_office company).1) = true
  /\ truthy (JFloat (toggle_office company).2) = true.
Proof.
  unfold toggle_office; simpl.
  rewrite !float_or_nonzero by reflexivity. split; reflexivity.
Qed.

Lemma is_within_radius_numeric (user_lat user_lon : json)
    (ulat ulon olat olon radius_m : float) :
  py_float user_lat = Some ulat ->
  py_float user_lon = Some ulon ->
  _is_within_radius user_lat user_lon (JFloat olat) (JFloat olon) radius_m
  = match geodesic_meters (ulat, ulon) (olat, olon) with
    | Some distance => PrimFloat.leb distance radius_m
    | None => false
    end.
Proof.
  intros Hlat Hlon. unfold _is_within_radius. rewrite Hlat, Hlon. reflexivity.
Qed.

(** A toggle request in which a coordinate or the photo is absent or
    "falsy" is answered before anything is read from or written to the
    store. *)
Lemma toggle_falsy_field (now : Z) (user : User) (body : Body)
    (data : list (string * json)) (db : Db) :
  toggle_request_data body = Some (JObj data) ->
  truthy (dict_get data "latitude") = false
  \/ truthy (dict_get data "longitude") = false
  \/ truthy (dict_get data "camera_image") = false ->
  toggle_checkin_checkout now (Some user) body db
  = (_error_response
       (Msg (if truthy (dict_get data "latitude") && truthy (dict_get data "longitude")
             then "Camera photo is required for attendance"
             else "GPS coordinates are required for attendance")%string)
       400, db).
Proof.
  intros Hbody Hmiss. unfold toggle_checkin_checkout. rewrite Hbody.
  destruct (truthy (dict_get data "latitude")) eqn:Hlat;
    destruct (truthy (dict_get data "longitude")) eqn:Hlon;
    cbn [negb orb andb]; try reflexivity.
  destruct (truthy (dict_get data "camera_image")) eqn:Hcam;
    cbn [negb]; [| reflexivity].
  destruct Hmiss as [Hm | [Hm | Hm]]; discriminate.
Qed.

(** A toggle request that carries coordinates and a photo, whose coordinates
    parse and whose distance is measured, is decided by the radius test
    alone. *)
Lemma toggle_measured (now : Z) (user : User) (body : Body)
    (data : list (string * json)) (db : Db) (ulat ulon distance : float) :
  toggle_request_data body = Some (JObj data) ->
  truthy (dict_get data "latitude") = true ->
  truthy (dict_get data "longitude") = true ->
  truthy (dict_get data "camera_image") = true ->
  py_float (dict_get data "latitude") = Some ulat ->
  py_float (dict_get data "longitude") = Some ulon ->
  geodesic_meters (ulat, ulon)
    (toggle_office (company_of (toggle_employee user db).1 (toggle_employee user db).2))
  = Some distance ->
  toggle_checkin_checkout now (Some user) body db
  = if PrimFloat.leb distance 100000
    then toggle_cycle now (toggle_employee user db).1
           (dict_get data "latitude") (dict_get data "longitude")
           (dict_get data "camera_image")
           (dict_get_default data "location" (JStr "Unknown Location"))
           distance (toggle_employee user db).2
    else (_error_response (MsgOutsideOffice distance) 400, (toggle_employee user db).2).
Proof.
  intros Hbody Hlat Hlon Hcam Hflat Hflon Hgeo.
  unfold toggle_checkin_checkout. rewrite Hbody, Hlat, Hlon, Hcam.
  cbn [negb orb]. cbv zeta. rewrite Hflat, Hflon.
  rewrite (surjective_pairing (toggle_office _)) in Hgeo.
  rewrite Hgeo.
  rewrite (is_within_radius_numeric _ _ ulat ulon) by assumption.
  rewrite Hgeo.
  destruct (PrimFloat.leb distance 100000); reflexivity.
Qed.

Lemma toggle_employee_attendances (user : User) (db : Db) :
  attendances (toggle_employee user db).2 = attendances db.
Proof.
  unfold toggle_employee. destruct (List.find _ _); reflexivity.
Qed.

(** C7. A toggle request from an authenticated user whose body decodes to
    a JSON object (or is empty) and in which the camera image or a GPS
    coordinate is missing (absent or [null]) is answered with status 400 and
    [success = false], and the store after the request is the store before
    it: no attendance row and no employee is created. *)
Theorem toggle_missing_input_rejected (now : Z) (user : User) (body : Body)
    (fields : list (string * json)) (db : Db) :
  toggle_request_data body = Some (JObj fields) ->
  dict_get fields "camera_image" = JNull
  \/ dict_get fields "latitude" = JNull
  \/ dict_get fields "longitude" = JNull ->
  let result := toggle_checkin_checkout now (Some user) body db in
  status result.1 = 400
  /\ success result.1 = false
  /\ data result.1 = None
  /\ (dict_get fields "latitude" = JNull \/ dict_get fields "longitude" = JNull ->
      message result.1 = Msg "GPS coordinates are required for attendance")
  /\ (truthy (dict_get fields "latitude") = true ->
      truthy (dict_get fields "longitude") = true ->
      message result.1 = Msg "Camera photo is required for attendance")
  /\ result.2 = db
  /\ attendances result.2 = attendances db
  /\ employees result.2 = employees db.
Proof.
  intros Hbody Hmiss result.
  assert (Hfalsy : truthy (dict_get fields "latitude") = false
                   \/ truthy (dict_get fields "longitude") = false
                   \/ truthy (dict_get fields "camera_image") = false).
  { destruct Hmiss as [Hm | [Hm | Hm]]; rewrite Hm; simpl; auto. }
  unfold result. rewrite (toggle_falsy_field now user body fields db Hbody Hfalsy).
  cbn [fst snd status success data message _error_response].
  repeat split; try reflexivity.
  - intros [Hm | Hm]; rewrite Hm; cbn [truthy andb]; [reflexivity |].
    rewrite andb_false_r. reflexivity.
  - intros Hlat Hlon. rewrite Hlat, Hlon. reflexivity.
Qed.

(** C10. A toggle request whose latitude or longitude is the number 0 (as an
    integer or as a float) or the empty string is answered with status 400
    and the message that GPS coordinates are required, leaving the store as
    it was; the answer and the store are those of the same request with the
    coordinate missing. *)
Theorem toggle_zero_coordinate_rejected (now : Z) (user : User) (body : Body)
    (data : list (string * json)) (db : Db) (v : json) :
  toggle_request_data body = Some (JObj data) ->
  v = JInt 0 \/ v = JFloat 0 \/ v = JStr "" ->
  dict_get data "latitude" = v \/ dict_get data "longitude" = v ->
  toggle_checkin_checkout now (Some user) body db
  = (_error_response (Msg "GPS coordinates are required for attendance") 400, db)
  /\ (forall (body' : Body) (data' : list (string * json)),
       toggle_request_data body' = Some (JObj data') ->
       dict_get data' "latitude" = JNull \/ dict_get data' "longitude" = JNull ->
       toggle_checkin_checkout now (Some user) body' db
       = toggle_checkin_checkout now (Some user) body db).
Proof.
  intros Hbody Hv Hfield.
  assert (Hfalsy : truthy v = false).
  { destruct Hv as [-> | [-> | ->]]; reflexivity. }
  assert (Hgps : forall b d,
             toggle_request_data b = Some (JObj d) ->
             truthy (dict_get d "latitude") = false
             \/ truthy (dict_get d "longitude") = false ->
             toggle_checkin_checkout now (Some user) b db
             = (_error_response (Msg "GPS coordinates are required for attendance")
                  400, db)).
  { intros b d Hb Hd. rewrite (toggle_falsy_field now user b d db Hb) by tauto.
    destruct Hd as [Hd | Hd]; rewrite Hd; [| rewrite andb_false_r]; reflexivity. }
  assert (Hmine : toggle_checkin_checkout now (Some user) body db
                  = (_error_response
                       (Msg "GPS coordinates are required for attendance") 400, db)).
  { apply (Hgps body data Hbody).
    destruct Hfield as [Hf | Hf]; rewrite Hf; auto. }
  split; [exact Hmine |].
  intros body' data' Hbody' Hmissing. rewrite Hmine.
  apply (Hgps body' data' Hbody').
  destruct Hmissing as [Hm | Hm]; rewrite Hm; auto.
Qed.

End ToggleChecks.

Lemma toggle_missing_input_rejected_witness :
  let body := JsonBody (JObj [("latitude", JStr "-6.969182");
                              ("longitude", JStr "107.629251")]) in
  let result :=
    @toggle_checkin_checkout utc_runtime (Clock.datetime 2025 1 1 9 0 0 0)
      (Some demo_user) body (demo_db []) in
  status result.1 = 400 /\ result.2 = demo_db [].
Proof.
  cbv zeta.
  destruct (@toggle_missing_input_rejected utc_runtime
              (Clock.datetime 2025 1 1 9 0 0 0) demo_user
              (JsonBody (JObj [("latitude", JStr "-6.969182");
                               ("longitude", JStr "107.629251")]))
              [("latitude", JStr "-6.969182"); ("longitude", JStr "107.629251")]
              (demo_db []) eq_refl (or_introl eq_refl))
    as (Hstatus & _ & _ & _ & _ & Hdb & _).
  split; [exact Hstatus | exact Hdb].
Defined.

Lemma toggle_zero_coordinate_rejected_witness :
  @toggle_checkin_checkout utc_runtime (Clock.datetime 2025 1 1 9 0 0 0)
    (Some demo_user) (demo_request (JInt 0) (JStr "107.629251") (JStr "aW1hZ2U="))
    (demo_db [])
  = (_error_response (Msg "GPS coordinates are required for attendance") 400,
     demo_db []).
Proof.
  apply (@toggle_zero_coordinate_rejected utc_runtime
           (Clock.datetime 2025 1 1 9 0 0 0) demo_user
           (demo_request (JInt 0) (JStr "107.629251") (JStr "aW1hZ2U="))
           [("latitude", JInt 0); ("longitude", JStr "107.629251");
            ("location", JStr "Office"); ("camera_image", JStr "aW1hZ2U=")]
           (demo_db []) (JInt 0) eq_refl (or_introl eq_refl) (or_introl eq_refl)).
Defined.

(** ** Geofence *)

Section Geofence.
Context `{Runtime}.

Lemma is_within_radius_spec (user_lat user_lon office_lat office_lon : json)
    (ulat ulon olat olon radius_m : float) :
  py_float user_lat = Some ulat ->
  py_float user_lon = Some ulon ->
  py_float office_lat = Some olat ->
  py_float office_lon = Some olon ->
  _is_within_radius user_lat user_lon office_lat office_lon radius_m
  = match geodesic_meters (ulat, ulon) (olat, olon) with
    | Some distance => PrimFloat.leb distance radius_m
    | None => false
    end.
Proof.
  intros H1 H2 H3 H4. unfold _is_within_radius. rewrite H1, H2, H3, H4. reflexivity.
Qed.

End Geofence.

(** ** Coordinates that do not parse *)

Section UnparsedCoordinates.
Context `{Runtime}.

Lemma is_within_radius_unparsed (user_lat user_lon office_lat office_lon : json)
    (radius_m : float) :
  py_float user_lat = None \/ py_float user_lon = None ->
  _is_within_radius user_lat user_lon office_lat office_lon radius_m = false.
Proof.
  intros Hnone. unfold _is_within_radius.
  destruct Hnone as [Hn | Hn]; rewrite Hn.
  - reflexivity.
  - destruct (py_float user_lat); reflexivity.
Qed.

Lemma check_in_distance_unparsed (latitude longitude : json) (olat olon : float) :
  py_float latitude = None \/ py_float longitude = None ->
  check_in_distance latitude longitude olat olon = (0%float, true).
Proof.
  intros Hnone. unfold check_in_distance.
  destruct Hnone as [Hn | Hn]; rewrite Hn.
  - reflexivity.
  - destruct (py_float latitude); reflexivity.
Qed.

Lemma toggle_unparsed (now : Z) (user : User) (body : Body)
    (fields : list (string * json)) (db : Db) :
  toggle_request_data body = Some (JObj fields) ->
  truthy (dict_get fields "latitude") = true ->
  truthy (dict_get fields "longitude") = true ->
  truthy (dict_get fields "camera_image") = true ->
  py_float (dict_get fields "latitude") = None
  \/ py_float (dict_get fields "longitude") = None ->
  toggle_checkin_checkout now (Some user) body db
  = (_error_response (Msg "Error validating location") 500, (toggle_employee user db).2).
Proof.
  intros Hbody Hlat Hlon Hcam Hnone.
  unfold toggle_checkin_checkout. rewrite Hbody, Hlat, Hlon, Hcam.
  cbn [negb orb]. cbv zeta.
  destruct Hnone as [Hn | Hn]; rewrite Hn.
  - reflexivity.
  - destruct (py_float (dict_get fields "latitude")); reflexivity.
Qed.

(** C6, as the code has it.  When a submitted coordinate does not read as a
    number: [_is_within_radius] answers [False]; the toggle answers with an
    error response (status 400 when the coordinate is also empty, else
    status 500, "Error validating location") and writes no attendance row;
    the check-in handler goes on as if the user were within the radius, so
    it answers "already checked in" when the employee has an open row today
    and otherwise creates the row, with the coordinates as submitted.  The
    office coordinates are floats and always read as numbers. *)
Theorem unparsed_coordinates_handling (latitude longitude : json) :
  py_float latitude = None \/ py_float longitude = None ->
  (forall (office_lat office_lon : json) (radius_m : float),
      _is_within_radius latitude longitude office_lat office_lon radius_m = false)
  /\ (forall (now : Z) (user : User) (body : Body)
             (fields : list (string * json)) (db : Db),
       toggle_request_data body = Some (JObj fields) ->
       dict_get fields "latitude" = latitude ->
       dict_get fields "longitude" = longitude ->
       let result := toggle_checkin_checkout now (Some user) body db in
       success result.1 = false
       /\ (status result.1 = 400 \/ status result.1 = 500)
       /\ attendances result.2 = attendances db
       /\ (truthy latitude = true -> truthy longitude = true ->
           truthy (dict_get fields "camera_image") = true ->
           result.1 = _error_response (Msg "Error validating location") 500))
  /\ (forall (now : Z) (user : User) (fields : list (string * json)) (db : Db),
       dict_get fields "latitude" = latitude ->
       dict_get fields "longitude" = longitude ->
       let employee := (check_in_employee user db).1 in
       let db1 := (check_in_employee user db).2 in
       let result := check_in now (Some user) (JsonBody (JObj fields)) db in
       match search_first (existing_domain now employee) (attendances db1) with
       | Some _ =>
           result
           = (_error_response (Msg "Employee is already checked in today") 400, db1)
       | None =>
           status result.1 = 200
           /\ exists record,
                attendances result.2 = attendances db1 ++ [record]
                /\ att_check_in record = now
                /\ att_check_out record = None
                /\ att_latitude record = latitude
                /\ att_longitude record = longitude
       end)
  /\ (forall company : Company,
       py_float (JFloat (toggle_office company).1) = Some (toggle_office company).1
       /\ py_float (JFloat (toggle_office company).2) = Some (toggle_office company).2
       /\ py_float (JFloat (check_in_office company).1) = Some (check_in_office company).1
       /\ py_float (JFloat (check_in_office company).2) = Some (check_in_office company).2).
Proof.
  intros Hnone. split; [| split; [| split; [| intros; repeat split; reflexivity]]].
  - intros. apply is_within_radius_unparsed. exact Hnone.
  - intros now user body fields db Hbody Hlat Hlon result. subst latitude longitude.
    unfold result.
    destruct (truthy (dict_get fields "latitude")) eqn:Htlat;
      [destruct (truthy (dict_get fields "longitude")) eqn:Htlon;
       [destruct (truthy (dict_get fields "camera_image")) eqn:Htcam |] |].
    + rewrite (toggle_unparsed now user body fields db) by assumption.
      cbn [fst snd success status _error_response].
      rewrite toggle_employee_attendances. repeat split; auto.
    + rewrite (toggle_falsy_field now user body fields db Hbody) by auto.
      cbn [fst snd success status _error_response].
      repeat split; auto. discriminate.
    + rewrite (toggle_falsy_field now user body fields db Hbody) by auto.
      cbn [fst snd success status _error_response].
      repeat split; auto. discriminate.
    + rewrite (toggle_falsy_field now user body fields db Hbody) by auto.
      cbn [fst snd success status _error_response].
      repeat split; auto. discriminate.
  - intros now user fields db Hlat Hlon employee db1 result.
    subst latitude longitude. unfold result, check_in. cbv zeta.
    rewrite check_in_distance_unparsed by exact Hnone.
    cbn [fst snd negb]. fold employee. fold db1.
    destruct (search_first (existing_domain now employee) (attendances db1));
      [reflexivity |].
    cbn [fst snd status _json_response attendances with_attendances].
    split; [reflexivity |]. eexists. split; [reflexivity |].
    cbn [att_check_in att_check_out att_latitude att_longitude].
    repeat split; try reflexivity.
    unfold Clock.astimezone_utc_naive, Clock.now_in. simpl. lia.
Qed.

End UnparsedCoordinates.

Lemma unparsed_coordinates_handling_witness :
  @py_float utc_runtime (JStr "abc") = None
  /\ @_is_within_radius utc_runtime (JStr "abc") (JStr "107.629251")
       (JFloat (-6.969182)) (JFloat 107.629251) 100000 = false.
Proof.
  assert (Hnone : @py_float utc_runtime (JStr "abc") = None) by reflexivity.
  split; [exact Hnone |].
  destruct (@unparsed_coordinates_handling utc_runtime
              (JStr "abc") (JStr "107.629251") (or_introl Hnone))
    as (Hradius & _).
  apply Hradius.
Defined.

(** C6 as stated fails for the check-in handler: a check-in whose
    coordinates are not numbers is accepted and its row is created. *)
Lemma check_in_unparsed_coordinates_counterexample :
  let body :=
    JsonBody (JObj [("latitude", JStr "abc"); ("longitude", JStr "xyz");
                    ("selfie_photo", JStr "aW1hZ2U=")]) in
  let result :=
    @check_in utc_runtime (Clock.datetime 2025 1 1 9 0 0 0)
      (Some demo_user) body (demo_db []) in
  @py_float utc_runtime (JStr "abc") = None
  /\ @py_float utc_runtime (JStr "xyz") = None
  /\ status result.1 = 200
  /\ success result.1 = true
  /\ attendances (demo_db []) = []
  /\ attendances result.2
     = [{| att_id := 1; att_employee_id := 1;
           att_check_in := Clock.datetime 2025 1 1 9 0 0 0;
           att_check_out := None; att_working_hours := "00:00:00";
           att_selfie_photo := JStr "aW1hZ2U=";
           att_latitude := JStr "abc"; att_longitude := JStr "xyz" |}].
Proof. vm_compute. repeat split; reflexivity. Qed.

(** ** The day boundary *)

Section DayBoundary.
Context `{Runtime}.

Lemma us_per_day_eq : Clock.us_per_day = 86400000000.
Proof. reflexivity. Qed.

(** A naive datetime lies from a date's midnight up to the next midnight
    exactly when that date is its own. *)
Lemma date_of_interval (day t : Z) :
  (Clock.midnight day <=? t) && (t <? Clock.midnight (day + 1)) = true
  <-> Clock.date_of t = day.
Proof.
  unfold Clock.midnight, Clock.date_of. rewrite us_per_day_eq.
  rewrite andb_true_iff, Z.leb_le, Z.ltb_lt.
  pose proof (Z.div_mod t 86400000000 ltac:(lia)) as Hdm.
  pose proof (Z.mod_pos_bound t 86400000000 ltac:(lia)) as Hb.
  split.
  - intros [Hlo Hhi]. symmetry. apply (Z.div_unique t 86400000000 day (t - day * 86400000000)); lia.
  - intros <-. lia.
Qed.

Lemma today_domain_iff (now : Z) (employee : Employee) (a : Attendance) :
  today_domain now employee a = true
  <-> att_employee_id a = employee_id employee
      /\ Clock.date_of (att_check_in a) = server_today now.
Proof.
  unfold today_domain. cbv zeta.
  rewrite <- andb_assoc, andb_true_iff, Z.eqb_eq, date_of_interval. reflexivity.
Qed.

Lemma existing_domain_date (now : Z) (employee : Employee) (a : Attendance) :
  existing_domain now employee a = true ->
  att_employee_id a = employee_id employee
  /\ att_check_out a = None
  /\ Clock.date_of (att_check_in a) = server_today now.
Proof.
  unfold existing_domain. cbv zeta.
  rewrite !andb_true_iff, Z.eqb_eq, Z.leb_le, Z.leb_le.
  intros [[[Hemp Hopen] Hlo] Hhi].
  split; [exact Hemp |]. split.
  - unfold is_open in Hopen. destruct (att_check_out a); [discriminate | reflexivity].
  - apply date_of_interval. rewrite andb_true_iff, Z.leb_le, Z.ltb_lt.
    split; [exact Hlo |].
    unfold Clock.midnight in *. rewrite us_per_day_eq in *.
    change Clock.us_per_second with 1000000 in Hhi. lia.
Qed.

Lemma stored_instant_is_now (now : Z) :
  Clock.astimezone_utc_naive (_get_current_datetime_local now) = now.
Proof.
  unfold Clock.astimezone_utc_naive, _get_current_datetime_local, Clock.now_in.
  simpl. lia.
Qed.

End DayBoundary.

(** The toggle's search against the UTC+7 day.  On a server in UTC, at
    18:00 UTC on 1 January 2025 (01:00 on 2 January in UTC+7) the toggle's
    day is 1 January, and a row checked in at 16:00 UTC (23:00 on 1 January
    in UTC+7) counts as today's.  On a server in UTC+7, at 01:00 UTC on 2
    January (08:00 in UTC+7) a row checked in at 18:00 UTC on 1 January
    (01:00 on 2 January in UTC+7, the same local day) does not count as
    today's. *)
Lemma today_domain_against_local_day :
  let now := Clock.datetime 2025 1 1 18 0 0 0 in
  let row := demo_row 1 (Clock.datetime 2025 1 1 16 0 0 0) None in
  let now' := Clock.datetime 2025 1 2 1 0 0 0 in
  let row' := demo_row 1 (Clock.datetime 2025 1 1 18 0 0 0) None in
  (@server_today utc_runtime now = Clock.days_from_civil 2025 1 1
   /\ spec_local_date now = Clock.days_from_civil 2025 1 2
   /\ @today_domain utc_runtime now demo_employee row = true
   /\ spec_today_domain now demo_employee row = false)
  /\ (@server_today wib_runtime now' = spec_local_date now'
      /\ @today_domain wib_runtime now' demo_employee row' = false
      /\ spec_today_domain now' demo_employee row' = true).
Proof. vm_compute. repeat split; reflexivity. Qed.

(** C4.  Two check-ins on one UTC+7 day.  A toggle at 06:50 and a toggle
    at 16:00 of 2 January 2025 in UTC+7 (23:50 UTC on 1 January and 09:00 UTC
    on 2 January) both check in, on a server in UTC and on a server in
    UTC+7 alike: the handler sets the date of its process's clock against
    the stored UTC [check_in], so the first row, whose UTC date is 1
    January, is not found as today's by the second request.  Afterwards the
    employee has two open rows on one calendar day of UTC+7. *)
Theorem toggle_checks_in_twice_on_one_local_day :
  let now1 := Clock.datetime 2025 1 1 23 50 0 0 in
  let now2 := Clock.datetime 2025 1 2 9 0 0 0 in
  let day := Clock.days_from_civil 2025 1 2 in
  let action_of := fun r : Response =>
    match data r with
    | Some (ToggleData d) => Some (action d, is_checked_in d)
    | _ => None
    end in
  let outcome := fun runtime : Runtime =>
    let first :=
      @toggle_checkin_checkout runtime now1 (Some demo_user) at_office (demo_db []) in
    let second :=
      @toggle_checkin_checkout runtime now2 (Some demo_user) at_office first.2 in
    (status first.1, action_of first.1) = (200, Some ("check_in"%string, true))
    /\ (status second.1, action_of second.1) = (200, Some ("check_in"%string, true))
    /\ attendances second.2 = [demo_row 1 now1 None; demo_row 2 now2 None]
    /\ List.filter (open_on spec_local_date 1 day) (attendances second.2)
       = [demo_row 1 now1 None; demo_row 2 now2 None] in
  (spec_local_date now1 = day /\ spec_local_date now2 = day)
  /\ outcome utc_runtime
  /\ outcome wib_runtime.
Proof. vm_compute. repeat split; reflexivity. Qed.

(** ** Searching the attendance table *)

Section Search.

Lemma in_insert_check_in_desc (a x : Attendance) (rows : list Attendance) :
  In x (insert_check_in_desc a rows) <-> x = a \/ In x rows.
Proof.
  induction rows as [| b rest IH]; simpl.
  - intuition auto.
  - destruct (att_check_in b <? att_check_in a); simpl.
    + intuition auto.
    + rewrite IH. intuition auto.
Qed.

Lemma in_order_check_in_desc (x : Attendance) (rows : list Attendance) :
  In x (order_check_in_desc rows) <-> In x rows.
Proof.
  unfold order_check_in_desc. induction rows as [| a rest IH]; simpl.
  - reflexivity.
  - rewrite in_insert_check_in_desc, IH. intuition auto.
Qed.

Lemma head_filter_None {A : Type} (p : A -> bool) (l : list A) :
  head (List.filter p l) = None <-> forall x, In x l -> p x = false.
Proof.
  induction l as [| a l IH]; simpl.
  - split; [intros _ x [] | reflexivity].
  - destruct (p a) eqn:Hpa; simpl.
    + split; [discriminate |]. intros Hall.
      rewrite (Hall a (or_introl eq_refl)) in Hpa. discriminate.
    + rewrite IH. split.
      * intros Hall x [<- | Hin]; [exact Hpa | apply Hall, Hin].
      * intros Hall x Hin. apply Hall. right. exact Hin.
Qed.

Lemma head_filter_Some {A : Type} (p : A -> bool) (l : list A) (x : A) :
  head (List.filter p l) = Some x -> In x l /\ p x = true.
Proof.
  intros Hhead.
  assert (Hin : In x (List.filter p l)).
  { destruct (List.filter p l); [discriminate |]. injection Hhead as <-. left. reflexivity. }
  apply filter_In in Hin. exact Hin.
Qed.

(** The search finds nothing exactly when no row is in the domain. *)
Lemma search_first_None (domain : Attendance -> bool) (rows : list Attendance) :
  search_first domain rows = None <-> forall a, In a rows -> domain a = false.
Proof.
  unfold search_first. rewrite head_filter_None. split.
  - intros Hall a Hin. apply Hall, in_order_check_in_desc, Hin.
  - intros Hall a Hin. apply Hall, in_order_check_in_desc, Hin.
Qed.

(** What the search finds is a row of the table that is in the domain. *)
Lemma search_first_Some (domain : Attendance -> bool) (rows : list Attendance)
    (a : Attendance) :
  search_first domain rows = Some a -> In a rows /\ domain a = true.
Proof.
  unfold search_first. intros Hhead.
  apply head_filter_Some in Hhead. rewrite in_order_check_in_desc in Hhead. exact Hhead.
Qed.

Lemma filter_length_pos {A : Type} (p : A -> bool) (l : list A) (x : A) :
  In x l -> p x = true -> length (List.filter p l) <> 0%nat.
Proof.
  intros Hin Hp.
  assert (Hf : In x (List.filter p l)) by (apply filter_In; split; assumption).
  destruct (List.filter p l); [destruct Hf | discriminate].
Qed.

End Search.

(** ** The attendance cycle of the toggle *)

Section ToggleCycle.
Context `{Runtime}.

(** The three branches of lines 406-524, by what the search finds. *)
Lemma toggle_cycle_no_record (now : Z) (employee : Employee)
    (latitude longitude camera_image location : json) (distance : float) (db : Db) :
  search_first (today_domain now employee) (attendances db) = None ->
  toggle_cycle now employee latitude longitude camera_image location distance db
  = (_json_response
       (Some (ToggleData
          {| action := "check_in"; time_local := _format_time_local now;
             td_working_hours := None; is_checked_in := true;
             td_location := location; distance_from_office := distance |}))
       (Msg "Check in successful"),
     with_attendances db
       (attendances db ++
        [{| att_id := fresh_id (map att_id (attendances db));
            att_employee_id := employee_id employee;
            att_check_in := now; att_check_out := None;
            att_working_hours := "00:00:00";
            att_selfie_photo := camera_image;
            att_latitude := latitude; att_longitude := longitude |}])).
Proof.
  intros Hnone. unfold toggle_cycle. rewrite Hnone. cbv zeta.
  rewrite stored_instant_is_now. reflexivity.
Qed.

Lemma toggle_cycle_open_record (now : Z) (employee : Employee)
    (latitude longitude camera_image location : json) (distance : float) (db : Db)
    (r : Attendance) :
  search_first (today_domain now employee) (attendances db) = Some r ->
  att_check_out r = None ->
  toggle_cycle now employee latitude longitude camera_image location distance db
  = (_json_response
       (Some (ToggleData
          {| action := "check_out"; time_local := _format_time_local now;
             td_working_hours := Some (format_working_hours (now - att_check_in r));
             is_checked_in := false;
             td_location := location; distance_from_office := distance |}))
       (Msg "Check out successful"),
     with_attendances db
       (map (fun x =>
               if (att_id x =? att_id r) && is_open x
               then set_check_out now (format_working_hours (now - att_check_in r)) x
               else x)
            (attendances db))).
Proof.
  intros Hsome Hopen. unfold toggle_cycle. rewrite Hsome, Hopen. cbv zeta.
  rewrite stored_instant_is_now. unfold sql_update. cbn [fst snd].
  destruct (search_first_Some _ _ _ Hsome) as [Hin _].
  assert (Hcount :
            length (List.filter (fun x => (att_id x =? att_id r) && is_open x)
                      (attendances db)) <> 0%nat).
  { apply (filter_length_pos _ _ r Hin).
    unfold is_open. rewrite Hopen, Z.eqb_refl. reflexivity. }
  destruct (Nat.eqb_spec
              (length (List.filter (fun x => (att_id x =? att_id r) && is_open x)
                         (attendances db))) 0) as [Hz | _];
    [contradiction | reflexivity].
Qed.

Lemma toggle_cycle_closed_record (now : Z) (employee : Employee)
    (latitude longitude camera_image location : json) (distance : float) (db : Db)
    (r : Attendance) (closed_at : Z) :
  search_first (today_domain now employee) (attendances db) = Some r ->
  att_check_out r = Some closed_at ->
  toggle_cycle now employee latitude longitude camera_image location distance db
  = (_error_response
       (Msg "Anda sudah melakukan check-in dan check-out hari ini. Tunggu sampai besok untuk attendance berikutnya.")
       400, db).
Proof.
  intros Hsome Hclosed. unfold toggle_cycle. rewrite Hsome, Hclosed. reflexivity.
Qed.

End ToggleCycle.

(** One day at the office, on a server in UTC: the first toggle checks in,
    the second checks out with the elapsed time, the third is refused and
    changes nothing. *)
Example toggle_day_cycle :
  let first :=
    @toggle_checkin_checkout utc_runtime (Clock.datetime 2025 1 1 9 0 0 0)
      (Some demo_user) at_office (demo_db []) in
  let second :=
    @toggle_checkin_checkout utc_runtime (Clock.datetime 2025 1 1 17 30 15 0)
      (Some demo_user) at_office first.2 in
  let third :=
    @toggle_checkin_checkout utc_runtime (Clock.datetime 2025 1 1 18 0 0 0)
      (Some demo_user) at_office second.2 in
  (status first.1, status second.1, status third.1) = (200, 200, 400)
  /\ attendances first.2 = [demo_row 1 (Clock.datetime 2025 1 1 9 0 0 0) None]
  /\ attendances second.2
     = [set_check_out (Clock.datetime 2025 1 1 17 30 15 0) "08:30:15"
          (demo_row 1 (Clock.datetime 2025 1 1 9 0 0 0) None)]
  /\ third.2 = second.2.
Proof. vm_compute. repeat split; reflexivity. Qed.

(** ** One open row per employee and day *)

Section OpenRows.
Context `{Runtime}.

(** What a toggle can do to the attendance table: nothing, append the row
    of a check-in when the search found no row for today, or close open
    rows. *)
Lemma toggle_cycle_attendances (now : Z) (employee : Employee)
    (latitude longitude camera_image location : json) (distance : float) (db : Db) :
  let rows' :=
    attendances
      (toggle_cycle now employee latitude longitude camera_image location distance db).2 in
  rows' = attendances db
  \/ (search_first (today_domain now employee) (attendances db) = None
      /\ exists record,
           rows' = attendances db ++ [record]
           /\ att_employee_id record = employee_id employee
           /\ att_check_in record = now
           /\ att_id record = fresh_id (map att_id (attendances db)))
  \/ (exists (p : Attendance -> bool) (check_out_utc : Z) (working_hours : string),
        rows' = map (fun x => if p x && is_open x
                              then set_check_out check_out_utc working_hours x
                              else x) (attendances db)).
Proof.
  cbv zeta. unfold toggle_cycle.
  destruct (search_first (today_domain now employee) (attendances db)) as [r |] eqn:Hs.
  - destruct (att_check_out r); [left; reflexivity |].
    cbv zeta. unfold sql_update. cbn [fst snd].
    destruct (_ =? _)%nat; [left; reflexivity |].
    right. right. eexists (fun x => att_id x =? att_id r), _, _. reflexivity.
  - right. left. split; [reflexivity |]. eexists. split; [reflexivity |].
    cbn [att_employee_id att_check_in att_id]. rewrite stored_instant_is_now.
    repeat split; reflexivity.
Qed.

Lemma toggle_attendances (now : Z) (user : option User) (body : Body) (db : Db) :
  let rows' := attendances (toggle_checkin_checkout now user body db).2 in
  rows' = attendances db
  \/ (exists employee record,
        search_first (today_domain now employee) (attendances db) = None
        /\ rows' = attendances db ++ [record]
        /\ att_employee_id record = employee_id employee
        /\ att_check_in record = now
        /\ att_id record = fresh_id (map att_id (attendances db)))
  \/ (exists (p : Attendance -> bool) (check_out_utc : Z) (working_hours : string),
        rows' = map (fun x => if p x && is_open x
                              then set_check_out check_out_utc working_hours x
                              else x) (attendances db)).
Proof.
  cbv zeta. unfold toggle_checkin_checkout.
  destruct user as [user |]; [| left; reflexivity].
  destruct (toggle_request_data body) as [[| | | | | | fields] |];
    try (left; reflexivity).
  destruct (negb _ || negb _); [left; reflexivity |].
  destruct (negb _); [left; reflexivity |].
  cbv zeta.
  pose proof (toggle_employee_attendances user db) as Hrows.
  destruct (py_float (dict_get fields "latitude"));
    [| left; exact Hrows].
  destruct (py_float (dict_get fields "longitude"));
    [| left; exact Hrows].
  destruct (geodesic_meters _ _) as [distance |]; [| left; exact Hrows].
  destruct (negb _); [left; exact Hrows |].
  pose proof (toggle_cycle_attendances now (toggle_employee user db).1
                (dict_get fields "latitude") (dict_get fields "longitude")
                (dict_get fields "camera_image")
                (dict_get_default fields "location" (JStr "Unknown Location"))
                distance (toggle_employee user db).2) as Hcases.
  cbv zeta in Hcases. rewrite Hrows in Hcases.
  destruct Hcases as [Hsame | [[Hnone Hnew] | Hclose]].
  - left. exact Hsame.
  - right. left. exists (toggle_employee user db).1.
    destruct Hnew as (record & Hr & He & Hc & Hi).
    exists record. repeat split; assumption.
  - right. right. exact Hclose.
Qed.

Lemma filter_closing_length (p q : Attendance -> bool) (check_out_utc : Z)
    (working_hours : string) (rows : list Attendance) :
  (forall x, q (set_check_out check_out_utc working_hours x) = false) ->
  (length (List.filter q
             (map (fun x => if p x
                            then set_check_out check_out_utc working_hours x
                            else x) rows))
   <= length (List.filter q rows))%nat.
Proof.
  intros Hclosed. induction rows as [| a rest IH]; cbn [map List.filter]; [lia |].
  destruct (p a).
  - rewrite Hclosed. destruct (q a); cbn [length]; lia.
  - destruct (q a); cbn [length]; lia.
Qed.

Lemma open_on_closed (day_of : Z -> Z) (employee day check_out_utc : Z)
    (working_hours : string) (x : Attendance) :
  open_on day_of employee day (set_check_out check_out_utc working_hours x) = false.
Proof.
  unfold open_on, set_check_out, is_open. cbn.
  rewrite andb_false_r. reflexivity.
Qed.

(** On a server in UTC, a toggle keeps at most one open row per employee and
    day. *)
Lemma toggle_keeps_at_most_one_open (now : Z) (user : option User) (body : Body)
    (db : Db) :
  server_utc_offset = 0 ->
  at_most_one_open Clock.date_of (attendances db) ->
  at_most_one_open Clock.date_of
    (attendances (toggle_checkin_checkout now user body db).2).
Proof.
  intros Hutc Hinv employee day.
  destruct (toggle_attendances now user body db)
    as [Hsame | [(e & record & Hnone & Hrows & Hemp & Hin & _)
                | (p & co & wh & Hrows)]].
  - rewrite Hsame. apply Hinv.
  - rewrite Hrows, List.filter_app, length_app. cbn [List.filter].
    destruct (open_on Clock.date_of employee day record) eqn:Hopen;
      cbn [length]; [| specialize (Hinv employee day); lia].
    assert (Hempty : List.filter (open_on Clock.date_of employee day) (attendances db) = []).
    { pose proof (proj1 (search_first_None _ _) Hnone) as Hall.
      destruct (List.filter (open_on Clock.date_of employee day) (attendances db))
        as [| a rest] eqn:Hf; [reflexivity |].
      assert (Ha : In a (List.filter (open_on Clock.date_of employee day) (attendances db)))
        by (rewrite Hf; left; reflexivity).
      apply filter_In in Ha. destruct Ha as [Hain Haopen].
      specialize (Hall a Hain).
      assert (Htoday : today_domain now e a = true).
      { apply today_domain_iff.
        unfold open_on in Hopen, Haopen.
        rewrite !andb_true_iff, !Z.eqb_eq in Hopen, Haopen.
        unfold server_today. rewrite Hutc, Z.add_0_r.
        destruct Hopen as [[He1 _] Hd1]. destruct Haopen as [[He2 _] Hd2].
        split; congruence. }
      congruence. }
    rewrite Hempty. cbn [length]. lia.
  - rewrite Hrows.
    etransitivity; [| apply (Hinv employee day)].
    apply (filter_closing_length (fun x => p x && is_open x)).
    intros x. apply open_on_closed.
Qed.

(** A row that has its [check_out] is still in the table, unchanged, after a
    toggle. *)
Lemma toggle_keeps_closed_rows (now : Z) (user : option User) (body : Body)
    (db : Db) (a : Attendance) :
  In a (attendances db) ->
  is_open a = false ->
  In a (attendances (toggle_checkin_checkout now user body db).2).
Proof.
  intros Hin Hclosed.
  destruct (toggle_attendances now user body db)
    as [Hsame | [(e & record & _ & Hrows & _) | (p & co & wh & Hrows)]].
  - rewrite Hsame. exact Hin.
  - rewrite Hrows. apply in_or_app. left. exact Hin.
  - rewrite Hrows. apply in_map_iff. exists a. split; [| exact Hin].
    rewrite Hclosed, andb_false_r. reflexivity.
Qed.

Lemma check_in_employee_attendances (user : User) (db : Db) :
  attendances (check_in_employee user db).2 = attendances db.
Proof.
  unfold check_in_employee.
  destruct (List.filter _ _) as [| e [| e' rest]]; reflexivity.
Qed.

(** A check-in leaves the table as it was, or appends one open row when its
    search found no open row of the employee for today. *)
Lemma check_in_attendances (now : Z) (user : option User) (body : Body) (db : Db) :
  let rows' := attendances (check_in now user body db).2 in
  rows' = attendances db
  \/ exists employee record,
       search_first (existing_domain now employee) (attendances db) = None
       /\ rows' = attendances db ++ [record]
       /\ att_employee_id record = employee_id employee
       /\ att_check_in record = now.
Proof.
  cbv zeta. unfold check_in.
  destruct user as [user |]; [| left; reflexivity].
  destruct body as [| | | [| | | | | | fields]]; try (left; reflexivity).
  cbv zeta. pose proof (check_in_employee_attendances user db) as Hrows.
  destruct (negb _); [left; exact Hrows |].
  destruct (search_first _ _) eqn:Hs; [left; exact Hrows |].
  right. exists (check_in_employee user db).1. eexists.
  cbn [snd attendances with_attendances att_employee_id att_check_in].
  rewrite Hrows in *. rewrite stored_instant_is_now.
  split; [exact Hs |]. repeat split; reflexivity.
Qed.

Lemma check_in_keeps_closed_rows (now : Z) (user : option User) (body : Body)
    (db : Db) (a : Attendance) :
  In a (attendances db) ->
  In a (attendances (check_in now user body db).2).
Proof.
  intros Hin.
  destruct (check_in_attendances now user body db)
    as [Hsame | (employee & record & _ & Hrows & _)].
  - rewrite Hsame. exact Hin.
  - rewrite Hrows. apply in_or_app. left. exact Hin.
Qed.

(** On a server in UTC, when no stored [check_in] lies after [now], a
    check-in served up to [23:59:59.000000] keeps at most one open row per
    employee and day: what the handler's search misses is the last second of
    the day. *)
Lemma check_in_keeps_at_most_one_open_before_last_second
    (now : Z) (user : option User) (body : Body) (db : Db) :
  server_utc_offset = 0 ->
  now <= Clock.midnight (Clock.date_of now) + 86399 * Clock.us_per_second ->
  (forall a, In a (attendances db) -> att_check_in a <= now) ->
  at_most_one_open Clock.date_of (attendances db) ->
  at_most_one_open Clock.date_of (attendances (check_in now user body db).2).
Proof.
  intros Hutc Hearly Hpast Hinv employee day.
  destruct (check_in_attendances now user body db)
    as [Hsame | (e & record & Hnone & Hrows & Hemp & Hin)].
  - rewrite Hsame. apply Hinv.
  - rewrite Hrows, List.filter_app, length_app. cbn [List.filter].
    destruct (open_on Clock.date_of employee day record) eqn:Hopen;
      cbn [length]; [| specialize (Hinv employee day); lia].
    assert (Hempty : List.filter (open_on Clock.date_of employee day) (attendances db) = []).
    { pose proof (proj1 (search_first_None _ _) Hnone) as Hall.
      destruct (List.filter (open_on Clock.date_of employee day) (attendances db))
        as [| a rest] eqn:Hf; [reflexivity |].
      assert (Ha : In a (List.filter (open_on Clock.date_of employee day) (attendances db)))
        by (rewrite Hf; left; reflexivity).
      apply filter_In in Ha. destruct Ha as [Hain Haopen].
      specialize (Hall a Hain). specialize (Hpast a Hain).
      unfold open_on in Hopen, Haopen.
      rewrite !andb_true_iff, !Z.eqb_eq in Hopen, Haopen.
      destruct Hopen as [[He1 _] Hd1]. destruct Haopen as [[He2 Ho2] Hd2].
      assert (Hday : Clock.date_of (att_check_in a) = Clock.date_of now) by congruence.
      apply date_of_interval in Hday.
      rewrite andb_true_iff, Z.leb_le, Z.ltb_lt in Hday.
      assert (Hfound : existing_domain now e a = true).
      { unfold existing_domain, server_today. cbv zeta. rewrite Hutc, Z.add_0_r.
        rewrite !andb_true_iff, Z.eqb_eq, !Z.leb_le.
        repeat split; [congruence | exact Ho2 | lia | lia]. }
      congruence. }
    rewrite Hempty. cbn [length]. lia.
Qed.

Lemma same_id_same_row (rows : list Attendance) (a b : Attendance) :
  List.NoDup (map att_id rows) ->
  In a rows -> In b rows -> att_id a = att_id b -> a = b.
Proof.
  induction rows as [| r rest IH]; intros Hnd Ha Hb Hid; [destruct Ha |].
  cbn [map] in Hnd. apply List.NoDup_cons_iff in Hnd. destruct Hnd as [Hfresh Hnd].
  destruct Ha as [<- | Ha]; destruct Hb as [<- | Hb].
  - reflexivity.
  - exfalso. apply Hfresh. rewrite Hid. apply in_map. exact Hb.
  - exfalso. apply Hfresh. rewrite <- Hid. apply in_map. exact Ha.
  - apply IH; assumption.
Qed.

(** The check-out handler's [UPDATE ... WHERE id = %s] has no test on
    [check_out]; the row it names was found open, and ids are unique, so a
    row that has its [check_out] is left as it is. *)
Lemma check_out_keeps_closed_rows (now : Z) (user : option User) (body : Body)
    (db : Db) (a : Attendance) :
  List.NoDup (map att_id (attendances db)) ->
  In a (attendances db) ->
  is_open a = false ->
  In a (attendances (check_out now user body db).2).
Proof.
  intros Hnd Hin Hclosed. unfold check_out.
  destruct user as [user |]; [| exact Hin].
  destruct body as [| | | [| | | | | | fields]]; try exact Hin.
  cbv zeta.
  destruct (check_out_employee _ _ _) as [| [employee |]]; try exact Hin.
  destruct (search_first _ _) as [found |] eqn:Hs; [| exact Hin].
  cbn [snd attendances with_attendances sql_update fst].
  destruct (search_first_Some _ _ _ Hs) as [Hfound Hdom].
  apply andb_true_iff in Hdom. destruct Hdom as [_ Hopen].
  apply in_map_iff. exists a. split; [| exact Hin].
  destruct (Z.eqb_spec (att_id a) (att_id found)) as [Hid | _]; [| reflexivity].
  pose proof (same_id_same_row _ _ _ Hnd Hin Hfound Hid) as ->.
  congruence.
Qed.

(** A check-out leaves the table as it was or closes rows: it keeps at most
    one open row per employee and day. *)
Lemma check_out_keeps_at_most_one_open (day_of : Z -> Z)
    (now : Z) (user : option User) (body : Body) (db : Db) :
  at_most_one_open day_of (attendances db) ->
  at_most_one_open day_of (attendances (check_out now user body db).2).
Proof.
  intros Hinv employee day. unfold check_out.
  destruct user as [user |]; [| apply Hinv].
  destruct body as [| | | [| | | | | | fields]]; try apply Hinv.
  cbv zeta.
  destruct (check_out_employee _ _ _) as [| [e |]]; try apply Hinv.
  destruct (search_first _ _) as [found |]; [| apply Hinv].
  cbn [snd attendances with_attendances sql_update fst].
  etransitivity; [| apply (Hinv employee day)].
  apply filter_closing_length. intros x. apply open_on_closed.
Qed.

End OpenRows.

(** C2 fails in the check-in handler.  Its search for an open row of today
    stops at [23:59:59] on the second, where the toggle's search runs up to
    the next midnight: a row checked in during the last second of the day is
    not found, and a second check-in in that second creates a second open
    row for the same employee and day (the same day in UTC and in UTC+7). *)
Theorem check_in_last_second_two_open_rows :
  let t1 := Clock.datetime 2025 1 1 23 59 59 200000 in
  let t2 := Clock.datetime 2025 1 1 23 59 59 600000 in
  let first := @check_in utc_runtime t1 (Some demo_user) checkin_at_office (demo_db []) in
  let second := @check_in utc_runtime t2 (Some demo_user) checkin_at_office first.2 in
  (status first.1 = 200 /\ status second.1 = 200)
  /\ attendances first.2 = [demo_row 1 t1 None]
  /\ attendances second.2 = [demo_row 1 t1 None; demo_row 2 t2 None]
  /\ (Clock.date_of t1 = Clock.date_of t2 /\ spec_local_date t1 = spec_local_date t2)
  /\ (@existing_domain utc_runtime t2 demo_employee (demo_row 1 t1 None) = false
      /\ @today_domain utc_runtime t2 demo_employee (demo_row 1 t1 None) = true)
  /\ at_most_one_open Clock.date_of (attendances first.2)
  /\ ~ at_most_one_open Clock.date_of (attendances second.2)
  /\ ~ at_most_one_open spec_local_date (attendances second.2).
Proof.
  cbv zeta.
  assert (Hfirst :
            attendances
              (@check_in utc_runtime (Clock.datetime 2025 1 1 23 59 59 200000)
                 (Some demo_user) checkin_at_office (demo_db [])).2
            = [demo_row 1 (Clock.datetime 2025 1 1 23 59 59 200000) None])
    by (vm_compute; reflexivity).
  assert (Hsecond :
            attendances
              (@check_in utc_runtime (Clock.datetime 2025 1 1 23 59 59 600000)
                 (Some demo_user) checkin_at_office
                 (@check_in utc_runtime (Clock.datetime 2025 1 1 23 59 59 200000)
                    (Some demo_user) checkin_at_office (demo_db [])).2).2
            = [demo_row 1 (Clock.datetime 2025 1 1 23 59 59 200000) None;
               demo_row 2 (Clock.datetime 2025 1 1 23 59 59 600000) None])
    by (vm_compute; reflexivity).
  split; [split; vm_compute; reflexivity |].
  split; [exact Hfirst |]. split; [exact Hsecond |].
  split; [split; vm_compute; reflexivity |].
  split; [split; vm_compute; reflexivity |].
  rewrite Hfirst, Hsecond. split; [| split].
  - intros employee day. cbn [List.filter].
    destruct (open_on Clock.date_of employee day _); cbn [length]; lia.
  - intros Hinv.
    specialize (Hinv 1 (Clock.date_of (Clock.datetime 2025 1 1 23 59 59 200000))).
    vm_compute in Hinv. lia.
  - intros Hinv.
    specialize (Hinv 1 (spec_local_date (Clock.datetime 2025 1 1 23 59 59 200000))).
    vm_compute in Hinv. lia.
Qed.


(** * Further properties *)

(** ** More on the session store *)

Section SessionStoreMore.
Import SessionManager.

Lemma get_user_id_unknown (now : Z) (token : string)
    (sessions : gmap string session_data) :
  sessions !! token = None -> get_user_id now token sessions = (None, sessions).
Proof. intros Hnone. unfold get_user_id. rewrite Hnone. reflexivity. Qed.

Lemma get_user_id_other (now : Z) (token other : string)
    (sessions : gmap string session_data) :
  other <> token ->
  (get_user_id now token sessions).2 !! other = sessions !! other.
Proof.
  intros Hne. unfold get_user_id.
  destruct (sessions !! token) as [d |]; [| reflexivity].
  destruct (bool_decide _); cbn [snd].
  - apply lookup_insert_ne. congruence.
  - apply lookup_delete_ne. congruence.
Qed.

(** X1. After [remove_session] the token no longer authenticates, removing
    it again changes nothing, and the other tokens keep their entries. *)
Theorem remove_session_forgets (now : Z) (token other : string)
    (sessions : gmap string session_data) :
  (get_user_id now token (remove_session token sessions)).1 = None
  /\ (get_user_id now token (remove_session token sessions)).2
     = remove_session token sessions
  /\ remove_session token (remove_session token sessions)
     = remove_session token sessions
  /\ (other <> token -> remove_session token sessions !! other = sessions !! other).
Proof.
  unfold remove_session.
  rewrite (get_user_id_unknown now token (delete token sessions))
    by apply lookup_delete_eq.
  repeat split.
  - apply delete_id, lookup_delete_eq.
  - intros Hne. apply lookup_delete_ne. congruence.
Qed.

(** X2. [store_session] also cleans up: an entry of another token whose
    [created_at] lies more than 24 hours before [now] is gone afterwards, an
    entry that is at most 24 hours old is kept as it is, and the store grows
    by at most one entry. *)
Theorem store_session_cleans_up (now : Z) (token other : string) (uid : Z)
    (d : session_data) (sessions : gmap string session_data) :
  other <> token ->
  sessions !! other = Some d ->
  (Clock.hours 24 < now - created_at d ->
   store_session now token uid sessions !! other = None)
  /\ (now - created_at d <= Clock.hours 24 ->
      store_session now token uid sessions !! other = Some d)
  /\ (get_session_count (store_session now token uid sessions)
      <= S (get_session_count sessions))%nat.
Proof.
  intros Hne Hd. change (Clock.hours 24) with _cleanup_interval.
  unfold store_session, _cleanup_expired_sessions.
  assert (Hins : <[token := {| user_id := uid; created_at := now; last_used := now |}]>
                   sessions !! other = Some d)
    by (rewrite lookup_insert_ne by congruence; exact Hd).
  split; [| split].
  - intros Hold. apply map_lookup_filter_None. right.
    intros x Hx. rewrite Hins in Hx. injection Hx as <-. cbn [snd]. lia.
  - intros Hyoung. apply map_lookup_filter_Some. split; [exact Hins |].
    cbn [snd]. lia.
  - unfold get_session_count.
    etransitivity; [apply map_subseteq_size, map_filter_subseteq |].
    rewrite map_size_insert. destruct (sessions !! token); simpl; lia.
Qed.

Lemma store_session_cleans_up_witness :
  let old := {| user_id := 3; created_at := Clock.datetime 2025 1 1 8 0 0 0;
                last_used := Clock.datetime 2025 1 1 8 0 0 0 |} in
  let sessions : gmap string session_data := <["old" := old]> ∅ in
  "old" <> "tok"
  /\ sessions !! "old" = Some old
  /\ store_session (Clock.datetime 2025 1 2 9 0 0 0) "tok" 7 sessions !! "old" = None.
Proof.
  cbv zeta.
  set (old := {| user_id := 3; created_at := Clock.datetime 2025 1 1 8 0 0 0;
                 last_used := Clock.datetime 2025 1 1 8 0 0 0 |}).
  set (sessions := (<["old" := old]> ∅ : gmap string session_data)).
  assert (Hne : "old" <> "tok") by discriminate.
  assert (Hd : sessions !! "old" = Some old) by (vm_compute; reflexivity).
  split; [exact Hne |]. split; [exact Hd |].
  destruct (store_session_cleans_up (Clock.datetime 2025 1 2 9 0 0 0)
              "tok" "old" 7 old sessions Hne Hd) as (Hgone & _).
  apply Hgone. vm_compute. reflexivity.
Defined.

(** X3. The two expiry tests disagree at exactly 24 hours: the cleanup of
    [store_session] keeps such an entry, while [get_user_id] at the same
    instant refuses it and deletes it. *)
Theorem expiry_boundary (now : Z) (token other : string) (uid : Z)
    (d : session_data) (sessions : gmap string session_data) :
  other <> token ->
  sessions !! token = Some d ->
  now - created_at d = Clock.hours 24 ->
  store_session now other uid sessions !! token = Some d
  /\ get_user_id now token sessions = (None, delete token sessions)
  /\ get_user_id now token (store_session now other uid sessions)
     = (None, delete token (store_session now other uid sessions)).
Proof.
  intros Hne Hd Hage.
  assert (Hkeep : store_session now other uid sessions !! token = Some d).
  { unfold store_session, _cleanup_expired_sessions.
    apply map_lookup_filter_Some. split.
    - rewrite lookup_insert_ne by congruence. exact Hd.
    - cbn [snd]. change _cleanup_interval with (Clock.hours 24). lia. }
  split; [exact Hkeep |]. split.
  - apply (get_user_id_stale _ _ d); [exact Hd |].
    change _cleanup_interval with (Clock.hours 24). lia.
  - apply (get_user_id_stale _ _ d); [exact Hkeep |].
    change _cleanup_interval with (Clock.hours 24). lia.
Qed.

Lemma expiry_boundary_witness :
  let d := {| user_id := 7; created_at := Clock.datetime 2025 1 1 9 0 0 0;
              last_used := Clock.datetime 2025 1 1 9 0 0 0 |} in
  let sessions : gmap string session_data := <["tok" := d]> ∅ in
  let now := Clock.datetime 2025 1 2 9 0 0 0 in
  store_session now "other" 8 sessions !! "tok" = Some d
  /\ (get_user_id now "tok" sessions).1 = None.
Proof.
  cbv zeta.
  set (d := {| user_id := 7; created_at := Clock.datetime 2025 1 1 9 0 0 0;
               last_used := Clock.datetime 2025 1 1 9 0 0 0 |}).
  set (sessions := (<["tok" := d]> ∅ : gmap string session_data)).
  assert (Hne : "other" <> "tok") by discriminate.
  assert (Hd : sessions !! "tok" = Some d) by (vm_compute; reflexivity).
  assert (Hage : Clock.datetime 2025 1 2 9 0 0 0 - created_at d = Clock.hours 24)
    by (vm_compute; reflexivity).
  destruct (expiry_boundary (Clock.datetime 2025 1 2 9 0 0 0) "tok" "other" 8
              d sessions Hne Hd Hage) as (Hkeep & Hlookup & _).
  split; [exact Hkeep |]. rewrite Hlookup. reflexivity.
Defined.

(** X4. A lookup touches its own token only: every other token keeps its
    entry, a token that is not in the store is refused without any change,
    and a lookup never adds an entry. *)
Theorem get_user_id_frame (now : Z) (token other : string)
    (sessions : gmap string session_data) :
  other <> token ->
  (get_user_id now token sessions).2 !! other = sessions !! other
  /\ (sessions !! token = None -> get_user_id now token sessions = (None, sessions))
  /\ (get_session_count (get_user_id now token sessions).2
      <= get_session_count sessions)%nat.
Proof.
  intros Hne. split; [apply get_user_id_other; exact Hne |].
  split; [apply get_user_id_unknown |].
  unfold get_user_id, get_session_count.
  destruct (sessions !! token) as [d |] eqn:Hd; [| reflexivity].
  destruct (bool_decide _); cbn [snd].
  - rewrite map_size_insert_Some by eauto. reflexivity.
  - rewrite map_size_delete, Hd. simpl. lia.
Qed.

Lemma get_user_id_frame_witness :
  let sessions :=
    store_session (Clock.datetime 2025 1 1 9 0 0 0) "tok" 7
      (store_session (Clock.datetime 2025 1 1 9 0 0 0) "other" 8 ∅) in
  "other" <> "tok"
  /\ (get_user_id (Clock.datetime 2025 1 3 9 0 0 0) "tok" sessions).2 !! "other"
     = sessions !! "other".
Proof.
  cbv zeta.
  assert (Hne : "other" <> "tok") by discriminate.
  split; [exact Hne |].
  destruct (get_user_id_frame (Clock.datetime 2025 1 3 9 0 0 0) "tok" "other"
              (store_session (Clock.datetime 2025 1 1 9 0 0 0) "tok" 7
                 (store_session (Clock.datetime 2025 1 1 9 0 0 0) "other" 8 ∅)) Hne)
    as (Hother & _).
  exact Hother.
Defined.

(** X5. Using a session does not prolong it: after a successful lookup
    [created_at] is what it was, so a lookup 24 hours or more after the
    session was created is refused however recently the session was used. *)
Theorem lookup_does_not_extend_lifetime (t1 t2 : Z) (token : string)
    (d : session_data) (sessions : gmap string session_data) :
  sessions !! token = Some d ->
  t1 - created_at d < Clock.hours 24 ->
  Clock.hours 24 <= t2 - created_at d ->
  (get_user_id t1 token sessions).1 = Some (user_id d)
  /\ (exists d', (get_user_id t1 token sessions).2 !! token = Some d'
                 /\ created_at d' = created_at d /\ last_used d' = t1)
  /\ (get_user_id t2 token (get_user_id t1 token sessions).2).1 = None.
Proof.
  intros Hd Hfresh Hstale. change (Clock.hours 24) with _cleanup_interval in *.
  rewrite (get_user_id_fresh _ _ _ _ Hd Hfresh). cbn [fst snd].
  split; [reflexivity |]. split.
  - exists (touch t1 d). rewrite lookup_insert_eq. repeat split.
  - rewrite (get_user_id_stale t2 token (touch t1 d));
      [reflexivity | apply lookup_insert_eq | exact Hstale].
Qed.

Lemma lookup_does_not_extend_lifetime_witness :
  let stored := Clock.datetime 2025 1 1 9 0 0 0 in
  let sessions := store_session stored "tok" 7 ∅ in
  let used := (get_user_id (Clock.datetime 2025 1 2 8 59 59 0) "tok" sessions).2 in
  (get_user_id (Clock.datetime 2025 1 2 9 0 0 0) "tok" used).1 = None.
Proof.
  cbv zeta.
  set (d := {| user_id := 7; created_at := Clock.datetime 2025 1 1 9 0 0 0;
               last_used := Clock.datetime 2025 1 1 9 0 0 0 |}).
  set (sessions := store_session (Clock.datetime 2025 1 1 9 0 0 0) "tok" 7 ∅).
  assert (Hd : sessions !! "tok" = Some d) by (vm_compute; reflexivity).
  assert (Hfresh : Clock.datetime 2025 1 2 8 59 59 0 - created_at d < Clock.hours 24)
    by (vm_compute; reflexivity).
  assert (Hstale : Clock.hours 24 <= Clock.datetime 2025 1 2 9 0 0 0 - created_at d)
    by (vm_compute; discriminate).
  destruct (lookup_does_not_extend_lifetime
              (Clock.datetime 2025 1 2 8 59 59 0) (Clock.datetime 2025 1 2 9 0 0 0)
              "tok" d sessions Hd Hfresh Hstale)
    as (_ & _ & Hnone).
  exact Hnone.
Defined.

(** X6. [get_session] and [get_user_id] decide alike: they leave the same
    store, [get_session] returns data exactly when [get_user_id] returns a
    user id, which is the [user_id] of that data, and the data returned is
    the entry now in the store, with [last_used = now]. *)
Theorem get_session_agrees (now : Z) (token : string)
    (sessions : gmap string session_data) :
  (get_session now token sessions).2 = (get_user_id now token sessions).2
  /\ user_id <$> (get_session now token sessions).1
     = (get_user_id now token sessions).1
  /\ (forall d, (get_session now token sessions).1 = Some d ->
        last_used d = now
        /\ (get_session now token sessions).2 !! token = Some d).
Proof.
  unfold get_session, get_user_id.
  destruct (sessions !! token) as [d0 |]; [| repeat split; intros; discriminate].
  destruct (bool_decide _); cbn [fst snd]; repeat split; try discriminate.
  - injection H as <-. reflexivity.
  - injection H as <-. apply lookup_insert_eq.
Qed.

End SessionStoreMore.

(** ** Authentication by bearer token *)

Section Authentication.
Import SessionManager.

Lemma str_remove_absent (pat s : string) :
  occurs pat s = false -> str_remove pat s = s.
Proof.
  unfold str_remove. induction s as [| c rest IH]; [reflexivity |].
  cbn [occurs remove_all_from]. intros Hocc.
  apply orb_false_iff in Hocc. destruct Hocc as [Hhere Hrest].
  rewrite Hhere, (IH Hrest). reflexivity.
Qed.

Lemma bearer_header (token : string) :
  startswith ("Bearer " +:+ token) "Bearer " = true
  /\ str_remove "Bearer " ("Bearer " +:+ token) = str_remove "Bearer " token.
Proof. split; vm_compute; reflexivity. Qed.

(** X7. Login round trip: after [store_session] has bound a token that
    does not itself contain ["Bearer "] to the id of an existing user (ids
    are not 0), a request that carries ["Bearer " + token] less than 24
    hours later is authenticated as that user. *)
Theorem stored_token_authenticates (t1 t2 : Z) (token : string) (user_id_ : Z)
    (user : User) (users : list User) (sessions : gmap string session_data) :
  occurs "Bearer " token = false ->
  user_id_ <> 0 ->
  List.find (fun u => uid u =? user_id_) users = Some user ->
  t2 - t1 < Clock.hours 24 ->
  (_get_user_from_session t2 ("Bearer " +:+ token)
     (store_session t1 token user_id_ sessions) users).1 = Some user.
Proof.
  intros Habsent Hid Huser Hfresh. unfold _get_user_from_session.
  destruct (bearer_header token) as [-> ->].
  rewrite (str_remove_absent _ _ Habsent). cbv zeta.
  rewrite (get_user_id_fresh _ _ _ _ (lookup_store_session t1 token user_id_ sessions))
    by exact Hfresh.
  cbn [fst snd user_id].
  destruct (Z.eqb_spec user_id_ 0) as [Hz | _]; [contradiction |].
  exact Huser.
Qed.

Lemma stored_token_authenticates_witness :
  (_get_user_from_session (Clock.datetime 2025 1 1 17 0 0 0) "Bearer 3f9a0c"
     (store_session (Clock.datetime 2025 1 1 9 0 0 0) "3f9a0c" 7 ∅) demo_users).1
  = Some demo_user.
Proof.
  apply (stored_token_authenticates
           (Clock.datetime 2025 1 1 9 0 0 0) (Clock.datetime 2025 1 1 17 0 0 0)
           "3f9a0c" 7 demo_user demo_users ∅);
    [reflexivity | discriminate | reflexivity | vm_compute; reflexivity].
Defined.

(** X8. Authentication is sound: a request is taken as a user only when
    its header starts with ["Bearer "], the rest of the header (with every
    ["Bearer "] removed) is a token of the store whose session was created
    less than 24 hours ago, and the user is the one of [res.users] whose id,
    not 0, that session holds. *)
Theorem authentication_sound (now : Z) (auth_header : string) (user : User)
    (users : list User) (sessions : gmap string session_data) :
  (_get_user_from_session now auth_header sessions users).1 = Some user ->
  startswith auth_header "Bearer " = true
  /\ exists d,
       sessions !! str_remove "Bearer " auth_header = Some d
       /\ now - created_at d < Clock.hours 24
       /\ user_id d = uid user
       /\ uid user <> 0
       /\ In user users.
Proof.
  unfold _get_user_from_session.
  destruct (startswith auth_header "Bearer "); [| discriminate].
  cbv zeta. unfold get_user_id.
  destruct (sessions !! str_remove "Bearer " auth_header) as [d |];
    [| discriminate].
  destruct (bool_decide (now - created_at d < _cleanup_interval)) eqn:Hfresh;
    cbn [fst snd]; [| discriminate].
  destruct (Z.eqb_spec (user_id d) 0) as [| Hnz]; [discriminate |].
  cbn [fst]. intros Hfind. apply find_some in Hfind.
  destruct Hfind as [Hin Heq]. apply Z.eqb_eq in Heq.
  split; [reflexivity |]. exists d.
  apply bool_decide_eq_true in Hfresh.
  repeat split; try assumption; congruence.
Qed.

Lemma authentication_sound_witness :
  let sessions := store_session (Clock.datetime 2025 1 1 9 0 0 0) "3f9a0c" 7 ∅ in
  (_get_user_from_session (Clock.datetime 2025 1 1 17 0 0 0) "Bearer 3f9a0c"
     sessions demo_users).1 = Some demo_user
  /\ startswith "Bearer 3f9a0c" "Bearer " = true.
Proof.
  cbv zeta.
  assert (Hauth :
            (_get_user_from_session (Clock.datetime 2025 1 1 17 0 0 0) "Bearer 3f9a0c"
               (store_session (Clock.datetime 2025 1 1 9 0 0 0) "3f9a0c" 7 ∅)
               demo_users).1 = Some demo_user)
    by (vm_compute; reflexivity).
  split; [exact Hauth |].
  destruct (authentication_sound _ _ _ _ _ Hauth) as (Hprefix & _).
  exact Hprefix.
Defined.

End Authentication.

Section Logout.
Context `{Runtime}.
Import SessionManager.

Lemma logged_out_header (now : Z) (auth_header : string) (users : list User)
    (sessions : gmap string session_data) :
  _get_user_from_session now auth_header (logout auth_header sessions).2 users
  = (None, (logout auth_header sessions).2).
Proof.
  unfold _get_user_from_session, logout. cbn [snd].
  destruct (startswith auth_header "Bearer "); [| reflexivity].
  cbv zeta. unfold remove_session.
  rewrite get_user_id_unknown by apply lookup_delete_eq. reflexivity.
Qed.

(** X9. Logout ends the session of its header.  Whatever the header, the
    answer is 200; when the header does not start with ["Bearer "] the store
    is left alone; and afterwards a request with the same header is not
    authenticated: the toggle, the check-in and the check-out handler answer
    401 and leave the record store as it was, and the status endpoint
    answers 401. *)
Theorem logout_ends_session (now : Z) (auth_header : string) (users : list User)
    (sessions : gmap string session_data) (body : Body) (employee_id_ : Z) (db : Db) :
  let after := (logout auth_header sessions).2 in
  status (logout auth_header sessions).1 = 200
  /\ (startswith auth_header "Bearer " = false -> after = sessions)
  /\ (_get_user_from_session now auth_header after users).1 = None
  /\ (with_session (fun user => toggle_checkin_checkout now user body db)
        now auth_header users after).1
     = (_error_response (Msg "Authentication required") 401, db)
  /\ (with_session (fun user => check_in now user body db)
        now auth_header users after).1
     = (_error_response (Msg "Authentication required") 401, db)
  /\ (with_session (fun user => check_out now user body db)
        now auth_header users after).1
     = (_error_response (Msg "Authentication required") 401, db)
  /\ sr_status
       (with_session (fun user => get_attendance_status now user employee_id_ db)
          now auth_header users after).1 = 401.
Proof.
  cbv zeta. unfold with_session. cbv zeta.
  rewrite (logged_out_header now auth_header users sessions). cbn [fst].
  repeat split.
  unfold logout. cbn [snd]. intros ->. reflexivity.
Qed.

End Logout.

(** ** [HrAttendance.write] *)

Section WriteOverride.

(** X10. [HrAttendance.write] keeps [working_hours] in step with
    [check_out]: after a write whose values carry [check_out], a record that
    has a [check_out] has the [working_hours] that its own [check_in] and
    [check_out] give, whatever [working_hours] the values carried.  A write
    without [check_out] computes nothing: [working_hours] is the one given,
    or else the old one, also when the write moves [check_in]; and a write
    that clears [check_out] leaves the old [working_hours] in place.  Writing
    the same values twice is the same as writing them once. *)
Theorem HrAttendance_write_working_hours (vals : write_vals) (record : Attendance) :
  (w_check_out vals <> None ->
   working_hours_consistent (HrAttendance_write vals record))
  /\ (w_check_out vals = None ->
      att_working_hours (HrAttendance_write vals record)
      = default (att_working_hours record) (w_working_hours vals)
      /\ att_check_in (HrAttendance_write vals record)
         = default (att_check_in record) (w_check_in vals))
  /\ (w_check_out vals = Some None ->
      att_check_out (HrAttendance_write vals record) = None
      /\ att_working_hours (HrAttendance_write vals record)
         = default (att_working_hours record) (w_working_hours vals))
  /\ HrAttendance_write vals (HrAttendance_write vals record)
     = HrAttendance_write vals record.
Proof.
  destruct vals as [ci [[co |] |] wh]; destruct record as [i e rci rco rwh p la lo];
    unfold HrAttendance_write, working_hours_consistent, orm_write;
    cbn; repeat split; try congruence; try discriminate;
    destruct ci, wh; cbn; try reflexivity;
    destruct rco; reflexivity.
Qed.

End WriteOverride.

(** ** Displayed times *)

Section DisplayedTime.

(** The second of the day that a wall clock reading shows. *)
Lemma second_of_day_bounds (w : Z) :
  0 <= (w mod Clock.us_per_day) / Clock.us_per_second < 86400.
Proof.
  rewrite us_per_day_eq, us_per_second_eq.
  pose proof (Z.mod_pos_bound w 86400000000 ltac:(lia)) as Hb.
  split; [apply Z.div_pos; lia | apply Z.div_lt_upper_bound; lia].
Qed.

Lemma second_of_day_next_day (w : Z) :
  ((w + Clock.hours 24) mod Clock.us_per_day) / Clock.us_per_second
  = (w mod Clock.us_per_day) / Clock.us_per_second.
Proof.
  rewrite us_per_day_eq.
  change (Clock.hours 24) with (1 * 86400000000).
  rewrite Z_mod_plus_full. reflexivity.
Qed.

Lemma second_of_day_half_day (w : Z) :
  let s := (w mod Clock.us_per_day) / Clock.us_per_second in
  let s' := ((w + Clock.hours 12) mod Clock.us_per_day) / Clock.us_per_second in
  (s < 43200 /\ s' = s + 43200) \/ (43200 <= s /\ s' = s - 43200).
Proof.
  cbv zeta. rewrite us_per_day_eq, us_per_second_eq.
  change (Clock.hours 12) with 43200000000.
  pose proof (Z.mod_pos_bound w 86400000000 ltac:(lia)) as Hb.
  rewrite <- (Zplus_mod_idemp_l w 43200000000 86400000000).
  set (x := w mod 86400000000) in *.
  destruct (Z_lt_ge_dec x 43200000000) as [Hlt | Hge].
  - left. rewrite (Z.mod_small (x + 43200000000)) by lia.
    split; [apply Z.div_lt_upper_bound; lia |].
    change 43200000000 with (43200 * 1000000). apply Z.div_add; lia.
  - right.
    assert (Hmod : (x + 43200000000) mod 86400000000 = x - 43200000000).
    { symmetry. apply (Z.mod_unique _ _ 1); lia. }
    rewrite Hmod. split; [apply Z.div_le_lower_bound; lia |].
    change (x - 43200000000) with (x + - (43200000000)).
    change (- (43200000000)) with ((-43200) * 1000000).
    rewrite Z.div_add by lia. lia.
Qed.

(** X11. For a stored instant from 1964 on (since when Asia/Jakarta is
    UTC+7) and more than a day before the end of [datetime]'s range,
    [_format_time_local] prints a twelve-hour clock of eight characters: the
    same string again 24 hours later, and 12 hours later the same hour and
    minute with [AM] and [PM] exchanged. *)
Theorem format_time_local_clock (dt : Z) :
  Clock.datetime 1964 1 1 0 0 0 0 <= dt ->
  dt < Clock.datetime 9999 12 30 0 0 0 0 ->
  _format_time_local (dt + Clock.hours 24) = _format_time_local dt
  /\ String.length (_format_time_local dt) = 8%nat
  /\ exists clock : string,
       (_format_time_local dt = (clock +:+ " AM")%string
        /\ _format_time_local (dt + Clock.hours 12) = (clock +:+ " PM")%string)
       \/ (_format_time_local dt = (clock +:+ " PM")%string
           /\ _format_time_local (dt + Clock.hours 12) = (clock +:+ " AM")%string).
Proof.
  intros _ _.
  assert (Hlocal : forall t, _format_time_local t = strftime_I_M_p (t + Clock.hours 7)).
  { intros t. unfold _format_time_local, Clock.astimezone, Clock.utc_localize.
    cbn [Clock.wall Clock.utcoffset]. rewrite Z.sub_0_r. reflexivity. }
  assert (Hshape : forall w,
             let s := (w mod Clock.us_per_day) / Clock.us_per_second in
             let h := s / 3600 in
             let h12 := if h mod 12 =? 0 then 12 else h mod 12 in
             let m := (s mod 3600) / 60 in
             strftime_I_M_p w
             = (two_digits h12 +:+ ":" +:+ two_digits m +:+ " " +:+
                (if (h <? 12)%Z then "AM" else "PM"))%string).
  { intros w. cbv zeta. unfold strftime_I_M_p. cbv zeta.
    pose proof (second_of_day_bounds w) as Hs.
    set (s := (w mod Clock.us_per_day) / Clock.us_per_second) in *.
    assert (Hm : 0 <= (s mod 3600) / 60 < 100).
    { pose proof (Z.mod_pos_bound s 3600 ltac:(lia)).
      split; [apply Z.div_pos; lia | apply Z.div_lt_upper_bound; lia]. }
    assert (Hh : 0 <= (if (s / 3600) mod 12 =? 0 then 12 else (s / 3600) mod 12) < 100).
    { pose proof (Z.mod_pos_bound (s / 3600) 12 ltac:(lia)).
      destruct (_ =? 0); lia. }
    rewrite (fmt_02d_two_digits _ Hm), (fmt_02d_two_digits _ Hh). reflexivity. }
  rewrite !Hlocal.
  replace (dt + Clock.hours 24 + Clock.hours 7) with (dt + Clock.hours 7 + Clock.hours 24) by lia.
  replace (dt + Clock.hours 12 + Clock.hours 7) with (dt + Clock.hours 7 + Clock.hours 12) by lia.
  set (w := dt + Clock.hours 7).
  rewrite !Hshape. cbv zeta. clear Hlocal Hshape.
  rewrite second_of_day_next_day.
  split; [reflexivity |].
  pose proof (second_of_day_bounds w) as Hs.
  destruct (second_of_day_half_day w) as [[Hlt ->] | [Hge ->]];
    set (s := (w mod Clock.us_per_day) / Clock.us_per_second) in *.
  - assert (Hh : s / 3600 < 12) by (apply Z.div_lt_upper_bound; lia).
    assert (Hh0 : 0 <= s / 3600) by (apply Z.div_pos; lia).
    assert (Hh' : (s + 43200) / 3600 = s / 3600 + 12)
      by (change 43200 with (12 * 3600); apply Z.div_add; lia).
    assert (Hm' : (s + 43200) mod 3600 = s mod 3600)
      by (change 43200 with (12 * 3600); apply Z_mod_plus_full).
    assert (Hmod : (s / 3600 + 12) mod 12 = (s / 3600) mod 12)
      by (change 12 with (1 * 12) at 1; apply Z_mod_plus_full).
    rewrite Hh', Hm', Hmod.
    destruct (Z.ltb_spec (s / 3600) 12) as [_ | ?]; [| lia].
    destruct (Z.ltb_spec (s / 3600 + 12) 12) as [? | _]; [lia |].
    split; [reflexivity |].
    exists (String.append
              (two_digits (if (s / 3600) mod 12 =? 0 then 12 else (s / 3600) mod 12))
              (String.append ":" (two_digits ((s mod 3600) / 60)))).
    left. split; reflexivity.
  - assert (Hh : 12 <= s / 3600) by (apply Z.div_le_lower_bound; lia).
    assert (Hh' : (s - 43200) / 3600 = s / 3600 - 12).
    { change (s - 43200) with (s + - (43200)).
      change (- (43200)) with ((-12) * 3600). rewrite Z.div_add by lia. lia. }
    assert (Hm' : (s - 43200) mod 3600 = s mod 3600).
    { change (s - 43200) with (s + - (43200)).
      change (- (43200)) with ((-12) * 3600). apply Z_mod_plus_full. }
    assert (Hmod : (s / 3600 - 12) mod 12 = (s / 3600) mod 12).
    { change (s / 3600 - 12) with (s / 3600 + - (12)).
      change (- (12)) with ((-1) * 12). apply Z_mod_plus_full. }
    assert (Hh24 : s / 3600 < 24) by (apply Z.div_lt_upper_bound; lia).
    rewrite Hh', Hm', Hmod.
    destruct (Z.ltb_spec (s / 3600) 12) as [? | _]; [lia |].
    destruct (Z.ltb_spec (s / 3600 - 12) 12) as [_ | ?]; [| lia].
    split; [reflexivity |].
    exists (String.append
              (two_digits (if (s / 3600) mod 12 =? 0 then 12 else (s / 3600) mod 12))
              (String.append ":" (two_digits ((s mod 3600) / 60)))).
    right. split; reflexivity.
Qed.

Lemma format_time_local_clock_witness :
  let dt := Clock.datetime 2025 1 1 2 0 0 0 in
  _format_time_local dt = "09:00 AM"%string
  /\ _format_time_local (dt + Clock.hours 24) = _format_time_local dt
  /\ String.length (_format_time_local dt) = 8%nat.
Proof.
  cbv zeta. split; [vm_compute; reflexivity |].
  destruct (format_time_local_clock (Clock.datetime 2025 1 1 2 0 0 0))
    as (Hday & Hlength & _).
  - vm_compute. discriminate.
  - vm_compute. reflexivity.
  - split; [exact Hday | exact Hlength].
Defined.

End DisplayedTime.

(** ** More on searching and on fresh ids *)

Section SearchMore.

Lemma insert_check_in_desc_sorted (a : Attendance) (rows : list Attendance) :
  StronglySorted later_first rows ->
  StronglySorted later_first (insert_check_in_desc a rows).
Proof.
  induction 1 as [| b rest Hsorted IH Hall]; cbn [insert_check_in_desc].
  - constructor; constructor.
  - destruct (Z.ltb_spec (att_check_in b) (att_check_in a)) as [Hlt | Hge].
    + constructor; [constructor; assumption |].
      constructor; [unfold later_first; lia |].
      apply List.Forall_forall. intros x Hx.
      rewrite List.Forall_forall in Hall. specialize (Hall x Hx).
      unfold later_first in *. lia.
    + constructor; [exact IH |].
      apply List.Forall_forall. intros x Hx.
      apply in_insert_check_in_desc in Hx. destruct Hx as [-> | Hx].
      * unfold later_first. lia.
      * rewrite List.Forall_forall in Hall. apply Hall, Hx.
Qed.

Lemma order_check_in_desc_sorted (rows : list Attendance) :
  StronglySorted later_first (order_check_in_desc rows).
Proof.
  unfold order_check_in_desc. induction rows as [| a rest IH]; cbn [fold_right].
  - constructor.
  - apply insert_check_in_desc_sorted, IH.
Qed.

Lemma filter_sorted (p : Attendance -> bool) (rows : list Attendance) :
  StronglySorted later_first rows ->
  StronglySorted later_first (List.filter p rows).
Proof.
  induction 1 as [| b rest Hsorted IH Hall]; cbn [List.filter]; [constructor |].
  destruct (p b); [| exact IH].
  constructor; [exact IH |].
  apply List.Forall_forall. intros x Hx. apply filter_In in Hx.
  rewrite List.Forall_forall in Hall. apply Hall, Hx.
Qed.

(** With [order='check_in desc'] and [limit=1] the search returns a row of
    the domain with the latest [check_in]. *)
Lemma search_first_latest (domain : Attendance -> bool) (rows : list Attendance)
    (r : Attendance) :
  search_first domain rows = Some r ->
  forall a, In a rows -> domain a = true -> att_check_in a <= att_check_in r.
Proof.
  unfold search_first. intros Hhead a Hin Hdom.
  pose proof (filter_sorted domain _ (order_check_in_desc_sorted rows)) as Hsorted.
  assert (Ha : In a (List.filter domain (order_check_in_desc rows))).
  { apply filter_In. split; [apply in_order_check_in_desc, Hin | exact Hdom]. }
  destruct (List.filter domain (order_check_in_desc rows)) as [| x rest];
    [discriminate |].
  injection Hhead as ->. inversion Hsorted as [| ? ? _ Hall]; subst.
  destruct Ha as [<- | Ha]; [lia |].
  rewrite List.Forall_forall in Hall. apply (Hall a Ha).
Qed.

(** When one row only can be in the domain, the search returns it. *)
Lemma search_first_unique (domain : Attendance -> bool) (rows : list Attendance)
    (x : Attendance) :
  In x rows -> domain x = true ->
  (forall a, In a rows -> domain a = true -> a = x) ->
  search_first domain rows = Some x.
Proof.
  intros Hin Hdom Honly.
  destruct (search_first domain rows) as [y |] eqn:Hs.
  - destruct (search_first_Some _ _ _ Hs) as [Hy Hdy].
    rewrite (Honly y Hy Hdy). reflexivity.
  - rewrite (proj1 (search_first_None _ _) Hs x Hin) in Hdom. discriminate.
Qed.

Lemma insert_check_in_desc_map (f : Attendance -> Attendance) (a : Attendance)
    (rows : list Attendance) :
  (forall x, att_check_in (f x) = att_check_in x) ->
  insert_check_in_desc (f a) (map f rows) = map f (insert_check_in_desc a rows).
Proof.
  intros Hf. induction rows as [| b rest IH]; cbn [map insert_check_in_desc];
    [reflexivity |].
  rewrite !Hf. destruct (att_check_in b <? att_check_in a); cbn [map];
    [reflexivity | rewrite IH; reflexivity].
Qed.

(** An update that leaves [check_in] and the domain alone commutes with the
    search. *)
Lemma search_first_map (domain : Attendance -> bool) (f : Attendance -> Attendance)
    (rows : list Attendance) :
  (forall x, att_check_in (f x) = att_check_in x) ->
  (forall x, domain (f x) = domain x) ->
  search_first domain (map f rows) = option_map f (search_first domain rows).
Proof.
  intros Hf Hdom. unfold search_first.
  assert (Horder : order_check_in_desc (map f rows) = map f (order_check_in_desc rows)).
  { unfold order_check_in_desc. induction rows as [| a rest IH]; cbn [map fold_right];
      [reflexivity |].
    rewrite IH. apply insert_check_in_desc_map, Hf. }
  rewrite Horder. generalize (order_check_in_desc rows) as l.
  induction l as [| a rest IH]; cbn [map List.filter]; [reflexivity |].
  rewrite Hdom. destruct (domain a); [reflexivity | exact IH].
Qed.

Lemma fresh_id_above (ids : list Z) (i : Z) : In i ids -> i < fresh_id ids.
Proof.
  unfold fresh_id. induction ids as [| j rest IH]; [intros [] |].
  cbn [fold_right]. intros [-> | Hin]; [lia | specialize (IH Hin); lia].
Qed.

Lemma find_app_last {A : Type} (p : A -> bool) (l : list A) (x : A) :
  List.find p l = None -> p x = true -> List.find p (l ++ [x]) = Some x.
Proof.
  induction l as [| a rest IH]; cbn [List.find app]; intros Hnone Hp.
  - rewrite Hp. reflexivity.
  - destruct (p a); [discriminate | apply IH; assumption].
Qed.

Lemma new_employee_of_user (user : User) (db : Db) :
  employee_of_user user (new_employee user db) = true.
Proof. unfold employee_of_user, new_employee. cbn. apply Z.eqb_refl. Qed.

(** Resolving the toggle's employee a second time gives the same employee
    and changes nothing more. *)
Lemma toggle_employee_again (user : User) (db : Db) (rows : list Attendance) :
  toggle_employee user (with_attendances (toggle_employee user db).2 rows)
  = ((toggle_employee user db).1, with_attendances (toggle_employee user db).2 rows).
Proof.
  unfold toggle_employee at 2 3 4.
  destruct (List.find (employee_of_user user) (employees db)) as [e |] eqn:Hfind;
    cbn [fst snd]; unfold toggle_employee; cbn [employees with_attendances with_employees].
  - rewrite Hfind. reflexivity.
  - rewrite (find_app_last _ _ _ Hfind (new_employee_of_user user db)). reflexivity.
Qed.

End SearchMore.

(** ** The toggle as a two-state machine *)

Section ToggleStateMachine.
Context `{Runtime}.




End ToggleStateMachine.


(** ** The radius the handlers apply *)

Section GeofenceRadius.
Context `{Runtime}.

(** C5.  The handlers do not refuse a user who is 3 km from the office.
    Take a toggle request that passes the checks made before the radius test
    and whose measured distance is not within the 2000 m that the handler's
    own refusal message names, but within 100000 m.  The geofence test at
    2000 m refuses such a user; the toggle, which passes 100000 m, goes on
    to the attendance cycle, and when the employee has no row of today it
    answers 200 and records the check-in. *)
Theorem geofence_accepts_beyond_stated_radius (now : Z) (user : User) (body : Body)
    (fields : list (string * json)) (db : Db) (ulat ulon distance : float) :
  toggle_request_data body = Some (JObj fields) ->
  truthy (dict_get fields "latitude") = true ->
  truthy (dict_get fields "longitude") = true ->
  truthy (dict_get fields "camera_image") = true ->
  py_float (dict_get fields "latitude") = Some ulat ->
  py_float (dict_get fields "longitude") = Some ulon ->
  geodesic_meters (ulat, ulon)
    (toggle_office (company_of (toggle_employee user db).1 (toggle_employee user db).2))
  = Some distance ->
  PrimFloat.leb distance stated_radius_m = false ->
  PrimFloat.leb distance 100000 = true ->
  let employee := (toggle_employee user db).1 in
  let office := toggle_office (company_of employee (toggle_employee user db).2) in
  let result := toggle_checkin_checkout now (Some user) body db in
  _is_within_radius (dict_get fields "latitude") (dict_get fields "longitude")
    (JFloat office.1) (JFloat office.2) stated_radius_m = false
  /\ result
     = toggle_cycle now employee
         (dict_get fields "latitude") (dict_get fields "longitude")
         (dict_get fields "camera_image")
         (dict_get_default fields "location" (JStr "Unknown Location"))
         distance (toggle_employee user db).2
  /\ ((forall a, In a (attendances db) ->
         att_employee_id a = employee_id employee ->
         Clock.date_of (att_check_in a) <> server_today now) ->
      status result.1 = 200
      /\ success result.1 = true
      /\ attendances result.2
         = attendances db
           ++ [{| att_id := fresh_id (map att_id (attendances db));
                  att_employee_id := employee_id employee;
                  att_check_in := now;
                  att_check_out := None;
                  att_working_hours := "00:00:00";
                  att_selfie_photo := dict_get fields "camera_image";
                  att_latitude := dict_get fields "latitude";
                  att_longitude := dict_get fields "longitude" |}]).
Proof.
  intros Hbody Hlat Hlon Hcam Hflat Hflon Hgeo Hfar Hnear employee office result.
  assert (Hoffice :
            geodesic_meters (ulat, ulon) (office.1, office.2) = Some distance)
    by (rewrite <- (surjective_pairing office); exact Hgeo).
  assert (Hresult :
            result
            = toggle_cycle now employee
                (dict_get fields "latitude") (dict_get fields "longitude")
                (dict_get fields "camera_image")
                (dict_get_default fields "location" (JStr "Unknown Location"))
                distance (toggle_employee user db).2).
  { unfold result, toggle_checkin_checkout. rewrite Hbody, Hlat, Hlon, Hcam.
    cbn [negb orb]. cbv zeta. rewrite Hflat, Hflon.
    fold employee. fold office. rewrite Hoffice.
    unfold _is_within_radius. rewrite Hflat, Hflon. cbn [py_float].
    rewrite Hoffice, Hnear. reflexivity. }
  split; [| split; [exact Hresult |]].
  - unfold _is_within_radius. rewrite Hflat, Hflon. cbn [py_float].
    rewrite Hoffice. exact Hfar.
  - intros Hnone. rewrite Hresult.
    assert (Hrows : attendances (toggle_employee user db).2 = attendances db)
      by (unfold toggle_employee; destruct (List.find _ _); reflexivity).
    unfold toggle_cycle. rewrite Hrows.
    assert (Hsearch : search_first (today_domain now employee) (attendances db) = None).
    { unfold search_first. apply head_filter_None. intros a Ha.
      apply (proj1 (in_order_check_in_desc _ _)) in Ha.
      destruct (today_domain now employee a) eqn:Hdom; [| reflexivity].
      unfold today_domain in Hdom. cbv zeta in Hdom.
      rewrite <- andb_assoc, andb_true_iff, Z.eqb_eq, date_of_interval in Hdom.
      destruct Hdom as [Hemp Hdate]. destruct (Hnone a Ha Hemp Hdate). }
    rewrite Hsearch. cbv zeta. rewrite stored_instant_is_now.
    cbn [fst snd status success _json_response attendances with_attendances].
    repeat split; reflexivity.
Qed.

End GeofenceRadius.

(** Three kilometres north of the office: the toggle and the check-in
    handler both answer 200 and record the check-in. *)
Lemma geofence_accepts_beyond_stated_radius_witness :
  let now := Clock.datetime 2025 1 1 9 0 0 0 in
  let far_toggle :=
    demo_request (JStr "-6.942182") (JStr "107.629251") (JStr "aW1hZ2U=") in
  let far_check_in :=
    JsonBody (JObj [("latitude", JStr "-6.959682"); ("longitude", JStr "107.637303");
                    ("selfie_photo", JStr "aW1hZ2U=")]) in
  let toggled :=
    @toggle_checkin_checkout utc_runtime now (Some demo_user) far_toggle (demo_db []) in
  let checked_in :=
    @check_in utc_runtime now (Some demo_user) far_check_in (demo_db []) in
  (exists distance,
     @geodesic_meters utc_runtime (-6.942182, 107.629251)%float
       (-6.969182, 107.629251)%float = Some distance
     /\ PrimFloat.leb 3000 distance = true
     /\ PrimFloat.leb distance 3010 = true)
  /\ @_is_within_radius utc_runtime (JStr "-6.942182") (JStr "107.629251")
       (JFloat (-6.969182)) (JFloat 107.629251) stated_radius_m = false
  /\ (status toggled.1 = 200
      /\ attendances toggled.2
         = [{| att_id := 1; att_employee_id := 1; att_check_in := now;
               att_check_out := None; att_working_hours := "00:00:00";
               att_selfie_photo := JStr "aW1hZ2U=";
               att_latitude := JStr "-6.942182";
               att_longitude := JStr "107.629251" |}])
  /\ (status checked_in.1 = 200 /\ length (attendances checked_in.2) = 1%nat).
Proof.
  cbv zeta.
  assert (Hlat : @py_float utc_runtime (JStr "-6.942182") = Some (-6.942182)%float)
    by (vm_compute; reflexivity).
  assert (Hlon : @py_float utc_runtime (JStr "107.629251") = Some 107.629251%float)
    by (vm_compute; reflexivity).
  assert (Hgeo : { distance |
             @geodesic_meters utc_runtime (-6.942182, 107.629251)%float
               (toggle_office
                  (company_of (toggle_employee demo_user (demo_db [])).1
                     (toggle_employee demo_user (demo_db [])).2))
             = Some distance
             /\ (PrimFloat.leb distance stated_radius_m = false
                 /\ PrimFloat.leb distance 100000 = true)
             /\ (PrimFloat.leb 3000 distance = true
                 /\ PrimFloat.leb distance 3010 = true) })
    by (eexists; repeat split; vm_compute; reflexivity).
  destruct Hgeo as (distance & Hgeo & (Hfar & Hnear) & (Hlow & Hhigh)).
  split; [exists distance; split; [exact Hgeo | split; assumption] |].
  destruct (@geofence_accepts_beyond_stated_radius utc_runtime
              (Clock.datetime 2025 1 1 9 0 0 0) demo_user
              (demo_request (JStr "-6.942182") (JStr "107.629251") (JStr "aW1hZ2U="))
              [("latitude", JStr "-6.942182"); ("longitude", JStr "107.629251");
               ("location", JStr "Office"); ("camera_image", JStr "aW1hZ2U=")]
              (demo_db []) (-6.942182)%float 107.629251%float distance
              eq_refl eq_refl eq_refl eq_refl Hlat Hlon Hgeo Hfar Hnear)
    as (Hrefused & _ & Hnone).
  split; [exact Hrefused |].
  destruct (Hnone (fun a (Hin : In a []) => match Hin with end))
    as (Hstatus & _ & Hrows).
  split; [split; [exact Hstatus | exact Hrows] |].
  vm_compute. split; reflexivity.
Defined.

(** ** A day of toggles *)

Section ToggleDay.
Context `{Runtime}.

Lemma today_domain_same_day (now now' : Z) (employee : Employee) (a : Attendance) :
  server_today now' = server_today now ->
  today_domain now' employee a = today_domain now employee a.
Proof. intros Hday. unfold today_domain. rewrite Hday. reflexivity. Qed.

Lemma toggle_measured_again (now : Z) (user : User) (body : Body)
    (fields : list (string * json)) (db : Db) (rows : list Attendance)
    (ulat ulon distance : float) :
  toggle_request_data body = Some (JObj fields) ->
  truthy (dict_get fields "latitude") = true ->
  truthy (dict_get fields "longitude") = true ->
  truthy (dict_get fields "camera_image") = true ->
  py_float (dict_get fields "latitude") = Some ulat ->
  py_float (dict_get fields "longitude") = Some ulon ->
  geodesic_meters (ulat, ulon)
    (toggle_office (company_of (toggle_employee user db).1 (toggle_employee user db).2))
  = Some distance ->
  PrimFloat.leb distance 100000 = true ->
  toggle_checkin_checkout now (Some user) body
    (with_attendances (toggle_employee user db).2 rows)
  = toggle_cycle now (toggle_employee user db).1
      (dict_get fields "latitude") (dict_get fields "longitude")
      (dict_get fields "camera_image")
      (dict_get_default fields "location" (JStr "Unknown Location"))
      distance (with_attendances (toggle_employee user db).2 rows).
Proof.
  intros Hbody Hlat Hlon Hcam Hflat Hflon Hgeo Hnear.
  rewrite (toggle_measured now user body fields _ ulat ulon distance);
    try assumption.
  - rewrite Hnear, toggle_employee_again. reflexivity.
  - rewrite toggle_employee_again. exact Hgeo.
Qed.

(** X12. A day of toggles.  Let a request pass the toggle's checks
    (authenticated user, coordinates and photo present, coordinates that
    read as numbers, distance within 100000 m), let the employee have no row
    today, and let three instants lie on one server day on which the stored
    (UTC) date of the first is that day.  Sent at these three instants, the
    request first checks in (one open row with [check_in] the first
    instant), then checks out (that row, with [check_out] the second instant
    and [working_hours] the time from the first to the second), and is then
    refused with status 400, leaving the store as it is. *)
Theorem toggle_day (now1 now2 now3 : Z) (user : User) (body : Body)
    (fields : list (string * json)) (db : Db) (ulat ulon distance : float) :
  toggle_request_data body = Some (JObj fields) ->
  truthy (dict_get fields "latitude") = true ->
  truthy (dict_get fields "longitude") = true ->
  truthy (dict_get fields "camera_image") = true ->
  py_float (dict_get fields "latitude") = Some ulat ->
  py_float (dict_get fields "longitude") = Some ulon ->
  geodesic_meters (ulat, ulon)
    (toggle_office (company_of (toggle_employee user db).1 (toggle_employee user db).2))
  = Some distance ->
  PrimFloat.leb distance 100000 = true ->
  (forall a, In a (attendances db) ->
             today_domain now1 (toggle_employee user db).1 a = false) ->
  Clock.date_of now1 = server_today now1 ->
  server_today now2 = server_today now1 ->
  server_today now3 = server_today now1 ->
  let first := toggle_checkin_checkout now1 (Some user) body db in
  let second := toggle_checkin_checkout now2 (Some user) body first.2 in
  let third := toggle_checkin_checkout now3 (Some user) body second.2 in
  let row :=
    {| att_id := fresh_id (map att_id (attendances db));
       att_employee_id := employee_id (toggle_employee user db).1;
       att_check_in := now1; att_check_out := None;
       att_working_hours := "00:00:00";
       att_selfie_photo := dict_get fields "camera_image";
       att_latitude := dict_get fields "latitude";
       att_longitude := dict_get fields "longitude" |} in
  let closed := set_check_out now2 (format_working_hours (now2 - now1)) row in
  (status first.1 = 200 /\ attendances first.2 = attendances db ++ [row])
  /\ (status second.1 = 200
      /\ (exists d, data second.1 = Some (ToggleData d)
                    /\ action d = "check_out"%string
                    /\ is_checked_in d = false
                    /\ td_working_hours d = Some (format_working_hours (now2 - now1)))
      /\ attendances second.2 = attendances db ++ [closed])
  /\ (status third.1 = 400 /\ third.2 = second.2).
Proof.
  intros Hbody Hlat Hlon Hcam Hflat Hflon Hgeo Hnear Hnone Hstored Hday2 Hday3.
  cbv zeta.
  set (employee := (toggle_employee user db).1) in *.
  set (db1 := (toggle_employee user db).2) in *.
  set (row := {| att_id := fresh_id (map att_id (attendances db));
                 att_employee_id := employee_id employee;
                 att_check_in := now1; att_check_out := None;
                 att_working_hours := "00:00:00";
                 att_selfie_photo := dict_get fields "camera_image";
                 att_latitude := dict_get fields "latitude";
                 att_longitude := dict_get fields "longitude" |}).
  set (closed := set_check_out now2 (format_working_hours (now2 - now1)) row).
  pose proof (toggle_employee_attendances user db) as Hrows. fold db1 in Hrows.
  (* the first request *)
  assert (Hfirst :
            toggle_checkin_checkout now1 (Some user) body db
            = (_json_response
                 (Some (ToggleData
                    {| action := "check_in"; time_local := _format_time_local now1;
                       td_working_hours := None; is_checked_in := true;
                       td_location :=
                         dict_get_default fields "location" (JStr "Unknown Location");
                       distance_from_office := distance |}))
                 (Msg "Check in successful"),
               with_attendances db1 (attendances db ++ [row]))).
  { rewrite (toggle_measured now1 user body fields db ulat ulon distance)
      by assumption.
    rewrite Hnear. fold employee db1.
    rewrite toggle_cycle_no_record
      by (rewrite Hrows; apply search_first_None; exact Hnone).
    rewrite Hrows. reflexivity. }
  rewrite Hfirst. cbn [fst snd].
  (* the row is today's, and the only one *)
  assert (Hrow_today : forall now, server_today now = server_today now1 ->
                                   today_domain now employee row = true).
  { intros now Hday. apply today_domain_iff. split; [reflexivity |].
    cbn [att_check_in row]. rewrite Hday. exact Hstored. }
  assert (Hold : forall now a, server_today now = server_today now1 ->
                               In a (attendances db) ->
                               today_domain now employee a = false).
  { intros now a Hday Hin. rewrite (today_domain_same_day now1 now) by exact Hday.
    apply Hnone, Hin. }
  assert (Hfound2 : search_first (today_domain now2 employee) (attendances db ++ [row])
                    = Some row).
  { apply search_first_unique.
    - apply in_or_app. right. left. reflexivity.
    - apply Hrow_today, Hday2.
    - intros a Hin Hdom. apply in_app_or in Hin. destruct Hin as [Hin | [<- | []]];
        [| reflexivity].
      rewrite (Hold now2 a Hday2 Hin) in Hdom. discriminate. }
  assert (Hkeep : map (fun x =>
                         if (att_id x =? att_id row) && is_open x
                         then set_check_out now2
                                (format_working_hours (now2 - att_check_in row)) x
                         else x) (attendances db)
                  = attendances db).
  { rewrite <- (map_id (attendances db)) at 2. apply map_ext_in.
    intros a Hin.
    pose proof (fresh_id_above (map att_id (attendances db)) (att_id a)
                  (in_map att_id _ _ Hin)) as Hlt.
    destruct (Z.eqb_spec (att_id a) (att_id row)) as [Heq | _]; [| reflexivity].
    cbn [att_id row] in Heq. lia. }
  (* the second request *)
  assert (Hsecond :
            toggle_checkin_checkout now2 (Some user) body
              (with_attendances db1 (attendances db ++ [row]))
            = (_json_response
                 (Some (ToggleData
                    {| action := "check_out"; time_local := _format_time_local now2;
                       td_working_hours := Some (format_working_hours (now2 - now1));
                       is_checked_in := false;
                       td_location :=
                         dict_get_default fields "location" (JStr "Unknown Location");
                       distance_from_office := distance |}))
                 (Msg "Check out successful"),
               with_attendances db1 (attendances db ++ [closed]))).
  { unfold db1.
    rewrite (toggle_measured_again now2 user body fields db _ ulat ulon distance)
      by assumption.
    fold employee db1.
    rewrite (toggle_cycle_open_record _ _ _ _ _ _ _ _ row);
      [| exact Hfound2 | reflexivity].
    cbn [attendances with_attendances].
    rewrite map_app, Hkeep. cbn [map].
    cbn [att_id row is_open att_check_out att_check_in].
    rewrite Z.eqb_refl. reflexivity. }
  rewrite Hsecond. cbn [fst snd].
  (* the third request *)
  assert (Hfound3 : search_first (today_domain now3 employee)
                      (attendances db ++ [closed]) = Some closed).
  { apply search_first_unique.
    - apply in_or_app. right. left. reflexivity.
    - apply (Hrow_today now3 Hday3).
    - intros a Hin Hdom. apply in_app_or in Hin. destruct Hin as [Hin | [<- | []]];
        [| reflexivity].
      rewrite (Hold now3 a Hday3 Hin) in Hdom. discriminate. }
  assert (Hthird :
            toggle_checkin_checkout now3 (Some user) body
              (with_attendances db1 (attendances db ++ [closed]))
            = (_error_response
                 (Msg "Anda sudah melakukan check-in dan check-out hari ini. Tunggu sampai besok untuk attendance berikutnya.")
                 400, with_attendances db1 (attendances db ++ [closed]))).
  { unfold db1.
    rewrite (toggle_measured_again now3 user body fields db _ ulat ulon distance)
      by assumption.
    fold employee db1.
    apply (toggle_cycle_closed_record _ _ _ _ _ _ _ _ closed now2);
      [exact Hfound3 | reflexivity]. }
  rewrite Hthird. cbn [fst snd status _json_response _error_response data
                       attendances with_attendances].
  repeat split.
  eexists. split; [reflexivity |]. repeat split.
Qed.

End ToggleDay.

Lemma toggle_day_witness :
  let first :=
    @toggle_checkin_checkout utc_runtime (Clock.datetime 2025 1 1 9 0 0 0)
      (Some demo_user) at_office (demo_db []) in
  let second :=
    @toggle_checkin_checkout utc_runtime (Clock.datetime 2025 1 1 17 30 15 0)
      (Some demo_user) at_office first.2 in
  let third :=
    @toggle_checkin_checkout utc_runtime (Clock.datetime 2025 1 1 18 0 0 0)
      (Some demo_user) at_office second.2 in
  status first.1 = 200 /\ status second.1 = 200 /\ status third.1 = 400
  /\ third.2 = second.2.
Proof.
  cbv zeta.
  assert (Hlat : @py_float utc_runtime (JStr "-6.969182") = Some (-6.969182)%float)
    by (vm_compute; reflexivity).
  assert (Hlon : @py_float utc_runtime (JStr "107.629251") = Some 107.629251%float)
    by (vm_compute; reflexivity).
  assert (Hgeo : @geodesic_meters utc_runtime (-6.969182, 107.629251)%float
                   (toggle_office
                      (company_of (toggle_employee demo_user (demo_db [])).1
                         (toggle_employee demo_user (demo_db [])).2))
                 = Some 0%float)
    by (vm_compute; reflexivity).
  destruct (@toggle_day utc_runtime
              (Clock.datetime 2025 1 1 9 0 0 0) (Clock.datetime 2025 1 1 17 30 15 0)
              (Clock.datetime 2025 1 1 18 0 0 0) demo_user at_office
              [("latitude", JStr "-6.969182"); ("longitude", JStr "107.629251");
               ("location", JStr "Office"); ("camera_image", JStr "aW1hZ2U=")]
              (demo_db []) (-6.969182)%float 107.629251%float 0%float
              eq_refl eq_refl eq_refl eq_refl Hlat Hlon Hgeo eq_refl
              (fun a (Hin : In a []) => match Hin with end)
              eq_refl eq_refl eq_refl)
    as ((H1 & _) & (H2 & _ & _) & (H3 & Hsame)).
  repeat split; assumption.
Defined.

(** ** Check-in and check-out, one after the other *)

Section CheckInOut.
Context `{Runtime}.

Lemma find_head_filter {A : Type} (p : A -> bool) (l : list A) :
  List.find p l = head (List.filter p l).
Proof.
  induction l as [| a rest IH]; cbn [List.find List.filter]; [reflexivity |].
  destruct (p a); [reflexivity | exact IH].
Qed.

Lemma detach_after_first_filter (user : User) (seen : bool) (es : list Employee) :
  List.filter (employee_of_user user) (detach_after_first user seen es)
  = if seen then []
    else match List.filter (employee_of_user user) es with
         | [] => []
         | e :: _ => [e]
         end.
Proof.
  revert seen. induction es as [| e rest IH]; intros seen;
    cbn [detach_after_first List.filter]; [destruct seen; reflexivity |].
  destruct (employee_of_user user e) eqn:He.
  - destruct seen; cbn [List.filter].
    + unfold employee_of_user at 1. cbn [employee_user_id]. rewrite (IH true). reflexivity.
    + rewrite He, (IH true). reflexivity.
  - cbn [List.filter]. rewrite He. apply IH.
Qed.

Lemma detach_after_first_other (user other : User) (seen : bool) (es : list Employee) :
  uid other <> uid user ->
  List.filter (employee_of_user other) (detach_after_first user seen es)
  = List.filter (employee_of_user other) es.
Proof.
  intros Hne. revert seen. induction es as [| e rest IH]; intros seen;
    cbn [detach_after_first List.filter]; [reflexivity |].
  destruct (employee_of_user user e) eqn:He; cbn [List.filter].
  - assert (Hother : employee_of_user other e = false).
    { unfold employee_of_user in *. destruct (employee_user_id e) as [u |];
        [| reflexivity].
      apply Z.eqb_eq in He. apply Z.eqb_neq. congruence. }
    rewrite Hother. destruct seen.
    + unfold employee_of_user at 1. cbn [employee_user_id]. apply IH.
    + rewrite Hother. apply IH.
  - destruct (employee_of_user other e); [rewrite IH |]; [reflexivity | apply IH].
Qed.

(** After the check-in handler has resolved the employee, exactly that
    employee is linked to the user. *)
Lemma check_in_employee_linked (user : User) (db : Db) :
  List.filter (employee_of_user user) (employees (check_in_employee user db).2)
  = [(check_in_employee user db).1].
Proof.
  unfold check_in_employee.
  destruct (List.filter (employee_of_user user) (employees db))
    as [| e [| e' rest]] eqn:Hf; cbn [fst snd employees with_employees].
  - rewrite List.filter_app, Hf. cbn [List.filter app].
    rewrite new_employee_of_user. reflexivity.
  - exact Hf.
  - rewrite detach_after_first_filter, Hf. reflexivity.
Qed.

Lemma check_in_employee_again (user : User) (db : Db) (rows : list Attendance) :
  check_in_employee user (with_attendances (check_in_employee user db).2 rows)
  = ((check_in_employee user db).1, with_attendances (check_in_employee user db).2 rows).
Proof.
  pose proof (check_in_employee_linked user db) as Hlinked.
  unfold check_in_employee at 1. cbn [employees with_attendances].
  rewrite Hlinked. reflexivity.
Qed.

(** What a successful check-in did. *)
Lemma check_in_success (now : Z) (user : User) (body : Body) (db : Db) :
  status (check_in now (Some user) body db).1 = 200 ->
  exists fields,
    body = JsonBody (JObj fields)
    /\ search_first (existing_domain now (check_in_employee user db).1) (attendances db)
       = None
    /\ (check_in now (Some user) body db).2
       = with_attendances (check_in_employee user db).2
           (attendances db ++
            [{| att_id := fresh_id (map att_id (attendances db));
                att_employee_id := employee_id (check_in_employee user db).1;
                att_check_in := now; att_check_out := None;
                att_working_hours := "00:00:00";
                att_selfie_photo := dict_get fields "selfie_photo";
                att_latitude := dict_get fields "latitude";
                att_longitude := dict_get fields "longitude" |}]).
Proof.
  unfold check_in.
  destruct body as [| | | [| | | | | | fields]]; cbn [fst status _error_response];
    try discriminate.
  cbv zeta. pose proof (check_in_employee_attendances user db) as Hrows.
  destruct (negb _); cbn [fst status _error_response]; [discriminate |].
  rewrite Hrows.
  destruct (search_first _ (attendances db)) eqn:Hs;
    cbn [fst status _error_response]; [discriminate |].
  intros _. exists fields. split; [reflexivity |]. split; [reflexivity |].
  cbn [snd]. rewrite stored_instant_is_now. reflexivity.
Qed.

(** X13. A second check-in is refused.  After a check-in that was
    answered 200, a further check-in request of the same user, served at an
    instant whose day holds the first check-in between [00:00:00] and
    [23:59:59.000000], is not answered 200 and adds no row; when it is a JSON
    object that passes the distance test, the answer is 400, "Employee is
    already checked in today". *)
Theorem second_check_in_refused (now1 now2 : Z) (user : User) (body1 body2 : Body)
    (db : Db) :
  status (check_in now1 (Some user) body1 db).1 = 200 ->
  Clock.midnight (server_today now2) <= now1
    <= Clock.midnight (server_today now2) + 86399 * Clock.us_per_second ->
  let first := check_in now1 (Some user) body1 db in
  let second := check_in now2 (Some user) body2 first.2 in
  status second.1 <> 200
  /\ attendances second.2 = attendances first.2
  /\ (forall fields,
        body2 = JsonBody (JObj fields) ->
        (check_in_distance (dict_get fields "latitude") (dict_get fields "longitude")
           (check_in_office (company_of (check_in_employee user db).1 first.2)).1
           (check_in_office (company_of (check_in_employee user db).1 first.2)).2).2
        = true ->
        second.1 = _error_response (Msg "Employee is already checked in today") 400).
Proof.
  intros Hok Hday. cbv zeta.
  destruct (check_in_success now1 user body1 db Hok) as (fields1 & _ & _ & Hdb).
  rewrite Hdb.
  set (employee := (check_in_employee user db).1) in *.
  set (db1 := (check_in_employee user db).2) in *.
  set (row := {| att_id := fresh_id (map att_id (attendances db));
                 att_employee_id := employee_id employee;
                 att_check_in := now1; att_check_out := None;
                 att_working_hours := "00:00:00";
                 att_selfie_photo := dict_get fields1 "selfie_photo";
                 att_latitude := dict_get fields1 "latitude";
                 att_longitude := dict_get fields1 "longitude" |}) in *.
  assert (Hfound : exists r,
             search_first (existing_domain now2 employee) (attendances db ++ [row])
             = Some r).
  { destruct (search_first (existing_domain now2 employee) (attendances db ++ [row]))
      as [r |] eqn:Hs; [exists r; reflexivity |].
    pose proof (proj1 (search_first_None _ _) Hs row
                  (in_or_app _ _ _ (or_intror (in_eq _ _)))) as Hrow.
    unfold existing_domain in Hrow. cbv zeta in Hrow.
    cbn [att_employee_id att_check_in is_open att_check_out row] in Hrow.
    rewrite Z.eqb_refl in Hrow. cbn [andb] in Hrow.
    apply andb_false_iff in Hrow.
    destruct Hrow as [Hrow | Hrow]; [apply Z.leb_gt in Hrow | apply Z.leb_gt in Hrow];
      lia. }
  destruct Hfound as [r Hfound].
  unfold check_in.
  destruct body2 as [| | | [| | | | | | fields2]];
    cbn [fst snd status _error_response];
    try (split; [discriminate | split; [reflexivity | intros ? ?; discriminate]]).
  unfold db1, employee. rewrite check_in_employee_again. fold db1 employee.
  cbv zeta. cbn [fst snd attendances with_attendances].
  destruct (check_in_distance _ _ _ _).2 eqn:Hwithin; cbn [negb].
  - rewrite Hfound. cbn [fst snd status _error_response attendances with_attendances].
    split; [discriminate |]. split; [reflexivity |].
    intros fields Hbody _. reflexivity.
  - cbn [fst snd status _error_response attendances with_attendances].
    split; [discriminate |]. split; [reflexivity |].
    intros fields Hbody Hpass. injection Hbody as <-.
    pose proof (eq_trans (eq_sym Hwithin) Hpass) as Hboth. discriminate Hboth.
Qed.

End CheckInOut.

Lemma second_check_in_refused_witness :
  let first :=
    @check_in utc_runtime (Clock.datetime 2025 1 1 9 0 0 0)
      (Some demo_user) checkin_at_office (demo_db []) in
  let second :=
    @check_in utc_runtime (Clock.datetime 2025 1 1 10 0 0 0)
      (Some demo_user) checkin_at_office first.2 in
  status first.1 = 200
  /\ status second.1 <> 200
  /\ attendances second.2 = attendances first.2.
Proof.
  cbv zeta.
  assert (Hok : status (@check_in utc_runtime (Clock.datetime 2025 1 1 9 0 0 0)
                          (Some demo_user) checkin_at_office (demo_db [])).1 = 200)
    by (vm_compute; reflexivity).
  split; [exact Hok |].
  destruct (@second_check_in_refused utc_runtime
              (Clock.datetime 2025 1 1 9 0 0 0) (Clock.datetime 2025 1 1 10 0 0 0)
              demo_user checkin_at_office checkin_at_office (demo_db []) Hok)
    as (Hstatus & Hrows & _).
  - vm_compute. split; discriminate.
  - split; assumption.
Defined.

Section CheckOut.
Context `{Runtime}.

(** The first of the employee's open rows in the order [check_in desc]:
    when the employee has an open row, there is one, and none of the
    employee's open rows is later. *)
Lemma latest_open_row (employee : Employee) (rows : list Attendance) (a : Attendance) :
  In a rows ->
  att_employee_id a = employee_id employee ->
  is_open a = true ->
  exists r,
    head (List.filter
            (fun x => (att_employee_id x =? employee_id employee) && is_open x)
            (order_check_in_desc rows)) = Some r
    /\ In r rows
    /\ att_employee_id r = employee_id employee
    /\ is_open r = true
    /\ (forall x, In x rows ->
          att_employee_id x = employee_id employee -> is_open x = true ->
          att_check_in x <= att_check_in r).
Proof.
  intros Hin Hemp Hopen.
  set (domain := fun x => (att_employee_id x =? employee_id employee) && is_open x).
  destruct (head (List.filter domain (order_check_in_desc rows))) as [r |] eqn:Hs.
  - destruct (search_first_Some domain rows r Hs) as [Hr Hdom].
    apply andb_true_iff in Hdom. destruct Hdom as [Hremp Hropen].
    apply Z.eqb_eq in Hremp.
    exists r. split; [reflexivity |]. split; [exact Hr |]. split; [exact Hremp |].
    split; [exact Hropen |].
    intros x Hx Hxemp Hxopen. apply (search_first_latest domain rows r Hs x Hx).
    unfold domain. rewrite Hxemp, Z.eqb_refl, Hxopen. reflexivity.
  - pose proof (proj1 (search_first_None domain rows) Hs a Hin) as Hdom.
    unfold domain in Hdom. rewrite Hemp, Z.eqb_refl, Hopen in Hdom. discriminate.
Qed.

Lemma update_by_fresh_id (set : Attendance -> Attendance) (rows : list Attendance) :
  map (fun x => if att_id x =? fresh_id (map att_id rows) then set x else x) rows = rows.
Proof.
  transitivity (map (fun x => x) rows); [| apply List.map_id].
  apply map_ext_in. intros x Hx.
  pose proof (fresh_id_above (map att_id rows) (att_id x) (in_map att_id _ _ Hx)) as Hlt.
  destruct (Z.eqb_spec (att_id x) (fresh_id (map att_id rows))) as [Heq | _];
    [lia | reflexivity].
Qed.

(** X14. Check-in, then check-out.  After a check-in answered 200 at
    [now1], when the open rows stored before it have earlier [check_in]s, a
    check-out request of the same user that names no [employee_id] is
    answered 200 whatever its instant [now2] and its day: the table after it
    is the table before the check-in with one more row, which has
    [check_in = now1], [check_out = now2] and as [working_hours] the time
    between the two in [HH:MM:SS]. *)
Theorem check_in_then_check_out (now1 now2 : Z) (user : User) (body1 : Body)
    (fields2 : list (string * json)) (db : Db) :
  status (check_in now1 (Some user) body1 db).1 = 200 ->
  truthy (dict_get fields2 "employee_id") = false ->
  (forall a, In a (attendances db) -> is_open a = true -> att_check_in a < now1) ->
  let first := check_in now1 (Some user) body1 db in
  let second := check_out now2 (Some user) (JsonBody (JObj fields2)) first.2 in
  exists row,
    attendances first.2 = attendances db ++ [row]
    /\ att_check_in row = now1
    /\ att_check_out row = None
    /\ status second.1 = 200
    /\ data second.1
       = Some (CheckOutData row now2 (dict_get fields2 "location")
                 (dict_get_default fields2 "notes" (JStr "")))
    /\ attendances second.2
       = attendances db
         ++ [{| att_id := att_id row;
                att_employee_id := att_employee_id row;
                att_check_in := now1;
                att_check_out := Some now2;
                att_working_hours := format_working_hours (now2 - now1);
                att_selfie_photo := att_selfie_photo row;
                att_latitude := att_latitude row;
                att_longitude := att_longitude row |}].
Proof.
  intros Hok Hfalsy Hpast. cbv zeta.
  assert (Hfirst :
            exists fields1,
              (check_in now1 (Some user) body1 db).2
              = with_attendances (check_in_employee user db).2
                  (attendances db ++
                   [{| att_id := fresh_id (map att_id (attendances db));
                       att_employee_id := employee_id (check_in_employee user db).1;
                       att_check_in := now1; att_check_out := None;
                       att_working_hours := "00:00:00";
                       att_selfie_photo := dict_get fields1 "selfie_photo";
                       att_latitude := dict_get fields1 "latitude";
                       att_longitude := dict_get fields1 "longitude" |}])).
  { revert Hok. unfold check_in.
    destruct body1 as [| | | [| | | | | | fields1]]; cbn [fst status _error_response];
      try discriminate.
    cbv zeta. pose proof (check_in_employee_attendances user db) as Hrows.
    destruct (negb _); cbn [fst status _error_response]; [discriminate |].
    rewrite Hrows.
    destruct (search_first _ (attendances db));
      cbn [fst status _error_response]; [discriminate |].
    intros _. exists fields1. cbn [snd]. rewrite stored_instant_is_now. reflexivity. }
  destruct Hfirst as (fields1 & Hdb). rewrite Hdb.
  set (employee := (check_in_employee user db).1) in *.
  set (db1 := (check_in_employee user db).2) in *.
  set (row := {| att_id := fresh_id (map att_id (attendances db));
                 att_employee_id := employee_id employee;
                 att_check_in := now1; att_check_out := None;
                 att_working_hours := "00:00:00";
                 att_selfie_photo := dict_get fields1 "selfie_photo";
                 att_latitude := dict_get fields1 "latitude";
                 att_longitude := dict_get fields1 "longitude" |}) in *.
  exists row. cbn [attendances with_attendances].
  split; [reflexivity |]. split; [reflexivity |]. split; [reflexivity |].
  assert (Hemployee :
            check_out_employee user (dict_get fields2 "employee_id")
              (with_attendances db1 (attendances db ++ [row]))
            = inr (Some employee)).
  { unfold check_out_employee. rewrite Hfalsy. cbn [employees with_attendances].
    rewrite find_head_filter. unfold db1. rewrite check_in_employee_linked.
    reflexivity. }
  assert (Hrow : In row (attendances (with_attendances db1 (attendances db ++ [row]))))
    by (cbn [attendances with_attendances]; apply in_or_app; right; apply in_eq).
  destruct (latest_open_row employee _ row Hrow eq_refl eq_refl)
    as (r & Hhead & Hr & Hremp & Hropen & Hlatest).
  assert (Hsame : r = row).
  { cbn [attendances with_attendances] in Hr.
    apply in_app_or in Hr. destruct Hr as [Hr | [Hr | []]]; [| symmetry; exact Hr].
    pose proof (Hlatest row Hrow eq_refl eq_refl) as Hle. cbn [att_check_in row] in Hle.
    specialize (Hpast r Hr Hropen). lia. }
  subst r.
  assert (Hfound :
            search_first
              (fun x => (att_employee_id x =? employee_id employee) && is_open x)
              (attendances (with_attendances db1 (attendances db ++ [row])))
            = Some row)
    by (unfold search_first; exact Hhead).
  unfold check_out. cbv zeta. rewrite Hemployee, Hfound.
  fold (_get_current_datetime_local now2). rewrite stored_instant_is_now.
  unfold sql_update, set_check_out.
  cbn [fst snd status data _json_response attendances with_attendances].
  split; [reflexivity |]. split; [reflexivity |].
  rewrite map_app. cbn [map att_id att_check_in row].
  rewrite (update_by_fresh_id
             (fun x => {| att_id := att_id x; att_employee_id := att_employee_id x;
                          att_check_in := att_check_in x; att_check_out := Some now2;
                          att_working_hours := format_working_hours (now2 - now1);
                          att_selfie_photo := att_selfie_photo x;
                          att_latitude := att_latitude x;
                          att_longitude := att_longitude x |})).
  rewrite Z.eqb_refl. reflexivity.
Qed.

(** X15. Check-out closes the latest open row, whatever its day.  For a
    request that names no [employee_id], when the user's employee has an
    open row, the answer is 200 and reports an open row of that employee
    with the latest [check_in] among them; there is no test on the date of
    that row.  That row is in the table afterwards with [check_out = now]
    and, as [working_hours], the time since its [check_in], its other fields
    as they were; every row with that row's id is so changed, and the other
    rows stay as they are. *)
Theorem check_out_closes_latest_open_row (now : Z) (user : User)
    (fields : list (string * json)) (employee : Employee) (db : Db) (a : Attendance) :
  truthy (dict_get fields "employee_id") = false ->
  List.find (employee_of_user user) (employees db) = Some employee ->
  In a (attendances db) ->
  att_employee_id a = employee_id employee ->
  is_open a = true ->
  let result := check_out now (Some user) (JsonBody (JObj fields)) db in
  exists r,
    let closed := fun x : Attendance =>
      {| att_id := att_id x;
         att_employee_id := att_employee_id x;
         att_check_in := att_check_in x;
         att_check_out := Some now;
         att_working_hours := format_working_hours (now - att_check_in r);
         att_selfie_photo := att_selfie_photo x;
         att_latitude := att_latitude x;
         att_longitude := att_longitude x |} in
    In r (attendances db)
    /\ att_employee_id r = employee_id employee
    /\ is_open r = true
    /\ att_check_in a <= att_check_in r
    /\ status result.1 = 200
    /\ data result.1
       = Some (CheckOutData r now (dict_get fields "location")
                 (dict_get_default fields "notes" (JStr "")))
    /\ In (closed r) (attendances result.2)
    /\ attendances result.2
       = map (fun x => if att_id x =? att_id r then closed x else x)
           (attendances db).
Proof.
  intros Hfalsy Hfind Hin Hemp Hopen. cbv zeta.
  assert (Hemployee :
            check_out_employee user (dict_get fields "employee_id") db
            = inr (Some employee)).
  { unfold check_out_employee. rewrite Hfalsy, Hfind. reflexivity. }
  destruct (latest_open_row employee (attendances db) a Hin Hemp Hopen)
    as (r & Hhead & Hr & Hremp & Hropen & Hlatest).
  assert (Hfound :
            search_first
              (fun x => (att_employee_id x =? employee_id employee) && is_open x)
              (attendances db) = Some r)
    by (unfold search_first; exact Hhead).
  exists r. cbv zeta.
  unfold check_out. cbv zeta. rewrite Hemployee, Hfound.
  fold (_get_current_datetime_local now). rewrite stored_instant_is_now.
  unfold sql_update, set_check_out.
  cbn [fst snd status data _json_response attendances with_attendances].
  split; [exact Hr |]. split; [exact Hremp |]. split; [exact Hropen |].
  split; [apply Hlatest; assumption |]. split; [reflexivity |].
  split; [reflexivity |]. split.
  - apply in_map_iff. exists r. split; [| exact Hr].
    rewrite Z.eqb_refl. reflexivity.
  - apply map_ext. intros x. destruct (att_id x =? att_id r); reflexivity.
Qed.

(** X16. Check-out for a named employee.  When the body's [employee_id]
    is a non-zero integer that is the id of an employee with an open row, the
    handler closes that employee's latest open row for any authenticated
    user: that row is in the table afterwards with [check_out = now] and, as
    [working_hours], the time since its [check_in].  The user's own employee
    is not looked at, and nothing relates the user to the employee named. *)
Theorem check_out_named_employee (now : Z) (user : User)
    (fields : list (string * json)) (z : Z) (employee : Employee) (db : Db)
    (a : Attendance) :
  dict_get fields "employee_id" = JInt z ->
  z <> 0 ->
  List.find (fun e => employee_id e =? z) (employees db) = Some employee ->
  In a (attendances db) ->
  att_employee_id a = z ->
  is_open a = true ->
  let result := check_out now (Some user) (JsonBody (JObj fields)) db in
  exists r,
    let closed := fun x : Attendance =>
      {| att_id := att_id x;
         att_employee_id := att_employee_id x;
         att_check_in := att_check_in x;
         att_check_out := Some now;
         att_working_hours := format_working_hours (now - att_check_in r);
         att_selfie_photo := att_selfie_photo x;
         att_latitude := att_latitude x;
         att_longitude := att_longitude x |} in
    In r (attendances db)
    /\ att_employee_id r = z
    /\ is_open r = true
    /\ att_check_in a <= att_check_in r
    /\ status result.1 = 200
    /\ In (closed r) (attendances result.2)
    /\ attendances result.2
       = map (fun x => if att_id x =? att_id r then closed x else x)
           (attendances db).
Proof.
  intros Hfield Hz Hfind Hin Hemp Hopen. cbv zeta.
  assert (Hid : employee_id employee = z).
  { apply find_some in Hfind. destruct Hfind as [_ Hid]. apply Z.eqb_eq, Hid. }
  assert (Hemployee :
            check_out_employee user (dict_get fields "employee_id") db
            = inr (Some employee)).
  { unfold check_out_employee. rewrite Hfield. cbn [truthy].
    destruct (Z.eqb_spec z 0) as [Hzero | _]; [contradiction |].
    cbn [negb]. rewrite Hfind. reflexivity. }
  rewrite <- Hid in Hemp.
  destruct (latest_open_row employee (attendances db) a Hin Hemp Hopen)
    as (r & Hhead & Hr & Hremp & Hropen & Hlatest).
  assert (Hfound :
            search_first
              (fun x => (att_employee_id x =? employee_id employee) && is_open x)
              (attendances db) = Some r)
    by (unfold search_first; exact Hhead).
  exists r. cbv zeta.
  unfold check_out. cbv zeta. rewrite Hemployee, Hfound.
  fold (_get_current_datetime_local now). rewrite stored_instant_is_now.
  unfold sql_update, set_check_out.
  cbn [fst snd status _json_response attendances with_attendances].
  split; [exact Hr |]. split; [congruence |]. split; [exact Hropen |].
  split; [apply Hlatest; assumption |]. split; [reflexivity |]. split.
  - apply in_map_iff. exists r. split; [| exact Hr].
    rewrite Z.eqb_refl. reflexivity.
  - apply map_ext. intros x. destruct (att_id x =? att_id r); reflexivity.
Qed.

(** X17. What a check-out never does.  Whatever the request, the
    check-out handler adds no row and removes none, and leaves employees and
    companies as they are: each row of the table is, after the request, as
    it was or as it was with [check_out = now] and another
    [working_hours]. *)
Theorem check_out_only_closes_rows (now : Z) (user : option User) (body : Body)
    (db : Db) :
  let result := check_out now user body db in
  Forall2
    (fun before after =>
       after = before \/ exists working_hours,
         after = set_check_out now working_hours before)
    (attendances db) (attendances result.2)
  /\ employees result.2 = employees db
  /\ companies result.2 = companies db
  /\ env_company result.2 = env_company db.
Proof.
  cbv zeta.
  assert (Hsame : forall rows : list Attendance,
             Forall2
               (fun before after =>
                  after = before \/ exists working_hours,
                    after = set_check_out now working_hours before)
               rows rows).
  { intros rows. induction rows as [| x rest IH]; constructor;
      [left; reflexivity | exact IH]. }
  unfold check_out.
  destruct user as [user |]; [| repeat split; apply Hsame].
  destruct body as [| | | [| | | | | | fields]]; try (repeat split; apply Hsame).
  cbv zeta.
  destruct (check_out_employee _ _ _) as [| [employee |]];
    try (repeat split; apply Hsame).
  destruct (search_first _ _) as [found |]; [| repeat split; apply Hsame].
  cbn [snd fst sql_update attendances employees companies env_company with_attendances].
  split; [| repeat split].
  fold (_get_current_datetime_local now). rewrite stored_instant_is_now.
  induction (attendances db) as [| x rest IH]; cbn [map]; constructor; [| exact IH].
  destruct (att_id x =? att_id found); [right; eexists; reflexivity | left; reflexivity].
Qed.

End CheckOut.

Lemma check_in_then_check_out_witness :
  let now1 := Clock.datetime 2025 1 1 9 0 0 0 in
  let now2 := Clock.datetime 2025 1 2 17 30 0 0 in
  let first := @check_in utc_runtime now1 (Some demo_user) checkin_at_office (demo_db []) in
  let second :=
    @check_out utc_runtime now2 (Some demo_user)
      (JsonBody (JObj [("location", JStr "Office")])) first.2 in
  status first.1 = 200
  /\ exists row,
       att_check_in row = now1
       /\ status second.1 = 200
       /\ exists closed,
            attendances second.2 = [closed]
            /\ att_id closed = att_id row
            /\ att_check_in closed = now1
            /\ att_check_out closed = Some now2
            /\ att_working_hours closed = "32:30:00"%string.
Proof.
  cbv zeta.
  assert (Hok : status (@check_in utc_runtime (Clock.datetime 2025 1 1 9 0 0 0)
                          (Some demo_user) checkin_at_office (demo_db [])).1 = 200)
    by (vm_compute; reflexivity).
  split; [exact Hok |].
  destruct (@check_in_then_check_out utc_runtime
              (Clock.datetime 2025 1 1 9 0 0 0) (Clock.datetime 2025 1 2 17 30 0 0)
              demo_user checkin_at_office [("location", JStr "Office")] (demo_db []) Hok)
    as (row & _ & Hin & _ & Hstatus & _ & Hrows).
  - reflexivity.
  - intros a [].
  - exists row. split; [exact Hin |]. split; [exact Hstatus |].
    eexists. split; [exact Hrows |]. repeat split; vm_compute; reflexivity.
Defined.

Lemma check_out_closes_latest_open_row_witness :
  let day1 := Clock.datetime 2025 1 1 9 0 0 0 in
  let day3 := Clock.datetime 2025 1 3 9 0 0 0 in
  let now := Clock.datetime 2025 1 5 17 0 0 0 in
  let db := demo_db [demo_row 1 day1 None; demo_row 2 day3 None] in
  let result := @check_out utc_runtime now (Some demo_user) (JsonBody (JObj [])) db in
  exists r,
    In r (attendances db)
    /\ att_check_in (demo_row 1 day1 None) <= att_check_in r
    /\ status result.1 = 200
    /\ exists closed,
         In closed (attendances result.2)
         /\ att_id closed = att_id r
         /\ att_check_out closed = Some now
         /\ att_working_hours closed = format_working_hours (now - att_check_in r).
Proof.
  cbv zeta.
  destruct (@check_out_closes_latest_open_row utc_runtime
              (Clock.datetime 2025 1 5 17 0 0 0) demo_user [] demo_employee
              (demo_db [demo_row 1 (Clock.datetime 2025 1 1 9 0 0 0) None;
                        demo_row 2 (Clock.datetime 2025 1 3 9 0 0 0) None])
              (demo_row 1 (Clock.datetime 2025 1 1 9 0 0 0) None))
    as (r & Hr & _ & _ & Hlatest & Hstatus & _ & Hclosed & _).
  - reflexivity.
  - reflexivity.
  - left. reflexivity.
  - reflexivity.
  - reflexivity.
  - exists r. split; [exact Hr |]. split; [exact Hlatest |].
    split; [exact Hstatus |].
    eexists. split; [exact Hclosed |]. repeat split; reflexivity.
Defined.

Lemma check_out_named_employee_witness :
  let now := Clock.datetime 2025 1 5 17 0 0 0 in
  let other := {| uid := 8; user_name := "Budi"; user_email := "budi@example.com" |} in
  let db := demo_db [demo_row 1 (Clock.datetime 2025 1 5 9 0 0 0) None] in
  let result :=
    @check_out utc_runtime now (Some other)
      (JsonBody (JObj [("employee_id", JInt 1)])) db in
  List.find (employee_of_user other) (employees db) = None
  /\ exists r,
       In r (attendances db) /\ att_employee_id r = 1 /\ status result.1 = 200
       /\ exists closed,
            In closed (attendances result.2)
            /\ att_id closed = att_id r
            /\ att_check_out closed = Some now.
Proof.
  cbv zeta. split; [reflexivity |].
  destruct (@check_out_named_employee utc_runtime
              (Clock.datetime 2025 1 5 17 0 0 0)
              {| uid := 8; user_name := "Budi"; user_email := "budi@example.com" |}
              [("employee_id", JInt 1)] 1 demo_employee
              (demo_db [demo_row 1 (Clock.datetime 2025 1 5 9 0 0 0) None])
              (demo_row 1 (Clock.datetime 2025 1 5 9 0 0 0) None))
    as (r & Hr & Hemp & _ & _ & Hstatus & Hclosed & _).
  - reflexivity.
  - lia.
  - reflexivity.
  - left. reflexivity.
  - reflexivity.
  - reflexivity.
  - exists r. split; [exact Hr |]. split; [exact Hemp |]. split; [exact Hstatus |].
    eexists. split; [exact Hclosed |]. split; reflexivity.
Defined.

(** ** Invariants of the attendance table over sequences of requests *)

Section ServeAll.
Context `{Runtime}.

Lemma toggle_cycle_rows (now : Z) (employee : Employee)
    (latitude longitude camera_image location : json) (distance : float) (db : Db) :
  let rows' :=
    attendances
      (toggle_cycle now employee latitude longitude camera_image location distance db).2 in
  rows' = attendances db
  \/ appends now (attendances db) rows'
  \/ closes now (attendances db) rows'.
Proof.
  cbv zeta.
  destruct (search_first (today_domain now employee) (attendances db)) as [r |] eqn:Hs.
  - destruct (att_check_out r) as [closed_at |] eqn:Hout.
    + rewrite (toggle_cycle_closed_record _ _ _ _ _ _ _ _ r closed_at Hs Hout).
      left. reflexivity.
    + rewrite (toggle_cycle_open_record _ _ _ _ _ _ _ _ r Hs Hout).
      right. right. exists r, (fun x => (att_id x =? att_id r) && is_open x).
      destruct (search_first_Some _ _ _ Hs) as [Hin _].
      split; [exact Hin |]. split; [unfold is_open; rewrite Hout; reflexivity |].
      split; [| reflexivity].
      intros x Hq. apply andb_true_iff in Hq. apply Z.eqb_eq, Hq.
  - rewrite (toggle_cycle_no_record _ _ _ _ _ _ _ _ Hs).
    right. left. eexists. split; [reflexivity |]. repeat split; reflexivity.
Qed.

Lemma toggle_rows (now : Z) (user : option User) (body : Body) (db : Db) :
  let rows' := attendances (toggle_checkin_checkout now user body db).2 in
  rows' = attendances db
  \/ appends now (attendances db) rows'
  \/ closes now (attendances db) rows'.
Proof.
  cbv zeta. unfold toggle_checkin_checkout.
  destruct user as [user |]; [| left; reflexivity].
  destruct (toggle_request_data body) as [[| | | | | | fields] |];
    try (left; reflexivity).
  destruct (negb _ || negb _); [left; reflexivity |].
  destruct (negb _); [left; reflexivity |].
  cbv zeta.
  pose proof (toggle_employee_attendances user db) as Hrows.
  destruct (py_float (dict_get fields "latitude")); [| left; exact Hrows].
  destruct (py_float (dict_get fields "longitude")); [| left; exact Hrows].
  destruct (geodesic_meters _ _) as [distance |]; [| left; exact Hrows].
  destruct (negb _); [left; exact Hrows |].
  pose proof (toggle_cycle_rows now (toggle_employee user db).1
                (dict_get fields "latitude") (dict_get fields "longitude")
                (dict_get fields "camera_image")
                (dict_get_default fields "location" (JStr "Unknown Location"))
                distance (toggle_employee user db).2) as Hcases.
  cbv zeta in Hcases. rewrite Hrows in Hcases. exact Hcases.
Qed.

Lemma check_in_rows (now : Z) (user : option User) (body : Body) (db : Db) :
  let rows' := attendances (check_in now user body db).2 in
  rows' = attendances db \/ appends now (attendances db) rows'.
Proof.
  cbv zeta. unfold check_in.
  destruct user as [user |]; [| left; reflexivity].
  destruct body as [| | | [| | | | | | fields]]; try (left; reflexivity).
  cbv zeta. pose proof (check_in_employee_attendances user db) as Hrows.
  destruct (negb _); [left; exact Hrows |].
  destruct (search_first _ _); [left; exact Hrows |].
  right. eexists.
  cbn [snd attendances with_attendances att_check_in att_check_out att_id].
  rewrite Hrows, stored_instant_is_now. repeat split; reflexivity.
Qed.

Lemma check_out_rows (now : Z) (user : option User) (body : Body) (db : Db) :
  let rows' := attendances (check_out now user body db).2 in
  rows' = attendances db \/ closes now (attendances db) rows'.
Proof.
  cbv zeta. unfold check_out.
  destruct user as [user |]; [| left; reflexivity].
  destruct body as [| | | [| | | | | | fields]]; try (left; reflexivity).
  cbv zeta.
  destruct (check_out_employee _ _ _) as [| [employee |]]; try (left; reflexivity).
  destruct (search_first _ _) as [found |] eqn:Hs; [| left; reflexivity].
  right. destruct (search_first_Some _ _ _ Hs) as [Hin Hdom].
  apply andb_true_iff in Hdom. destruct Hdom as [_ Hopen].
  exists found, (fun x => att_id x =? att_id found).
  split; [exact Hin |]. split; [exact Hopen |].
  split; [intros x Hq; apply Z.eqb_eq, Hq |].
  cbn [snd fst sql_update attendances with_attendances].
  fold (_get_current_datetime_local now). rewrite stored_instant_is_now. reflexivity.
Qed.

Lemma serve_rows (r : Request) (db : Db) :
  let rows' := attendances (serve r db).2 in
  rows' = attendances db
  \/ appends (request_time r) (attendances db) rows'
  \/ closes (request_time r) (attendances db) rows'.
Proof.
  destruct r as [now user body | now user body | now user body];
    cbn [serve request_time].
  - apply toggle_rows.
  - destruct (check_in_rows now user body db) as [Hsame | Happ];
      [left; exact Hsame | right; left; exact Happ].
  - destruct (check_out_rows now user body db) as [Hsame | Hclose];
      [left; exact Hsame | right; right; exact Hclose].
Qed.

Lemma NoDup_snoc {A : Type} (l : list A) (x : A) :
  List.NoDup l -> ~ In x l -> List.NoDup (l ++ [x]).
Proof.
  induction l as [| a rest IH]; intros Hnd Hfresh; cbn [app].
  - constructor; [intros [] | constructor].
  - apply List.NoDup_cons_iff in Hnd. destruct Hnd as [Ha Hnd].
    apply List.NoDup_cons_iff. split.
    + intros Hin. apply in_app_or in Hin. destruct Hin as [Hin | [Hin | []]].
      * exact (Ha Hin).
      * apply Hfresh. left. symmetry. exact Hin.
    + apply IH; [exact Hnd |]. intros Hin. apply Hfresh. right. exact Hin.
Qed.

Lemma closing_ids (q : Attendance -> bool) (check_out_utc : Z) (working_hours : string)
    (rows : list Attendance) :
  map att_id
    (map (fun x => if q x then set_check_out check_out_utc working_hours x else x) rows)
  = map att_id rows.
Proof.
  rewrite map_map. apply map_ext. intros x. destruct (q x); reflexivity.
Qed.

Lemma serve_keeps_ids (r : Request) (db : Db) :
  List.NoDup (map att_id (attendances db)) ->
  List.NoDup (map att_id (attendances (serve r db).2)).
Proof.
  intros Hnd.
  destruct (serve_rows r db)
    as [-> | [(record & -> & _ & _ & Hid) | (found & q & _ & _ & _ & ->)]].
  - exact Hnd.
  - rewrite map_app. cbn [map]. apply NoDup_snoc; [exact Hnd |].
    intros Hin. apply fresh_id_above in Hin. lia.
  - rewrite closing_ids. exact Hnd.
Qed.

Lemma serve_keeps_closed (r : Request) (db : Db) (a : Attendance) :
  List.NoDup (map att_id (attendances db)) ->
  In a (attendances db) -> is_open a = false ->
  In a (attendances (serve r db).2).
Proof.
  intros Hnd Hin Hclosed.
  destruct (serve_rows r db)
    as [-> | [(record & -> & _) | (found & q & Hfound & Hopen & Hq & ->)]].
  - exact Hin.
  - apply in_or_app. left. exact Hin.
  - apply in_map_iff. exists a. split; [| exact Hin].
    destruct (q a) eqn:Hqa; [| reflexivity].
    pose proof (same_id_same_row _ _ _ Hnd Hin Hfound (Hq a Hqa)) as ->.
    congruence.
Qed.

Lemma serve_keeps_consistent (r : Request) (db : Db) :
  List.NoDup (map att_id (attendances db)) ->
  List.Forall working_hours_consistent (attendances db) ->
  List.Forall working_hours_consistent (attendances (serve r db).2).
Proof.
  intros Hnd Hall. rewrite List.Forall_forall in Hall. apply List.Forall_forall.
  destruct (serve_rows r db)
    as [-> | [(record & -> & _ & Hout & _) | (found & q & Hfound & _ & Hq & ->)]].
  - exact Hall.
  - intros x Hx. apply in_app_or in Hx. destruct Hx as [Hx | [<- | []]].
    + apply Hall, Hx.
    + unfold working_hours_consistent. rewrite Hout. exact I.
  - intros x' Hx'. apply in_map_iff in Hx'. destruct Hx' as (x & <- & Hx).
    destruct (q x) eqn:Hqx; [| apply Hall, Hx].
    pose proof (same_id_same_row _ _ _ Hnd Hx Hfound (Hq x Hqx)) as ->.
    reflexivity.
Qed.

Lemma serve_check_ins (r : Request) (db : Db) (a' : Attendance) :
  In a' (attendances (serve r db).2) ->
  (exists a, In a (attendances db) /\ att_check_in a' = att_check_in a)
  \/ att_check_in a' = request_time r.
Proof.
  destruct (serve_rows r db)
    as [-> | [(record & -> & Hin & _) | (found & q & _ & _ & _ & ->)]]; intros Ha.
  - left. exists a'. split; [exact Ha | reflexivity].
  - apply in_app_or in Ha. destruct Ha as [Ha | [<- | []]].
    + left. exists a'. split; [exact Ha | reflexivity].
    + right. exact Hin.
  - apply in_map_iff in Ha. destruct Ha as (x & <- & Hx).
    left. exists x. split; [exact Hx |]. destruct (q x); reflexivity.
Qed.

Lemma serve_all_cons (r : Request) (rest : list Request) (db : Db) :
  serve_all (r :: rest) db = serve_all rest (serve r db).2.
Proof. reflexivity. Qed.

(** X19. Unique ids and consistent working hours.  When the ids of the
    attendance rows are unique and every row that has a [check_out] has as
    [working_hours] the time between its own [check_in] and [check_out] in
    [HH:MM:SS], both still hold after any sequence of toggle, check-in and
    check-out requests, whatever they carry and whenever they are served. *)
Theorem serve_all_keeps_rows_consistent (requests : list Request) (db : Db) :
  List.NoDup (map att_id (attendances db)) ->
  List.Forall working_hours_consistent (attendances db) ->
  List.NoDup (map att_id (attendances (serve_all requests db)))
  /\ List.Forall working_hours_consistent (attendances (serve_all requests db)).
Proof.
  revert db. induction requests as [| r rest IH]; intros db Hnd Hall;
    [split; assumption |].
  rewrite serve_all_cons. apply IH.
  - apply serve_keeps_ids, Hnd.
  - apply serve_keeps_consistent; assumption.
Qed.

(** X20. Closed rows are final.  When the ids of the attendance rows are
    unique, a row that has its [check_out] is still in the table, with every
    field as it was, after any sequence of toggle, check-in and check-out
    requests. *)
Theorem serve_all_keeps_closed_rows (requests : list Request) (db : Db)
    (a : Attendance) :
  List.NoDup (map att_id (attendances db)) ->
  In a (attendances db) ->
  is_open a = false ->
  In a (attendances (serve_all requests db)).
Proof.
  revert db. induction requests as [| r rest IH]; intros db Hnd Hin Hclosed;
    [exact Hin |].
  rewrite serve_all_cons. apply IH.
  - apply serve_keeps_ids, Hnd.
  - apply serve_keeps_closed; assumption.
  - exact Hclosed.
Qed.

Lemma serve_keeps_at_most_one_open (r : Request) (db : Db) :
  server_utc_offset = 0 ->
  (forall now user body,
     r = CheckIn now user body ->
     now <= Clock.midnight (Clock.date_of now) + 86399 * Clock.us_per_second) ->
  (forall a, In a (attendances db) -> att_check_in a <= request_time r) ->
  at_most_one_open Clock.date_of (attendances db) ->
  at_most_one_open Clock.date_of (attendances (serve r db).2).
Proof.
  intros Hutc Hearly Hpast Hinv.
  destruct r as [now user body | now user body | now user body]; cbn [serve].
  - apply toggle_keeps_at_most_one_open; assumption.
  - apply check_in_keeps_at_most_one_open_before_last_second;
      [exact Hutc | apply (Hearly now user body eq_refl) | exact Hpast | exact Hinv].
  - apply check_out_keeps_at_most_one_open, Hinv.
Qed.

(** X21. One open row per employee and day, over a sequence.  On a server
    whose clock is in UTC, take requests served at instants that do not
    decrease, none earlier than a stored [check_in], the check-in requests
    among them served no later than [23:59:59.000000] of their day.  When
    every employee has at most one open row per UTC day before them, the
    same holds after them. *)
Theorem serve_all_keeps_at_most_one_open (requests : list Request) (db : Db) :
  server_utc_offset = 0 ->
  Sorted Z.le (map request_time requests) ->
  (forall a r, In a (attendances db) -> In r requests ->
     att_check_in a <= request_time r) ->
  (forall now user body,
     In (CheckIn now user body) requests ->
     now <= Clock.midnight (Clock.date_of now) + 86399 * Clock.us_per_second) ->
  at_most_one_open Clock.date_of (attendances db) ->
  at_most_one_open Clock.date_of (attendances (serve_all requests db)).
Proof.
  intros Hutc Hsorted. apply Sorted_StronglySorted in Hsorted;
    [| intros x y z; apply Z.le_trans].
  revert db. induction requests as [| r rest IH]; intros db Hpast Hearly Hinv;
    [exact Hinv |].
  cbn [map] in Hsorted. apply StronglySorted_inv in Hsorted.
  destruct Hsorted as [Hsorted Hfirst]. rewrite List.Forall_forall in Hfirst.
  rewrite serve_all_cons. apply (IH Hsorted).
  - intros a' r' Ha' Hr'.
    assert (Hle : request_time r <= request_time r')
      by (apply Hfirst, in_map, Hr').
    destruct (serve_check_ins r db a' Ha') as [(a & Ha & ->) | ->];
      [apply Hpast; [exact Ha | right; exact Hr'] | exact Hle].
  - intros now user body Hin. apply (Hearly now user body). right. exact Hin.
  - apply serve_keeps_at_most_one_open.
    + exact Hutc.
    + intros now user body ->. apply (Hearly now user body). left. reflexivity.
    + intros a Ha. apply Hpast; [exact Ha | left; reflexivity].
    + exact Hinv.
Qed.

End ServeAll.

Lemma serve_all_keeps_rows_consistent_witness :
  let requests :=
    [Toggle (Clock.datetime 2025 1 1 9 0 0 0) (Some demo_user) at_office;
     CheckOut (Clock.datetime 2025 1 1 17 0 0 0) (Some demo_user) (JsonBody (JObj []))] in
  let db := demo_db [demo_row 1 (Clock.datetime 2024 12 31 9 0 0 0) None] in
  List.NoDup (map att_id (attendances (@serve_all utc_runtime requests db)))
  /\ List.Forall working_hours_consistent
       (attendances (@serve_all utc_runtime requests db)).
Proof.
  cbv zeta. apply (@serve_all_keeps_rows_consistent utc_runtime).
  - cbn [map attendances demo_db]. constructor; [intros [] | constructor].
  - cbn [attendances demo_db]. constructor; [exact I | constructor].
Defined.

Lemma serve_all_keeps_closed_rows_witness :
  let requests :=
    [Toggle (Clock.datetime 2025 1 1 9 0 0 0) (Some demo_user) at_office;
     CheckOut (Clock.datetime 2025 1 1 17 0 0 0) (Some demo_user) (JsonBody (JObj []))] in
  let closed :=
    demo_row 1 (Clock.datetime 2024 12 31 9 0 0 0)
      (Some (Clock.datetime 2024 12 31 17 0 0 0)) in
  In closed (attendances (@serve_all utc_runtime requests (demo_db [closed]))).
Proof.
  cbv zeta. apply (@serve_all_keeps_closed_rows utc_runtime).
  - cbn [map attendances demo_db]. constructor; [intros [] | constructor].
  - left. reflexivity.
  - reflexivity.
Defined.

Lemma serve_all_keeps_at_most_one_open_witness :
  let requests :=
    [CheckIn (Clock.datetime 2025 1 1 9 0 0 0) (Some demo_user) checkin_at_office;
     Toggle (Clock.datetime 2025 1 1 12 0 0 0) (Some demo_user) at_office;
     CheckIn (Clock.datetime 2025 1 1 13 0 0 0) (Some demo_user) checkin_at_office] in
  let db := demo_db [demo_row 1 (Clock.datetime 2024 12 31 9 0 0 0) None] in
  at_most_one_open Clock.date_of (attendances (@serve_all utc_runtime requests db)).
Proof.
  cbv zeta. apply (@serve_all_keeps_at_most_one_open utc_runtime).
  - reflexivity.
  - repeat constructor; vm_compute; discriminate.
  - intros a r [<- | []] [<- | [<- | [<- | []]]]; vm_compute; discriminate.
  - intros now user body [Heq | [Heq | [Heq | []]]]; try discriminate;
      injection Heq as <- _ _; vm_compute; discriminate.
  - intros employee day. cbn [attendances demo_db List.filter].
    destruct (open_on _ _ _ _); cbn [length]; lia.
Defined.

(** ** The dashboard and the status endpoint *)

Section Dashboard.
Context `{Runtime}.

Lemma toggle_employee_found (user : User) (db : Db) :
  List.find (employee_of_user user) (employees (toggle_employee user db).2)
  = Some (toggle_employee user db).1.
Proof.
  unfold toggle_employee.
  destruct (List.find (employee_of_user user) (employees db)) as [e |] eqn:Hfind;
    cbn [fst snd employees with_employees].
  - exact Hfind.
  - apply (find_app_last _ _ _ Hfind (new_employee_of_user user db)).
Qed.

Lemma toggle_cycle_employees (now : Z) (employee : Employee)
    (latitude longitude camera_image location : json) (distance : float) (db : Db) :
  employees
    (toggle_cycle now employee latitude longitude camera_image location distance db).2
  = employees db.
Proof.
  unfold toggle_cycle.
  destruct (search_first _ _) as [r |]; [| reflexivity].
  destruct (att_check_out r); [reflexivity |].
  cbv zeta. destruct (_ =? _)%nat; reflexivity.
Qed.

(** A toggle that answers with data went through the attendance cycle. *)
Lemma toggle_data_inv (now : Z) (user : User) (body : Body) (db : Db)
    (d : response_data) :
  data (toggle_checkin_checkout now (Some user) body db).1 = Some d ->
  exists latitude longitude camera_image location distance,
    toggle_checkin_checkout now (Some user) body db
    = toggle_cycle now (toggle_employee user db).1
        latitude longitude camera_image location distance (toggle_employee user db).2.
Proof.
  unfold toggle_checkin_checkout.
  destruct (toggle_request_data body) as [[| | | | | | fields] |];
    cbn [fst data _error_response]; try discriminate.
  destruct (negb _ || negb _); cbn [fst data _error_response]; [discriminate |].
  destruct (negb _); cbn [fst data _error_response]; [discriminate |].
  cbv zeta.
  destruct (py_float (dict_get fields "latitude"));
    cbn [fst data _error_response]; [| discriminate].
  destruct (py_float (dict_get fields "longitude"));
    cbn [fst data _error_response]; [| discriminate].
  destruct (geodesic_meters _ _) as [distance |];
    cbn [fst data _error_response]; [| discriminate].
  destruct (negb _); cbn [fst data _error_response]; [discriminate |].
  intros _. do 5 eexists. reflexivity.
Qed.

Lemma aware_sub_utc (a b : Z) :
  aware_sub (Clock.utc_localize a) (Clock.utc_localize b) = a - b.
Proof. unfold aware_sub, Clock.utc_localize. cbn [Clock.wall Clock.utcoffset]. lia. Qed.

Lemma aware_sub_local (now check_in : Z) :
  aware_sub (_get_current_datetime_local now)
    (Clock.astimezone Clock.indonesia_tz (Clock.utc_localize check_in))
  = now - check_in.
Proof.
  unfold aware_sub, _get_current_datetime_local, Clock.now_in, Clock.astimezone,
    Clock.utc_localize.
  cbn [Clock.wall Clock.utcoffset]. lia.
Qed.

Lemma search_first_ext (domain domain' : Attendance -> bool) (rows : list Attendance) :
  (forall a, In a rows -> domain a = domain' a) ->
  search_first domain rows = search_first domain' rows.
Proof.
  intros Hext. unfold search_first. f_equal. apply filter_ext_in.
  intros a Ha. apply Hext, in_order_check_in_desc, Ha.
Qed.

(** X22. The dashboard after a toggle.  After a toggle that answered
    with data [d], the dashboard of the same user, asked at an instant of the
    same server day, finds the same employee.  After a check-out it reports
    [is_checked_in = false], the toggle's [time_local] as check-out time and
    the toggle's [working_hours].  After a check-in served while the UTC date
    is the server's date, it reports [is_checked_in = true], the toggle's
    [time_local] as check-in time and the time since the check-in as working
    hours; after a check-in served while the two dates differ, it reports no
    attendance for today. *)
Theorem dashboard_after_toggle (now now' : Z) (user : User) (body : Body) (db : Db)
    (d : toggle_data) :
  data (toggle_checkin_checkout now (Some user) body db).1 = Some (ToggleData d) ->
  server_today now' = server_today now ->
  let result := toggle_checkin_checkout now (Some user) body db in
  let employee := (toggle_employee user db).1 in
  let shown := dashboard_current_status now' employee (attendances result.2) in
  List.find (employee_of_user user) (employees result.2) = Some employee
  /\ (is_checked_in d = false ->
      cs_is_checked_in shown = false
      /\ cs_check_out_time shown = time_local d
      /\ Some (cs_working_hours shown) = td_working_hours d)
  /\ (is_checked_in d = true ->
      Clock.date_of now = server_today now ->
      cs_is_checked_in shown = true
      /\ cs_check_in_time shown = time_local d
      /\ cs_check_out_time shown = ""
      /\ cs_working_hours shown = format_working_hours (now' - now))
  /\ (is_checked_in d = true ->
      Clock.date_of now <> server_today now ->
      shown = {| cs_is_checked_in := false; cs_check_in_time := "";
                 cs_check_out_time := ""; cs_working_hours := "00:00:00" |}).
Proof.
  intros Hdata Hday. cbv zeta.
  destruct (toggle_data_inv now user body db _ Hdata)
    as (latitude & longitude & camera_image & location & distance & Hcycle).
  rewrite Hcycle in Hdata |- *.
  set (employee := (toggle_employee user db).1) in *.
  set (db1 := (toggle_employee user db).2) in *.
  split; [rewrite toggle_cycle_employees; apply toggle_employee_found |].
  unfold dashboard_current_status.
  destruct (search_first (today_domain now employee) (attendances db1))
    as [r |] eqn:Hs.
  - destruct (att_check_out r) as [closed_at |] eqn:Hout.
    + rewrite (toggle_cycle_closed_record _ _ _ _ _ _ _ _ r closed_at Hs Hout) in Hdata.
      discriminate.
    + rewrite (toggle_cycle_open_record _ _ _ _ _ _ _ _ r Hs Hout) in Hdata |- *.
      cbn [fst snd data _json_response attendances with_attendances] in Hdata |- *.
      injection Hdata as <-.
      cbn [is_checked_in time_local td_working_hours].
      split; [| split; intros Hin; discriminate Hin].
      intros _.
      rewrite (search_first_map (today_domain now' employee)).
      * rewrite (search_first_ext (today_domain now' employee) (today_domain now employee))
          by (intros a _; apply today_domain_same_day, Hday).
        rewrite Hs. cbn [option_map]. rewrite Z.eqb_refl.
        assert (Hopen : is_open r = true) by (unfold is_open; rewrite Hout; reflexivity).
        rewrite Hopen. cbn [andb].
        cbn [is_open set_check_out att_check_out att_check_in cs_is_checked_in
               cs_check_out_time cs_working_hours].
        rewrite aware_sub_utc. repeat split; reflexivity.
      * intros x. destruct ((att_id x =? att_id r) && is_open x); reflexivity.
      * intros x. destruct ((att_id x =? att_id r) && is_open x); reflexivity.
  - rewrite (toggle_cycle_no_record _ _ _ _ _ _ _ _ Hs) in Hdata |- *.
    cbn [fst snd data _json_response attendances with_attendances] in Hdata |- *.
    injection Hdata as <-.
    cbn [is_checked_in time_local td_working_hours].
    set (record := {| att_id := fresh_id (map att_id (attendances db1));
                      att_employee_id := employee_id employee;
                      att_check_in := now; att_check_out := None;
                      att_working_hours := "00:00:00";
                      att_selfie_photo := camera_image;
                      att_latitude := latitude; att_longitude := longitude |}).
    split; [intros Hin; discriminate Hin |]. split.
    + intros _ Hdate.
      assert (Hrecord : today_domain now' employee record = true).
      { apply today_domain_iff. cbn [att_employee_id att_check_in record].
        split; [reflexivity | congruence]. }
      rewrite (search_first_unique (today_domain now' employee) _ record).
      * cbn [is_open att_check_out att_check_in record cs_is_checked_in
               cs_check_in_time cs_check_out_time cs_working_hours].
        rewrite aware_sub_local. repeat split; reflexivity.
      * apply in_or_app. right. left. reflexivity.
      * exact Hrecord.
      * intros a Ha Hdom. apply in_app_or in Ha. destruct Ha as [Ha | [<- | []]];
          [| reflexivity].
        rewrite (today_domain_same_day now now' employee a Hday) in Hdom.
        rewrite (proj1 (search_first_None _ _) Hs a Ha) in Hdom. discriminate.
    + intros _ Hdate.
      assert (Hnone : search_first (today_domain now' employee)
                        (attendances db1 ++ [record]) = None).
      { apply search_first_None. intros a Ha.
        apply in_app_or in Ha. destruct Ha as [Ha | [<- | []]].
        - rewrite (today_domain_same_day now now' employee a Hday).
          apply (proj1 (search_first_None _ _) Hs a Ha).
        - destruct (today_domain now' employee record) eqn:Hdom; [| reflexivity].
          apply today_domain_iff in Hdom. destruct Hdom as [_ Hdom].
          cbn [att_check_in record] in Hdom. exfalso. apply Hdate. congruence. }
      rewrite Hnone. reflexivity.
Qed.

(** X23. The status endpoint and the dashboard.  The status endpoint
    looks for today's row up to [23:59:59], the dashboard up to the next
    midnight.  For an employee none of whose rows has its [check_in] after
    [23:59:59.000000] of the server's day and before the next midnight, the
    two report the same [is_checked_in] and the same check-in and check-out
    instants, whoever the authenticated user is. *)
Theorem status_agrees_with_dashboard (now : Z) (user : User) (employee : Employee)
    (db : Db) :
  List.find (fun e => employee_id e =? employee_id employee) (employees db)
  = Some employee ->
  (forall a, In a (attendances db) ->
     att_employee_id a = employee_id employee ->
     att_check_in a <= Clock.midnight (server_today now) + 86399 * Clock.us_per_second
     \/ Clock.midnight (server_today now + 1) <= att_check_in a) ->
  let shown := dashboard_current_status now employee (attendances db) in
  exists sd,
    get_attendance_status now (Some user) (employee_id employee) db
    = {| sr_status := 200; sr_success := true;
         sr_message := Msg "Attendance status retrieved successfully";
         sr_data := Some sd |}
    /\ sd_is_checked_in sd = cs_is_checked_in shown
    /\ cs_check_in_time shown
       = match sd_check_in sd with Some t => _format_time_local t | None => "" end
    /\ cs_check_out_time shown
       = match sd_check_out sd with Some t => _format_time_local t | None => "" end.
Proof.
  intros Hfind Hrows. cbv zeta.
  unfold get_attendance_status, dashboard_current_status. rewrite Hfind.
  assert (Hsame : search_first (status_domain now (employee_id employee)) (attendances db)
                  = search_first (today_domain now employee) (attendances db)).
  { apply search_first_ext. intros a Ha. unfold status_domain, today_domain. cbv zeta.
    destruct (Z.eqb_spec (att_employee_id a) (employee_id employee)) as [Hemp | _];
      [| reflexivity].
    cbn [andb]. f_equal.
    destruct (Hrows a Ha Hemp) as [Hle | Hge].
    - assert (Hlt : att_check_in a < Clock.midnight (server_today now + 1)).
      { unfold Clock.midnight in *. rewrite us_per_day_eq, us_per_second_eq in *. lia. }
      apply Z.leb_le in Hle. apply Z.ltb_lt in Hlt. congruence.
    - assert (Hgt : ~ att_check_in a
                      <= Clock.midnight (server_today now) + 86399 * Clock.us_per_second).
      { unfold Clock.midnight in *. rewrite us_per_day_eq, us_per_second_eq in *. lia. }
      apply Z.leb_nle in Hgt. apply Z.ltb_ge in Hge. congruence. }
  rewrite Hsame.
  destruct (search_first (today_domain now employee) (attendances db)) as [r |];
    eexists; (split; [reflexivity |]);
    cbn [sd_is_checked_in sd_check_in sd_check_out cs_is_checked_in
           cs_check_in_time cs_check_out_time].
  - repeat split; reflexivity.
  - repeat split; reflexivity.
Qed.

End Dashboard.

Lemma dashboard_after_toggle_witness :
  let now := Clock.datetime 2025 1 1 9 0 0 0 in
  let now' := Clock.datetime 2025 1 1 12 30 0 0 in
  let result :=
    @toggle_checkin_checkout utc_runtime now (Some demo_user) at_office (demo_db []) in
  let shown :=
    @dashboard_current_status utc_runtime now' demo_employee (attendances result.2) in
  cs_is_checked_in shown = true
  /\ cs_working_hours shown = format_working_hours (now' - now).
Proof.
  cbv zeta.
  assert (Hd : { d | data (@toggle_checkin_checkout utc_runtime
                             (Clock.datetime 2025 1 1 9 0 0 0)
                             (Some demo_user) at_office (demo_db [])).1
                     = Some (ToggleData d)
                     /\ is_checked_in d = true })
    by (eexists; split; vm_compute; reflexivity).
  destruct Hd as (d & Hd & Hin).
  destruct (@dashboard_after_toggle utc_runtime
              (Clock.datetime 2025 1 1 9 0 0 0) (Clock.datetime 2025 1 1 12 30 0 0)
              demo_user at_office (demo_db []) d Hd)
    as (_ & _ & Hshown & _).
  - vm_compute. reflexivity.
  - destruct (Hshown Hin) as (Hchecked & _ & _ & Hhours).
    + vm_compute. reflexivity.
    + split; [exact Hchecked | exact Hhours].
Defined.

Lemma status_agrees_with_dashboard_witness :
  let now := Clock.datetime 2025 1 1 12 0 0 0 in
  let db := demo_db [demo_row 1 (Clock.datetime 2025 1 1 9 0 0 0) None] in
  exists sd,
    sr_data (@get_attendance_status utc_runtime now (Some demo_user) 1 db) = Some sd
    /\ sd_is_checked_in sd
       = cs_is_checked_in
           (@dashboard_current_status utc_runtime now demo_employee (attendances db)).
Proof.
  cbv zeta.
  destruct (@status_agrees_with_dashboard utc_runtime
              (Clock.datetime 2025 1 1 12 0 0 0) demo_user demo_employee
              (demo_db [demo_row 1 (Clock.datetime 2025 1 1 9 0 0 0) None]))
    as (sd & Hstatus & Hchecked & _).
  - reflexivity.
  - intros a [<- | []] _. left. vm_compute. discriminate.
  - exists sd. split; [| exact Hchecked].
    change (employee_id demo_employee) with 1 in Hstatus.
    rewrite Hstatus. reflexivity.
Defined.

(** ** One employee per user *)

Section CheckInEmployees.
Context `{Runtime}.

Lemma check_in_employee_others (user other : User) (db : Db) :
  uid other <> uid user ->
  List.filter (employee_of_user other) (employees (check_in_employee user db).2)
  = List.filter (employee_of_user other) (employees db).
Proof.
  intros Hne. unfold check_in_employee.
  destruct (List.filter (employee_of_user user) (employees db))
    as [| e [| e' rest]]; cbn [fst snd employees with_employees].
  - rewrite List.filter_app. cbn [List.filter].
    assert (Hnew : employee_of_user other (new_employee user db) = false).
    { unfold employee_of_user, new_employee. cbn [employee_user_id].
      apply Z.eqb_neq. congruence. }
    rewrite Hnew. apply app_nil_r.
  - reflexivity.
  - apply detach_after_first_other, Hne.
Qed.

(** X18. One employee per user after a check-in.  Whatever a check-in
    request with a JSON object as body is answered (outside the radius and
    already checked in included), after it exactly one employee is linked to
    the user, the one the handler acted for; when the user had employees
    before, it is the first of them.  The employees linked to users with
    another id are the same as before. *)
Theorem check_in_links_one_employee (now : Z) (user : User)
    (fields : list (string * json)) (db : Db) :
  let result := check_in now (Some user) (JsonBody (JObj fields)) db in
  List.filter (employee_of_user user) (employees result.2)
  = [(check_in_employee user db).1]
  /\ (forall first rest,
        List.filter (employee_of_user user) (employees db) = first :: rest ->
        (check_in_employee user db).1 = first)
  /\ (forall other,
        uid other <> uid user ->
        List.filter (employee_of_user other) (employees result.2)
        = List.filter (employee_of_user other) (employees db)).
Proof.
  cbv zeta.
  assert (Hemployees :
            employees (check_in now (Some user) (JsonBody (JObj fields)) db).2
            = employees (check_in_employee user db).2).
  { unfold check_in. cbv zeta.
    destruct (negb _); [reflexivity |].
    destruct (search_first _ _); reflexivity. }
  rewrite Hemployees. split; [apply check_in_employee_linked |]. split.
  - intros first rest Hf. unfold check_in_employee. rewrite Hf.
    destruct rest; reflexivity.
  - intros other Hne. apply check_in_employee_others, Hne.
Qed.

End CheckInEmployees.
